(** * A-kill strategy: pattern detection, scoring and position lifecycle

    Shallow embedding of [src/main.py] (a JoinQuant strategy) and the
    properties of its wave segmenter, three-wave detector, consolidation
    detector, composite scorer and exit checks.

    Conventions of the embedding.
    - numpy/pandas float values are exact rationals ([Q]); rounding and
      non-finite values are not modelled.  Bars carry positive prices, so the
      quotients of the source never divide by zero in the detectors; on the
      position side Python's [ZeroDivisionError] is modelled explicitly.
    - Python [int] indices are [nat]; every [a - b] on indices below is
      guarded in the source so that truncated subtraction agrees with it
      ([max(0, i-3)] is written out as in the source).
    - [g.positions], which the exit checks walk in insertion order, is the
      list of its items ([Dict]); the dicts that are only looked up are
      [gmap string _].
    - The platform is part of what a call is given: [order_target(code, 0)]
      may return or raise, and it changes the account's holding of [code]
      and of no other instrument.
    - Calendar dates are day numbers ([Z]). *)

From Stdlib Require Import ZArith QArith Lqa Lia List Bool Sorted.
From stdpp Require Import base option list strings gmap fin_maps.

Local Open Scope Q_scope.

(** ** Numbers and sequences *)

Definition Qleb (x y : Q) : bool := Qle_bool x y.
Definition Qltb (x y : Q) : bool := negb (Qle_bool y x).

(** [range(a, b)] *)
Definition range (a b : nat) : list nat := seq a (b - a).

(** [l[a:b]] for [0 <= a], [0 <= b]: slices never raise. *)
Definition slice {A} (a b : nat) (l : list A) : list A := take (b - a) (drop a l).

(** [closes[i]]; every use below is inside a [range] bounded by [len(data)]. *)
Definition item (l : list Q) (i : nat) : Q := nth i l 0.

(** builtin [max]/[min] over a non-empty sequence: the first extremal element. *)
Definition py_max (l : list Q) : Q :=
  match l with
  | [] => 0
  | x :: t => fold_left (fun m y => if Qltb m y then y else m) t x
  end.

Definition py_min (l : list Q) : Q :=
  match l with
  | [] => 0
  | x :: t => fold_left (fun m y => if Qltb y m then y else m) t x
  end.

Definition Qsum (l : list Q) : Q := fold_right Qplus 0 l.

(** [np.mean] *)
Definition mean (l : list Q) : Q := Qsum l / inject_Z (Z.of_nat (length l)).

(** [(p - s) / s * 100] *)
Definition pct_change (s p : Q) : Q := (p - s) / s * 100.

(** ** Price bars and wave segments *)

Record Bar := mkBar {
  date : Z;
  open : Q;
  high : Q;
  low : Q;
  close : Q;
  volume : Q
}.

Definition bar0 : Bar := mkBar 0 0 0 0 0 0.

(** [data.iloc[i]] *)
Definition iloc (data : list Bar) (i : nat) : Bar := nth i data bar0.

Inductive WaveType := up | down.

Definition is_up (t : WaveType) : bool :=
  match t with up => true | down => false end.

Record Wave := mkWave {
  wave_type : WaveType;
  start_date : Z;
  end_date : Z;
  start_price : Q;
  end_price : Q;
  change_pct : Q;
  duration : Z;
  support_level : option Q
}.

(** ** Wave segmentation (the [while] loop of [identify_three_waves]) *)

(** Lines 207-216: the lowest close among the next 10 bars, first one on ties. *)
Definition best_low (closes : list Q) (current_idx : nat) : nat * Q :=
  fold_left
    (fun (best : nat * Q) i =>
       if Qltb (item closes i) (snd best) then (i, item closes i) else best)
    (range current_idx (Nat.min (current_idx + 10) (length closes)))
    (current_idx, item closes current_idx).

(** Lines 220-229: the highest close among the next 10 bars. *)
Definition best_high (closes : list Q) (current_idx : nat) : nat * Q :=
  fold_left
    (fun (best : nat * Q) i =>
       if Qltb (snd best) (item closes i) then (i, item closes i) else best)
    (range current_idx (Nat.min (current_idx + 10) (length closes)))
    (current_idx, item closes current_idx).

Definition wave_start (t : WaveType) (closes : list Q) (current_idx : nat) : nat * Q :=
  match t with
  | up => best_low closes current_idx
  | down => best_high closes current_idx
  end.

(** Lines 238-247: the test under which an up leg ends at bar [i]. *)
Definition up_end_test (closes : list Q) (start_price : Q) (i : nat) : bool :=
  let current_price := item closes i in
  let current_rise := pct_change start_price current_price in
  Qleb 10 current_rise
  && (i <? length closes - 3)%nat
  && Qleb (py_max (slice (Nat.max 0 (i - 3)) (i + 1) closes)) current_price
  && Qleb (py_max (slice (i + 1) (Nat.min (length closes) (i + 4)) closes)) current_price.

(** Lines 249-258: the same for a down leg. *)
Definition down_end_test (closes : list Q) (start_price : Q) (i : nat) : bool :=
  let current_price := item closes i in
  let current_fall := pct_change start_price current_price in
  Qleb current_fall (-5)
  && (i <? length closes - 3)%nat
  && Qleb current_price (py_min (slice (Nat.max 0 (i - 3)) (i + 1) closes))
  && Qleb current_price (py_min (slice (i + 1) (Nat.min (length closes) (i + 4)) closes)).

Definition end_test (t : WaveType) : list Q -> Q -> nat -> bool :=
  match t with up => up_end_test | down => down_end_test end.

(** Lines 232-258: the [for ... break] scan; [None] when the loop falls through. *)
Definition scan_end (t : WaveType) (closes : list Q) (start_idx : nat) (start_price : Q)
  : option nat :=
  List.find (end_test t closes start_price)
    (range (start_idx + 5) (Nat.min (start_idx + 30) (length closes))).

(** Lines 260-263: the scan result, or the forced end. *)
Definition wave_end (t : WaveType) (closes : list Q) (start_idx : nat) (start_price : Q)
  : nat * Q :=
  match scan_end t closes start_idx start_price with
  | Some i => (i, item closes i)
  | None =>
      let end_idx := Nat.min (start_idx + 29) (length closes - 1) in
      (end_idx, item closes end_idx)
  end.

(** Lines 269-281: the support search of an up leg.  The loop variable [i]
    ranges over the leg, [volumes[i]] is read from the leg, and the bar
    itself is read with [data.iloc[i]]. *)
Definition find_support (data : list Bar) (start_idx end_idx : nat) : option Q :=
  let wave_data := slice start_idx (end_idx + 1) data in
  let volumes := map volume wave_data in
  let avg_volume := if (0 <? length volumes)%nat then mean volumes else 0 in
  fold_left
    (fun (support_level : option Q) i =>
       if Qltb (open (iloc data i)) (close (iloc data i))
          && Qltb (avg_volume * 1.2) (item volumes i)
       then
         let current_low := low (iloc data i) in
         match support_level with
         | None => Some current_low
         | Some s => if Qltb current_low s then Some current_low else Some s
         end
       else support_level)
    (range 0 (length wave_data))
    None.

(** Truthiness of [support_level]: [None] and [0.0] are false. *)
Definition truthy (o : option Q) : option Q :=
  match o with
  | Some s => if Qeq_bool s 0 then None else Some s
  | None => None
  end.

Record SegState := mkSegState {
  current_idx : nat;
  next_type : WaveType;
  acc_waves : list Wave;
  acc_supports : list Q
}.

Definition flip (t : WaveType) : WaveType :=
  match t with up => down | down => up end.

(** One iteration of the loop body, lines 204-300. *)
Definition segment_step (data : list Bar) (st : SegState) : SegState :=
  let closes := map close data in
  let t := next_type st in
  let '(start_idx, start_price) := wave_start t closes (current_idx st) in
  let '(end_idx, end_price) := wave_end t closes start_idx start_price in
  let change := pct_change start_price end_price in
  let support :=
    match t with
    | up => truthy (find_support data start_idx end_idx)
    | down => None
    end in
  let w := {| wave_type := t;
              start_date := date (iloc data start_idx);
              end_date := date (iloc data end_idx);
              start_price := start_price;
              end_price := end_price;
              change_pct := change;
              duration := (Z.of_nat end_idx - Z.of_nat start_idx + 1)%Z;
              support_level := support |} in
  {| current_idx := end_idx + 1;
     next_type := flip t;
     acc_waves := acc_waves st ++ [w];
     acc_supports :=
       match support with
       | Some s => acc_supports st ++ [s]
       | None => acc_supports st
       end |}.

(** Line 203: [while current_idx < len(data) - 10 and len(waves) < 8]. *)
Definition segment_guard (data : list Bar) (st : SegState) : bool :=
  (current_idx st <? length data - 10)%nat && (length (acc_waves st) <? 8)%nat.

Fixpoint segment_loop (fuel : nat) (data : list Bar) (st : SegState) : SegState :=
  match fuel with
  | O => st
  | S fuel' =>
      if segment_guard data st
      then segment_loop fuel' data (segment_step data st)
      else st
  end.

Definition segment_init : SegState :=
  {| current_idx := 0; next_type := up; acc_waves := []; acc_supports := [] |}.

(** The guard [len(waves) < 8] bounds the loop by 8 iterations. *)
Definition segment (data : list Bar) : SegState :=
  segment_loop 8 data segment_init.

(** ** Configuration ([g.params]) *)

Record Params := mkParams {
  min_wave_score : Z;
  position_ratio : Q;
  immediate_stop_loss : Q;
  immediate_take_profit : Q;
  tail_take_profit : Q;
  time_stop_days : Z
}.

(** The values set by [initialize]. *)
Definition default_params : Params :=
  {| min_wave_score := 40;
     position_ratio := 0.1;
     immediate_stop_loss := 0.15;
     immediate_take_profit := 0.2;
     tail_take_profit := 0.15;
     time_stop_days := 30 |}.

(** ** The market data collaborator *)

(** What a call of [get_price] or [finance.run_query] can do: raise, return
    [None], or return a frame. *)
Inductive Fetch (A : Type) :=
  | Raised
  | NoData
  | Frame (rows : list A).
Arguments Raised {A}.
Arguments NoData {A}.
Arguments Frame {A} rows.

Record Provider := mkProvider {
  (** [get_price(stock_code, end_date=.., count=..)], oldest bar first *)
  get_price : string -> Z -> Z -> Fetch Bar;
  (** the [share_holders] column of the [STK_HOLDER_NUM] query, latest first *)
  holder_num : string -> Z -> Fetch Q
}.

(** ** identify_three_waves *)

Inductive Reason :=
  | DataFetchFailed
  | DataTooShort
  | TooFewUpWaves (n : nat)
  | HighsNotRising
  | TooFewSupports
  | ScoreTooLow (score : Z)
  | RecognitionFailed.

Record Pattern := mkPattern {
  wave_count : nat;
  waves : list Wave;
  support_levels : list Q;
  wave_highs : list Q;
  wave3_high : Q;
  strongest_support : option Q;
  total_rise_pct : Q;
  total_days : Z;
  quality_score : Z
}.

Inductive ThreeWaves :=
  | NotConfirmed (reason : Reason)
  | Confirmed (p : Pattern).

Definition confirmed (r : ThreeWaves) : bool :=
  match r with Confirmed _ => true | NotConfirmed _ => false end.

(** Lines 185-189: the first bar dated on or after [start_date]. *)
Fixpoint locate_start (dates : list Z) (start_date : Z) (i : nat) : option nat :=
  match dates with
  | [] => None
  | d :: rest => if (start_date <=? d)%Z then Some i else locate_start rest start_date (S i)
  end.

(** Lines 320-330. *)
Definition wave_score (up_waves all_waves : list Wave) (supports : list Q) : Z :=
  let score :=
    fold_left
      (fun (score : Z) w =>
         if Qleb 10 (change_pct w) && Qleb (change_pct w) 20
         then (score + 10)%Z else score)
      (take 3 up_waves) 0%Z in
  let total := fold_right Z.add 0%Z (map duration all_waves) in
  let score := if (total <=? 90)%Z then (score + 20)%Z else score in
  if (2 <=? length supports)%nat then (score + 20)%Z else score.

Definition wave0 : Wave := mkWave up 0 0 0 0 0 0 None.

(** [[w for w in waves if w['wave_type'] == 'up']] *)
Definition up_legs (all_waves : list Wave) : list Wave :=
  List.filter (fun w => is_up (wave_type w)) all_waves.

(** Lines 302-350, on the legs and supports the loop produced. *)
Definition analyse_waves (pr : Params) (all_waves : list Wave) (supports : list Q)
  : ThreeWaves :=
  let up_waves := up_legs all_waves in
  if (length up_waves <? 3)%nat then NotConfirmed (TooFewUpWaves (length up_waves))
  else
    let highs := map end_price (take 3 up_waves) in
    if negb (Qltb (item highs 0) (item highs 1) && Qltb (item highs 1) (item highs 2))
    then NotConfirmed HighsNotRising
    else if (length supports <? 2)%nat then NotConfirmed TooFewSupports
    else
      let score := wave_score up_waves all_waves supports in
      if (score <? min_wave_score pr)%Z then NotConfirmed (ScoreTooLow score)
      else
        let first_price := start_price (nth 0 all_waves wave0) in
        let last_high := List.last highs 0 in
        Confirmed
          {| wave_count := length all_waves;
             waves := all_waves;
             support_levels := take 3 supports;
             wave_highs := highs;
             wave3_high := last_high;
             strongest_support :=
               match supports with
               | [] => None
               | _ => Some (py_max (take 3 supports))
               end;
             total_rise_pct := pct_change first_price last_high;
             total_days := fold_right Z.add 0%Z (map duration all_waves);
             quality_score := Z.min 100 score |}.

Definition identify_three_waves (pv : Provider) (pr : Params)
    (stock_code : string) (start_date end_date : Z) : ThreeWaves :=
  let days_needed := (end_date - start_date + 100)%Z in
  match get_price pv stock_code end_date days_needed with
  | Raised => NotConfirmed RecognitionFailed
  | NoData => NotConfirmed DataFetchFailed
  | Frame price_data =>
      match locate_start (map date price_data) start_date 0 with
      | None => NotConfirmed DataTooShort
      | Some start_idx =>
          if (length price_data - start_idx <? 30)%nat then NotConfirmed DataTooShort
          else
            let data := drop start_idx price_data in
            let st := segment data in
            analyse_waves pr (acc_waves st) (acc_supports st)
      end
  end.

(** ** check_consolidation *)

Record Consolidation := mkConsolidation {
  is_consolidating : bool;
  in_range_ratio : Q;
  volume_ratio : Q;
  current_price : Q;
  cons_support_level : Q;
  resistance_level : Q;
  price_position : Q
}.

Definition nat_Q (n : nat) : Q := inject_Z (Z.of_nat n).

(** Lines 370-408 on the fetched window: [None] below 20 bars or without
    support levels. *)
Definition consolidation_of (price_data : list Bar) (wave3_high : Q) (supports : list Q)
  : option Consolidation :=
  if (length price_data <? 20)%nat then None
  else
    let closes := map close price_data in
    match supports with
    | [] => None
    | _ =>
        let strongest := py_max supports in
        let in_range_count :=
          length (List.filter
                    (fun price => Qleb (strongest * 0.98) price && Qleb price (wave3_high * 1.02))
                    closes) in
        let ratio := nat_Q in_range_count / nat_Q (length closes) in
        let volumes := map volume price_data in
        let vratio :=
          if (20 <=? length volumes)%nat then
            let recent_vol := mean (drop (length volumes - 10) volumes) in
            let early_vol := mean (take 10 volumes) in
            if Qltb 0 early_vol then recent_vol / early_vol else 1
          else 1 in
        let price := List.last closes 0 in
        let position :=
          if Qltb strongest wave3_high
          then (price - strongest) / (wave3_high - strongest) * 100
          else 50 in
        Some {| is_consolidating := Qleb 0.7 ratio && Qltb vratio 1.5;
                in_range_ratio := ratio;
                volume_ratio := vratio;
                current_price := price;
                cons_support_level := strongest;
                resistance_level := wave3_high;
                price_position := position |}
    end.

Definition check_consolidation (pv : Provider) (stock_code : string)
    (wave3_high : Q) (supports : list Q) (end_date : Z) : option Consolidation :=
  match get_price pv stock_code end_date 60 with
  | Raised => None
  | NoData => None
  | Frame price_data => consolidation_of price_data wave3_high supports
  end.

(** ** identify_A_kill *)

(** The returned dict; a key that is absent from it is [None] here. *)
Record AKill := mkAKill {
  has_A_kill : bool;
  a_quality_score : option Z;
  A_bottom : option Q;
  A_bottom_date : option Z
}.

Definition a_kill_default : AKill :=
  {| has_A_kill := true; a_quality_score := None; A_bottom := None; A_bottom_date := None |}.

(** [np.argmin]: the index of the first minimum. *)
Definition argmin (l : list Q) : nat :=
  fst (fold_left
         (fun (best : nat * Q) i =>
            if Qltb (item l i) (snd best) then (i, item l i) else best)
         (range 0 (length l))
         (O, item l 0)).

Definition identify_A_kill (pv : Provider) (stock_code : string) (end_date : Z) : AKill :=
  match get_price pv stock_code end_date 200 with
  | Raised => a_kill_default
  | NoData => a_kill_default
  | Frame price_data =>
      if (length price_data <? 60)%nat then a_kill_default
      else
        let close_prices := map close price_data in
        let high_prices := map high price_data in
        let max_price := py_max high_prices in
        let min_price := py_min close_prices in
        let total_change := pct_change min_price max_price in
        if Qltb 30 total_change then
          {| has_A_kill := true;
             a_quality_score := Some 60%Z;
             A_bottom := Some min_price;
             A_bottom_date := Some (date (iloc price_data (argmin close_prices))) |}
        else a_kill_default
  end.

(** ** Exceptions *)

Inductive Exn :=
  | KeyError (key : string)
  | TypeError
  | ProviderError.

Inductive Outcome (A : Type) :=
  | Return (a : A)
  | Raise (e : Exn).
Arguments Return {A} a.
Arguments Raise {A} e.

#[export] Instance outcome_bind : MBind Outcome :=
  fun A B (k : A -> Outcome B) (m : Outcome A) =>
    match m with
    | Return a => k a
    | Raise e => Raise e
    end.

(** [d[key]] *)
Definition getitem {A} (key : string) (field : option A) : Outcome A :=
  match field with
  | Some a => Return a
  | None => Raise (KeyError key)
  end.

(** ** get_shareholder_change *)

Definition get_shareholder_change (pv : Provider) (stock_code : string) (current_date : Z)
  : option Q :=
  match holder_num pv stock_code current_date with
  | Raised => None
  | NoData => None
  | Frame df =>
      if (length df <? 2)%nat then None
      else
        let latest := item df 0 in
        let previous := item df 1 in
        if Qltb 0 previous then Some ((previous - latest) / previous * 100) else None
  end.

(** ** generate_trade_signal *)

Record DateTime := mkDateTime {
  dt_date : Z;
  dt_hour : Z;
  dt_minute : Z
}.

Record Signal := mkSignal {
  stock_code : string;
  stock_name : string;
  signal_strength : string;
  sig_position_ratio : Q;
  entry_price : Q;
  sig_stop_loss : Q;
  sig_take_profit : Q;
  shareholder_change : option Q;
  sig_volume_ratio : Q;
  price_change : Q;
  turnover_ratio : Q;
  sig_buy_time : DateTime
}.

(** Lines 482-493: strength and position ratio, first match wins. *)
Definition classify (pr : Params) (breakthrough early_break : bool)
    (today_high resistance vratio : Q) : string * Q :=
  if breakthrough && early_break && Qltb 1.5 vratio
  then ("strong"%string, position_ratio pr)
  else if breakthrough && Qltb 1.2 vratio
  then ("medium"%string, position_ratio pr * 0.6)
  else if Qltb resistance today_high && Qltb 1.0 vratio
  then ("weak"%string, position_ratio pr * 0.3)
  else ("weak"%string, 0).

(** The body of the [try] block, lines 419-514. *)
Definition signal_body (pv : Provider) (pr : Params) (code name : string)
    (change turnover : Q) (now : DateTime) : Outcome (option Signal) :=
  let current_date := dt_date now in
  let a_kill := identify_A_kill pv code current_date in
  if negb (has_A_kill a_kill) then Return None
  else
    bottom_date ← getitem "A_bottom_date" (A_bottom_date a_kill);
    match identify_three_waves pv pr code bottom_date current_date with
    | NotConfirmed _ => Return None
    | Confirmed three_waves =>
        match check_consolidation pv code (wave3_high three_waves)
                (support_levels three_waves) current_date with
        | None => Return None
        | Some consolidation =>
            if negb (is_consolidating consolidation) then Return None
            else
              match get_price pv code current_date 1 with
              | Raised => Raise ProviderError
              | NoData => Return None
              | Frame [] => Return None
              | Frame (today :: _) =>
                  let today_close := close today in
                  let today_high := high today in
                  let holders := get_shareholder_change pv code current_date in
                  let resistance := wave3_high three_waves in
                  let breakthrough := Qltb resistance today_close in
                  let early_break :=
                    Qltb (resistance * 1.01) today_high
                    && Qltb (open today * 1.02) today_close in
                  avg_volume_5 ←
                    match get_price pv code current_date 5 with
                    | Raised => Raise ProviderError
                    | NoData => Raise TypeError
                    | Frame rows =>
                        if (5 <=? length rows)%nat
                        then Return (mean (map volume rows))
                        else Return (volume today)
                    end;
                  let vratio :=
                    if Qltb 0 avg_volume_5 then volume today / avg_volume_5 else 1 in
                  let '(strength, ratio) :=
                    classify pr breakthrough early_break today_high resistance vratio in
                  if Qleb ratio 0 then Return None
                  else
                    Return (Some
                      {| stock_code := code;
                         stock_name := name;
                         signal_strength := strength;
                         sig_position_ratio := ratio;
                         entry_price := today_close;
                         sig_stop_loss :=
                           cons_support_level consolidation * (1 - immediate_stop_loss pr);
                         sig_take_profit := today_close * (1 + immediate_take_profit pr);
                         shareholder_change := holders;
                         sig_volume_ratio := vratio;
                         price_change := change;
                         turnover_ratio := turnover;
                         sig_buy_time := now |})
              end
        end
    end.

(** [except Exception]: the error is logged and [None] returned. *)
Definition generate_trade_signal (pv : Provider) (pr : Params) (code name : string)
    (change turnover : Q) (now : DateTime) : option Signal :=
  match signal_body pv pr code name change turnover now with
  | Return r => r
  | Raise _ => None
  end.

(** ** calculate_composite_score *)

(** [{'strong': 100, 'medium': 60, 'weak': 30}.get(s, 0)] *)
Definition strength_score (s : string) : Q :=
  if String.eqb s "strong" then 100
  else if String.eqb s "medium" then 60
  else if String.eqb s "weak" then 30
  else 0.

Definition calculate_composite_score (signal : Signal) : Q :=
  let shareholder_bonus :=
    match shareholder_change signal with
    | Some change =>
        let bonus := change * (-10) in
        py_max [-50; py_min [bonus; 50]]
    | None => 0
    end in
  strength_score (signal_strength signal) + shareholder_bonus.

(** ** Dictionaries keyed by instrument code

    A Python [dict] is walked in insertion order, and every exit check walks
    [g.positions]; so it is kept as the list of its items, oldest first.  A
    dict holds one entry per key: should a list repeat a key, its first
    entry is the dict's, for lookup and for iteration alike. *)

Record Dict (A : Type) := mkDict { dict_list : list (string * A) }.

Arguments mkDict {A} _.
Arguments dict_list {A} _.

Definition key_is {A} (k : string) (e : string * A) : bool := String.eqb (fst e) k.

Fixpoint assoc {A} (k : string) (l : list (string * A)) : option A :=
  match l with
  | [] => None
  | e :: rest => if key_is k e then Some (snd e) else assoc k rest
  end.

Fixpoint first_entries {A} (l : list (string * A)) : list (string * A) :=
  match l with
  | [] => []
  | e :: rest => e :: List.filter (fun e' => negb (key_is (fst e) e')) (first_entries rest)
  end.

(** [list(d.items())] *)
Definition items {A} (d : Dict A) : list (string * A) := first_entries (dict_list d).

(** [d[k] = v]: a known key keeps its place, a new key goes to the end. *)
Fixpoint assoc_set {A} (k : string) (v : A) (l : list (string * A)) : list (string * A) :=
  match l with
  | [] => [(k, v)]
  | e :: rest => if key_is k e then (k, v) :: rest else e :: assoc_set k v rest
  end.

(** [not d] *)
Definition dict_is_empty {A} (d : Dict A) : bool :=
  match dict_list d with
  | [] => true
  | _ :: _ => false
  end.

(** [d.get(k)] *)
#[export] Instance dict_lookup {A} : Lookup string A (Dict A) :=
  fun k d => assoc k (dict_list d).

(** [{}] and [{k: v}] *)
#[export] Instance dict_empty {A} : Empty (Dict A) := mkDict [].

#[export] Instance dict_singleton {A} : SingletonM string A (Dict A) :=
  fun k v => mkDict [(k, v)].

#[export] Instance dict_insert {A} : Insert string A (Dict A) :=
  fun k v d => mkDict (assoc_set k v (dict_list d)).

(** [del d[k]] *)
#[export] Instance dict_delete {A} : Delete string (Dict A) :=
  fun k d => mkDict (List.filter (fun e => negb (key_is k e)) (dict_list d)).

(** An update of the value stored under [k], in place. *)
#[export] Instance dict_alter {A} : Alter string A (Dict A) :=
  fun f k d =>
    mkDict (map (fun e => if key_is k e then (fst e, f (snd e)) else e) (dict_list d)).

(** [len(d)] *)
#[export] Instance dict_size {A} : Size (Dict A) := fun d => length (items d).

(** ** Held positions and exit checks *)

Inductive SellReason :=
  | ImmediateStopLoss (profit_pct : Q)
  | ImmediateTakeProfit (profit_pct : Q)
  | TailTakeProfit (profit_pct : Q)
  | TimeTakeProfit (hold_days : Z) (profit_pct : Q)
  | TimeStopLoss (hold_days : Z) (profit_pct : Q).

(** An entry of [g.positions]. *)
Record Position := mkPosition {
  buy_price : Q;
  buy_time : DateTime;
  quantity : Q;
  selling : bool;
  stop_loss : Q;
  take_profit : Q;
  sell_reason : option SellReason;
  sell_time : option DateTime
}.

Record OpenOrder := mkOpenOrder {
  order_id : Z;
  status : string
}.

(** What one [order_target(code, 0)] call does: it returns or raises, and
    the account holds [held_after] shares of the instrument afterwards
    ([None]: the instrument is no longer in [context.portfolio.positions]);
    the holdings of the other instruments stay as they are. *)
Record CloseResult := mkCloseResult {
  close_raises : bool;
  held_after : option Z
}.

(** What a scheduled call reads from [context] and the platform. *)
Record Context := mkContext {
  current_dt : DateTime;
  (** [context.portfolio.positions[code].total_amount] *)
  portfolio : gmap string Z;
  (** [get_current_data()[code].last_price]; a failing lookup is absent *)
  last_price : gmap string Q;
  (** the values of [get_open_orders()] *)
  open_orders : list (list OpenOrder);
  (** [order_target(code, 0)], should the call send it *)
  order_target : string -> CloseResult
}.

(** The strategy's mutable state together with the requests it has sent to
    the execution collaborator: [order_target(code, 0)] calls and
    [cancel_order] calls, latest last. *)
Record Strategy := mkStrategy {
  positions : Dict Position;
  close_requests : list string;
  cancel_requests : list OpenOrder
}.

(** The three assignments that flag an entry once its close order is out. *)
Definition flag_entry (why : SellReason) (now : DateTime) (p : Position) : Position :=
  {| buy_price := buy_price p;
     buy_time := buy_time p;
     quantity := quantity p;
     selling := true;
     stop_loss := stop_loss p;
     take_profit := take_profit p;
     sell_reason := Some why;
     sell_time := Some now |}.

(** [context] once the platform has handled an order for [code]. *)
Definition settle (ctx : Context) (code : string) (left : option Z) : Context :=
  {| current_dt := current_dt ctx;
     portfolio := partial_alter (fun _ => left) code (portfolio ctx);
     last_price := last_price ctx;
     open_orders := open_orders ctx;
     order_target := order_target ctx |}.

(** [order_target(code, 0)] and then the three assignments (lines 564-569,
    581-586, 653-658).  The call sits in the [try] of the loop body: when it
    raises, the handler logs the error and the entry is left as it was. *)
Definition submit_close (st : Context * Strategy) (code : string) (why : SellReason)
  : Context * Strategy :=
  let '(ctx, g) := st in
  let result := order_target ctx code in
  (settle ctx code (held_after result),
   {| positions :=
        if close_raises result then positions g
        else alter (flag_entry why (current_dt ctx)) code (positions g);
      close_requests := close_requests g ++ [code];
      cancel_requests := cancel_requests g |}).

(** Lines 539-555 and 611-627, shared by both checks: the guards, then the
    price lookup and [profit_pct].  [None] when the entry is skipped, either
    by [continue] or by an exception caught inside the loop
    (a failing quote, or [ZeroDivisionError] on a zero [buy_price]). *)
Definition live_profit (ctx : Context) (code : string) (position : Position) : option Q :=
  if selling position then None
  else
    match portfolio ctx !! code with
    | None => None
    | Some current_amount =>
        if (current_amount <=? 0)%Z then None
        else
          match last_price ctx !! code with
          | None => None
          | Some price =>
              if Qeq_bool (buy_price position) 0 then None
              else Some ((price - buy_price position) / buy_price position * 100)
          end
    end.

(** The body of the loop of [check_immediate_stops], lines 537-593. *)
Definition immediate_stop_one (pr : Params) (st : Context * Strategy)
    (entry : string * Position) : Context * Strategy :=
  let '(code, position) := entry in
  match live_profit (fst st) code position with
  | None => st
  | Some profit_pct =>
      if Qleb profit_pct (- immediate_stop_loss pr * 100)
      then submit_close st code (ImmediateStopLoss profit_pct)
      else if Qleb (immediate_take_profit pr * 100) profit_pct
      then submit_close st code (ImmediateTakeProfit profit_pct)
      else st
  end.

(** Lines 531-534. *)
Definition quiet_window (now : DateTime) : bool :=
  ((dt_hour now =? 9)%Z && (dt_minute now <? 30)%Z)
  || ((dt_hour now =? 14)%Z && (55 <=? dt_minute now)%Z).

(** Lines 520-593; the result is [context] and [g] as the call leaves them. *)
Definition check_immediate_stops (pr : Params) (ctx : Context) (g : Strategy)
  : Context * Strategy :=
  if dict_is_empty (positions g) then (ctx, g)
  else if quiet_window (current_dt ctx) then (ctx, g)
  else fold_left (immediate_stop_one pr) (items (positions g)) (ctx, g).

(** The body of the loop of [check_tail_position], lines 609-661. *)
Definition tail_one (pr : Params) (st : Context * Strategy)
    (entry : string * Position) : Context * Strategy :=
  let '(code, position) := entry in
  match live_profit (fst st) code position with
  | None => st
  | Some profit_pct =>
      let now := current_dt (fst st) in
      let hold_days := (dt_date now - dt_date (buy_time position))%Z in
      if Qleb (tail_take_profit pr * 100) profit_pct
      then submit_close st code (TailTakeProfit profit_pct)
      else if (time_stop_days pr <=? hold_days)%Z
      then
        if Qltb 0 profit_pct
        then submit_close st code (TimeTakeProfit hold_days profit_pct)
        else submit_close st code (TimeStopLoss hold_days profit_pct)
      else st
  end.

(** Lines 667-680: flagged entries whose held amount is not positive. *)
Definition stocks_to_remove (ctx : Context) (held : Dict Position) : list string :=
  omap (fun entry : string * Position =>
          let '(code, position) := entry in
          if selling position then
            let current_amount := default 0%Z (portfolio ctx !! code) in
            if (current_amount <=? 0)%Z then Some code else None
          else None)
       (items held).

Definition remove_all (codes : list string) (held : Dict Position) : Dict Position :=
  fold_left (fun m code => delete code m) codes held.

Definition cleanup_sold_positions (ctx : Context) (g : Strategy) : Strategy :=
  {| positions := remove_all (stocks_to_remove ctx (positions g)) (positions g);
     close_requests := close_requests g;
     cancel_requests := cancel_requests g |}.

(** Lines 595-665: the cleanup of line 664 reads [context] as the orders of
    the loop have left it. *)
Definition check_tail_position (pr : Params) (ctx : Context) (g : Strategy)
  : Context * Strategy :=
  if dict_is_empty (positions g) then (ctx, g)
  else
    let st := fold_left (tail_one pr) (items (positions g)) (ctx, g) in
    (fst st, cleanup_sold_positions (fst st) (snd st)).

(** Lines 840-846. *)
Definition to_cancel (orders : list (list OpenOrder)) : list OpenOrder :=
  List.filter (fun o => String.eqb (status o) "open" || String.eqb (status o) "pending")
              (concat orders).

(** Lines 851-854. *)
Definition flagged (held : Dict Position) : list string :=
  omap (fun entry : string * Position =>
          if selling (snd entry) then Some (fst entry) else None)
       (items held).

Definition morning_cleanup (ctx : Context) (g : Strategy) : Strategy :=
  {| positions := remove_all (flagged (positions g)) (positions g);
     close_requests := close_requests g;
     cancel_requests := cancel_requests g ++ to_cancel (open_orders ctx) |}.

(** [handle_data] ([g.trading_enabled] is set once, to [True]). *)
Definition handle_data (pr : Params) (ctx : Context) (g : Strategy) : Context * Strategy :=
  if quiet_window (current_dt ctx) then (ctx, g)
  else
    let st := check_immediate_stops pr ctx g in
    (fst st, cleanup_sold_positions (fst st) (snd st)).

(** The scheduled calls that read or change [g.positions] on the exit side,
    each with [context] as the platform hands it over. *)
Inductive Tick :=
  | ImmediateStops (ctx : Context)
  | TailPosition (ctx : Context)
  | HandleData (ctx : Context)
  | SoldCleanup (ctx : Context)
  | MorningCleanup (ctx : Context).

Definition tick (pr : Params) (g : Strategy) (t : Tick) : Strategy :=
  match t with
  | ImmediateStops ctx => snd (check_immediate_stops pr ctx g)
  | TailPosition ctx => snd (check_tail_position pr ctx g)
  | HandleData ctx => snd (handle_data pr ctx g)
  | SoldCleanup ctx => cleanup_sold_positions ctx g
  | MorningCleanup ctx => morning_cleanup ctx g
  end.

Definition run (pr : Params) (ticks : list Tick) (g : Strategy) : Strategy :=
  fold_left (tick pr) ticks g.

(** ** trade_logic *)

(** The remaining keys of [g.params] that [trade_logic] reads. *)
Record Screen := mkScreen {
  min_turnover : Q;
  max_turnover : Q;
  min_price_change : Q;
  max_positions : Z
}.

Definition default_screen : Screen :=
  {| min_turnover := 7; max_turnover := 12; min_price_change := 4; max_positions := 10 |}.

Record Fundamentals := mkFundamentals {
  (** the [circulating_cap] column of [get_fundamentals] for one code and date *)
  circulating_cap : string -> Z -> Fetch Q;
  (** [get_trade_days(end_date=.., count=2)] *)
  trade_days : Z -> list Z
}.

(** What [order_value] can do: return an order, return [None], or raise. *)
Inductive OrderResult := OrderPlaced | OrderRefused | OrderRaised.

Record Broker := mkBroker {
  available_cash : Q;
  order_value : string -> Q -> OrderResult
}.

(** Lines 864-879. *)
Definition is_close_limit_up (pv : Provider) (code : string) (current_date : Z) : bool :=
  match get_price pv code current_date 2 with
  | Raised => false
  | NoData => false
  | Frame price_data =>
      if (length price_data <? 2)%nat then false
      else
        let pre_close := close (iloc price_data 0) in
        let today_close := close (iloc price_data 1) in
        let change := pct_change pre_close today_close in
        if String.prefix "68" code || String.prefix "30" code then Qleb 19.9 change
        else if String.prefix "00" code || String.prefix "60" code then Qleb 9.9 change
        else false
  end.

Record Candidate := mkCandidate {
  cand_code : string;
  cand_name : string;
  cand_price_change : Q;
  cand_turnover_ratio : Q
}.

(** Lines 720-753: the body of the screening loop; [None] when the stock is
    passed over, by [continue] or by the bare [except]. *)
Definition screen_one (pv : Provider) (fd : Fundamentals) (sc : Screen)
    (current_date prev_date : Z) (stock : string * string) : option Candidate :=
  let '(code, name) := stock in
  match get_price pv code current_date 2 with
  | Raised => None
  | NoData => None
  | Frame price_data =>
      if (length price_data <? 2)%nat then None
      else
        let pre_close := close (iloc price_data 0) in
        let today_high := high (iloc price_data 1) in
        let today_volume := volume (iloc price_data 1) in
        let change := pct_change pre_close today_high in
        match circulating_cap fd code prev_date with
        | Raised => None
        | NoData => None
        | Frame [] => None
        | Frame (cap :: _) =>
            let circulating_shares := cap * 10000 in
            let turnover := today_volume / circulating_shares * 100 in
            if Qltb (min_turnover sc) turnover && Qleb turnover (max_turnover sc)
               && Qltb (min_price_change sc) change
               && negb (is_close_limit_up pv code current_date)
            then Some {| cand_code := code;
                         cand_name := name;
                         cand_price_change := change;
                         cand_turnover_ratio := turnover |}
            else None
        end
  end.

(** [trade_signals.sort(key=calculate_composite_score, reverse=True)]:
    [list.sort] is stable, and with [reverse=True] items with equal keys
    still keep their original order.  Written as an insertion from the
    right: an item moves past the items that score strictly higher. *)
Fixpoint insert_by_score (s : Signal) (l : list Signal) : list Signal :=
  match l with
  | [] => [s]
  | t :: rest =>
      if Qltb (calculate_composite_score s) (calculate_composite_score t)
      then t :: insert_by_score s rest
      else s :: t :: rest
  end.

Definition sort_by_score (l : list Signal) : list Signal :=
  fold_right insert_by_score [] l.

(** Line 801. *)
Definition already_held (ctx : Context) (g : Strategy) (code : string) : bool :=
  match positions g !! code with
  | Some _ => true
  | None =>
      match portfolio ctx !! code with
      | Some amount => (0 <? amount)%Z
      | None => false
      end
  end.

(** The buying loop's variables: the strategy state, [buy_count], and the
    [order_value] calls made so far. *)
Record Buying := mkBuying {
  book : Strategy;
  buy_count : Z;
  buy_requests : list (string * Q)
}.

(** The entry written after an accepted order, lines 814-821. *)
Definition new_position (ctx : Context) (position_value current_price : Q) : Position :=
  {| buy_price := current_price;
     buy_time := current_dt ctx;
     quantity := if Qltb 0 current_price then position_value / current_price else 0;
     selling := false;
     stop_loss := current_price * 0.97;
     take_profit := current_price * 1.08;
     sell_reason := None;
     sell_time := None |}.

(** Lines 796-828. *)
Fixpoint buy_loop (ctx : Context) (broker : Broker) (position_value : Q) (max_buy : Z)
    (signals : list Signal) (st : Buying) : Buying :=
  match signals with
  | [] => st
  | signal :: rest =>
      if (max_buy <=? buy_count st)%Z then st
      else
        let code := stock_code signal in
        if already_held ctx (book st) code
        then buy_loop ctx broker position_value max_buy rest st
        else
          match last_price ctx !! code with
          | None => buy_loop ctx broker position_value max_buy rest st
          | Some current_price =>
              let requests := buy_requests st ++ [(code, position_value)] in
              match order_value broker code position_value with
              | OrderPlaced =>
                  buy_loop ctx broker position_value max_buy rest
                    {| book :=
                         {| positions :=
                              <[code := new_position ctx position_value current_price]>
                                (positions (book st));
                            close_requests := close_requests (book st);
                            cancel_requests := cancel_requests (book st) |};
                       buy_count := (buy_count st + 1)%Z;
                       buy_requests := requests |}
              | OrderRefused | OrderRaised =>
                  buy_loop ctx broker position_value max_buy rest
                    {| book := book st;
                       buy_count := buy_count st;
                       buy_requests := requests |}
              end
          end
  end.

(** Line 698: the holdings with a positive amount. *)
Definition held_count (ctx : Context) : Z :=
  Z.of_nat (length (List.filter (fun entry : string * Z => (0 <? snd entry)%Z)
                                (map_to_list (portfolio ctx)))).

(** Lines 708-709. *)
Definition order_size (pr : Params) (sc : Screen) (broker : Broker) (ctx : Context) : Q :=
  py_min [available_cash broker * position_ratio pr;
          available_cash broker / inject_Z (max_positions sc - held_count ctx)].

(** Lines 757-768 after the screening of lines 718-753. *)
Definition collect_signals (pv : Provider) (fd : Fundamentals) (pr : Params) (sc : Screen)
    (ctx : Context) (stock_list : list (string * string)) : list Signal :=
  let current_date := dt_date (current_dt ctx) in
  let days := trade_days fd current_date in
  let prev_date := if (2 <=? length days)%nat then nth 0 days 0%Z else current_date in
  let basic_candidates := omap (screen_one pv fd sc current_date prev_date) stock_list in
  omap (fun c => generate_trade_signal pv pr (cand_code c) (cand_name c)
                   (cand_price_change c) (cand_turnover_ratio c) (current_dt ctx))
       basic_candidates.

(** Lines 683-835 ([g.trading_enabled] is set once, to [True]). *)
Definition trade_logic (pv : Provider) (fd : Fundamentals) (pr : Params) (sc : Screen)
    (broker : Broker) (ctx : Context) (stock_list : list (string * string))
    (g : Strategy) : Buying :=
  let idle := {| book := g; buy_count := 0; buy_requests := [] |} in
  let now := current_dt ctx in
  if negb ((dt_hour now =? 14)%Z && (dt_minute now =? 56)%Z) then idle
  else if (max_positions sc <=? held_count ctx)%Z then idle
  else if Qltb (available_cash broker) 10000 then idle
  else
    let position_value := order_size pr sc broker ctx in
    if Qltb position_value 10000 then idle
    else
      match collect_signals pv fd pr sc ctx stock_list with
      | [] => idle
      | trade_signals =>
          let ranked := sort_by_score trade_signals in
          let max_buy := Z.min 2 (max_positions sc - held_count ctx) in
          buy_loop ctx broker position_value max_buy
            (take (Z.to_nat (max_buy * 2)) ranked) idle
      end.

(** ** The specification's wording, for comparison with the code *)

Definition leg_bounded (w : Wave) : Prop := (1 <= duration w <= 30)%Z.

(** "change_pct lies in [10, 20]" *)
Definition in_band (w : Wave) : bool :=
  Qleb 10 (change_pct w) && Qleb (change_pct w) 20.

Definition total_duration (all_waves : list Wave) : Z :=
  fold_right Z.add 0%Z (map duration all_waves).

(** "+10 for each of the first three Up legs whose change_pct lies in
    [10, 20]; +20 if the sum of all legs' durations is <= 90 days; +20 if at
    least 2 support levels exist" *)
Definition spec_quality_score (all_waves : list Wave) (supports : list Q) : Z :=
  (10 * Z.of_nat (length (List.filter in_band (take 3 (up_legs all_waves))))
   + (if (total_duration all_waves <=? 90)%Z then 20 else 0)
   + (if (2 <=? length supports)%nat then 20 else 0))%Z.

(** "the end prices of the first three Up legs are strictly increasing" *)
Definition highs_rising (all_waves : list Wave) : Prop :=
  exists w1 w2 w3 rest,
    up_legs all_waves = w1 :: w2 :: w3 :: rest
    /\ end_price w1 < end_price w2 /\ end_price w2 < end_price w3.

(** "strength ∈ {Strong, Medium, Weak}" and the score the specification
    assigns: base points plus the clamped auxiliary term. *)
Inductive Strength := Strong | Medium | Weak.

Definition strength_label (s : Strength) : string :=
  match s with
  | Strong => "strong"
  | Medium => "medium"
  | Weak => "weak"
  end.

Definition strength_base (s : Strength) : Q :=
  match s with
  | Strong => 100
  | Medium => 60
  | Weak => 30
  end.

Definition clamp (x lo hi : Q) : Q :=
  if Qltb x lo then lo else if Qltb hi x then hi else x.

Definition auxiliary_bonus (factor : option Q) : Q :=
  match factor with
  | Some f => clamp (f * (-10)) (-50) 50
  | None => 0
  end.

(** The cases in which [identify_A_kill] has no bottom to report: the fetch
    raised or returned nothing, fewer than 60 bars, or a high-to-low change
    of at most 30 percent. *)
Definition a_kill_fallback (pv : Provider) (code : string) (end_date : Z) : Prop :=
  match get_price pv code end_date 200 with
  | Raised => True
  | NoData => True
  | Frame price_data =>
      (length price_data < 60)%nat
      \/ pct_change (py_min (map close price_data)) (py_max (map high price_data)) <= 30
  end.

(** The running minimum of the support search, on the bars themselves. *)
Definition keep_lowest (q : Bar -> bool) (acc : option Q) (b : Bar) : option Q :=
  if q b then
    match acc with
    | None => Some (low b)
    | Some s => if Qltb (low b) s then Some (low b) else Some s
    end
  else acc.

(** The bars dated on or after [start_date]: the series from its first such
    bar on. *)
Fixpoint skip_before (start_date : Z) (bars : list Bar) : list Bar :=
  match bars with
  | [] => []
  | b :: rest =>
      if (date b <? start_date)%Z then skip_before start_date rest else b :: rest
  end.

(** What the loop keeps true from its first iteration to its last. *)
Definition segment_invariant (data : list Bar) (st : SegState) : Prop :=
  (* legs alternate, starting with an up leg *)
  (forall i w, acc_waves st !! i = Some w -> is_up (wave_type w) = Nat.even i)
  /\ is_up (next_type st) = Nat.even (length (acc_waves st))
  /\ (2 * length (up_legs (acc_waves st))
      = length (acc_waves st) + if is_up (next_type st) then 0 else 1)%nat
  (* legs lie one after the other inside the series *)
  /\ (total_duration (acc_waves st) <= Z.of_nat (current_idx st))%Z
  /\ (current_idx st <= length data)%nat
  /\ (6 * length (acc_waves st) <= current_idx st \/ length data <= current_idx st)%nat
  /\ (acc_waves st = [] \/ 6 * length (acc_waves st) + 4 < length data)%nat
  (* the supports are those of the legs, in order *)
  /\ acc_supports st = omap support_level (acc_waves st)
  /\ Forall (fun w => wave_type w = down -> support_level w = None) (acc_waves st)
  /\ Forall (fun x => ~ x == 0) (acc_supports st)
  /\ Forall (fun w => change_pct w = pct_change (start_price w) (end_price w))
            (acc_waves st).

(** "The first bar at least 5 bars after the leg start whose price has risen
    at least 10 percent and which is at least the closes of the 3 bars
    before it and of the 3 bars after it": bar [i] as the end of an up leg
    that started at bar [s] at price [sp], all three following bars being
    part of the series. *)
Definition up_end_candidate (closes : list Q) (s : nat) (sp : Q) (i : nat) : Prop :=
  (s + 5 <= i < s + 30)%nat
  /\ (i + 3 < length closes)%nat
  /\ 10 <= pct_change sp (item closes i)
  /\ (forall j, (i - 3 <= j < i)%nat -> item closes j <= item closes i)
  /\ (forall j, (i < j <= i + 3)%nat -> item closes j <= item closes i).

(** Bar [i] as the end of a down leg that started at bar [s] at price [sp]:
    a pullback of at least 5 percent, at a close no higher than the closes
    of the 3 bars before it and of the 3 bars after it. *)
Definition down_end_candidate (closes : list Q) (s : nat) (sp : Q) (i : nat) : Prop :=
  (s + 5 <= i < s + 30)%nat
  /\ (i + 3 < length closes)%nat
  /\ pct_change sp (item closes i) <= -5
  /\ (forall j, (i - 3 <= j < i)%nat -> item closes i <= item closes j)
  /\ (forall j, (i < j <= i + 3)%nat -> item closes i <= item closes j).

(** The same test with "bars near the series edge confirmed with a truncated
    window": the bars that exist among the 3 before and the 3 after. *)
Definition truncated_end_test (closes : list Q) (sp : Q) (i : nat) : bool :=
  Qleb 10 (pct_change sp (item closes i))
  && forallb (fun c => Qleb c (item closes i)) (slice (i - 3) i closes)
  && forallb (fun c => Qleb c (item closes i)) (slice (i + 1) (i + 4) closes).

Definition truncated_up_end (closes : list Q) (s : nat) (sp : Q) : nat :=
  match List.find (truncated_end_test closes sp)
          (range (s + 5) (Nat.min (s + 30) (length closes))) with
  | Some i => i
  | None => Nat.min (s + 29) (length closes - 1)
  end.

(** "The lowest low among the bars inside the leg whose close exceeds their
    open and whose volume exceeds 1.2 times the leg's mean volume", absent
    when no bar of the leg qualifies. *)
Definition leg_support (data : list Bar) (start_idx end_idx : nat) : option Q :=
  let leg := slice start_idx (end_idx + 1) data in
  let avg_volume := mean (map volume leg) in
  match List.filter
          (fun b => Qltb (open b) (close b) && Qltb (avg_volume * 1.2) (volume b))
          leg with
  | [] => None
  | qualifying => Some (py_min (map low qualifying))
  end.

(** The close requests an instrument may still cause: one while its entry
    is open, none once the entry is flagged or gone. *)
Definition budget (code : string) (g : Strategy) : nat :=
  match positions g !! code with
  | Some p => if selling p then 0 else 1
  | None => 0
  end.

(** [context] of a scheduled call. *)
Definition tick_context (t : Tick) : Context :=
  match t with
  | ImmediateStops ctx => ctx
  | TailPosition ctx => ctx
  | HandleData ctx => ctx
  | SoldCleanup ctx => ctx
  | MorningCleanup ctx => ctx
  end.

(** The calls among [ticks] in which [order_target] raises for [code]. *)
Definition refusals (code : string) (ticks : list Tick) : nat :=
  length (List.filter (fun t => close_raises (order_target (tick_context t) code)) ticks).

(** [g'] is reached from [g] by sending close requests only.  An instrument
    without budget gets none; one with budget gets one, and one more for
    each of the [refused code] requests that raised and left it open. *)
Definition advances (refused : string -> nat) (g g' : Strategy) : Prop :=
  exists new,
    close_requests g' = close_requests g ++ new
    /\ forall code,
         (budget code g' <= budget code g)%nat
         /\ (length (List.filter (String.eqb code) new) + budget code g'
             <= budget code g * (1 + refused code))%nat.

(** "A bar's close is in range if S x 0.98 <= close <= wave3_high x 1.02",
    S the largest support level; the in-range ratio is the share of such
    bars in the window. *)
Definition bar_in_range (strongest wave3_high : Q) (b : Bar) : bool :=
  Qleb (strongest * 0.98) (close b) && Qleb (close b) (wave3_high * 1.02).

Definition window_in_range_ratio (window : list Bar) (wave3_high : Q) (supports : list Q)
  : Q :=
  nat_Q (length (List.filter (bar_in_range (py_max supports) wave3_high) window))
  / nat_Q (length window).

(** "mean(volume of most recent 10 bars) / mean(volume of earliest 10
    bars)", and 1 when the earlier mean is not positive. *)
Definition window_volume_ratio (window : list Bar) : Q :=
  let recent := mean (map volume (drop (length window - 10) window)) in
  let early := mean (map volume (take 10 window)) in
  if Qltb 0 early then recent / early else 1.

(** The closes of a window that count as "in range": between 0.98 times the
    strongest support and 1.02 times the third high. *)
Definition closes_in_band (price_data : list Bar) (wave3_high strongest : Q) : list Q :=
  List.filter (fun price => Qleb (strongest * 0.98) price && Qleb price (wave3_high * 1.02))
              (map close price_data).

(** What [check_immediate_stops] decides for one entry: stop first, then
    take-profit, both bounds included. *)
Definition immediate_verdict (pr : Params) (ctx : Context) (code : string) (p : Position)
  : option SellReason :=
  match live_profit ctx code p with
  | None => None
  | Some profit_pct =>
      if Qleb profit_pct (- immediate_stop_loss pr * 100)
      then Some (ImmediateStopLoss profit_pct)
      else if Qleb (immediate_take_profit pr * 100) profit_pct
      then Some (ImmediateTakeProfit profit_pct)
      else None
  end.

(** What [check_tail_position] decides for one entry: tail take-profit
    first, then the time stop, labelled by the sign of the profit. *)
Definition tail_verdict (pr : Params) (ctx : Context) (code : string) (p : Position)
  : option SellReason :=
  match live_profit ctx code p with
  | None => None
  | Some profit_pct =>
      let hold_days := (dt_date (current_dt ctx) - dt_date (buy_time p))%Z in
      if Qleb (tail_take_profit pr * 100) profit_pct
      then Some (TailTakeProfit profit_pct)
      else if (time_stop_days pr <=? hold_days)%Z
      then Some (if Qltb 0 profit_pct
                 then TimeTakeProfit hold_days profit_pct
                 else TimeStopLoss hold_days profit_pct)
      else None
  end.

(** The entry after a check with the given verdicts: flagged when it has a
    verdict and its close order went out without raising. *)
Definition decided (verdict : string -> Position -> option SellReason) (ctx : Context)
    (code : string) (p : Position) : Position :=
  match verdict code p with
  | Some why =>
      if close_raises (order_target ctx code) then p
      else flag_entry why (current_dt ctx) p
  | None => p
  end.

(** The instruments a check asks to close, in the order it visits them:
    the order in which the entries were added to [g.positions]. *)
Definition asked (verdict : string -> Position -> option SellReason)
    (entries : list (string * Position)) : list string :=
  omap (fun entry : string * Position =>
          match verdict (fst entry) (snd entry) with
          | Some _ => Some (fst entry)
          | None => None
          end)
       entries.

Definition closed_codes (verdict : string -> Position -> option SellReason)
    (held : Dict Position) : list string :=
  asked verdict (items held).

(** [ctx'] is [ctx] as the orders of the call have left it: only holdings
    may differ. *)
Definition same_call (ctx ctx' : Context) : Prop :=
  current_dt ctx' = current_dt ctx
  /\ last_price ctx' = last_price ctx
  /\ order_target ctx' = order_target ctx
  /\ open_orders ctx' = open_orders ctx.

(** The account after a check: the instruments it asked to close hold what
    the platform made of the order, the others what they held. *)
Definition account_after (verdict : string -> Position -> option SellReason)
    (ctx : Context) (held : Dict Position) (code : string) : option Z :=
  match held !! code with
  | Some p =>
      match verdict code p with
      | Some _ => held_after (order_target ctx code)
      | None => portfolio ctx !! code
      end
  | None => portfolio ctx !! code
  end.

(** An entry [q] that came from [p] by at most one flagging. *)
Definition same_or_flagged (p q : Position) : Prop :=
  q = p \/ (selling p = false /\ exists why now, q = flag_entry why now p).

(** What the buying loop may do between two of its states: buy, never sell.
    [signals] are the signals it walked over, [v] the size of every order. *)
Definition bought_from (ctx : Context) (broker : Broker) (v : Q) (max_buy : Z)
    (signals : list Signal) (st st' : Buying) : Prop :=
  (buy_count st <= buy_count st' <= max_buy)%Z
  /\ (Z.of_nat (size (positions (book st')))
      = Z.of_nat (size (positions (book st))) + (buy_count st' - buy_count st))%Z
  /\ (forall k p, positions (book st) !! k = Some p -> positions (book st') !! k = Some p)
  /\ (forall k q,
        positions (book st') !! k = Some q ->
        positions (book st) !! k = Some q
        \/ (already_held ctx (book st) k = false
            /\ order_value broker k v = OrderPlaced
            /\ (exists s, In s signals /\ stock_code s = k)
            /\ exists price, last_price ctx !! k = Some price
                             /\ q = new_position ctx v price))
  /\ close_requests (book st') = close_requests (book st)
  /\ cancel_requests (book st') = cancel_requests (book st)
  /\ exists new,
       buy_requests st' = buy_requests st ++ new
       /\ Forall (fun r : string * Q => snd r = v) new
       /\ (length new <= length signals)%nat.

(** The trading day before [today] in the platform's calendar, and [today]
    itself when the calendar gives fewer than two days. *)
Definition previous_trade_day (fd : Fundamentals) (today : Z) : Z :=
  match trade_days fd today with
  | day :: _ :: _ => day
  | _ => today
  end.

(** Today's rise of the high over the previous close, in percent, and
    today's volume in percent of the circulating shares ([cap] is in units
    of 10000 shares): the two numbers of the screen, from the two latest
    bars. *)
Definition day_change (rows : list Bar) : Q :=
  pct_change (close (iloc rows 0)) (high (iloc rows 1)).

Definition day_turnover (rows : list Bar) (cap : Q) : Q :=
  volume (iloc rows 1) / (cap * 10000) * 100.

(** The result of a [trade_logic] call that returns before buying. *)
Definition idle_buying (g : Strategy) : Buying :=
  {| book := g; buy_count := 0; buy_requests := [] |}.

(** What the pre-session cleanup is said to remove: flagged entries whose
    held amount is confirmed zero. *)
Definition sold_out (ctx : Context) (code : string) (p : Position) : bool :=
  selling p && (default 0%Z (portfolio ctx !! code) <=? 0)%Z.

(** ** Sample inputs *)

(** A provider that serves one instrument's history: the last [count] bars
    dated up to [end_date]. *)
Definition history (bars : list Bar) : Provider :=
  {| get_price := fun _ end_date count =>
       let upto := List.filter (fun b => (date b <=? end_date)%Z) bars in
       Frame (drop (length upto - Z.to_nat count) upto);
     holder_num := fun _ _ => NoData |}.

(** A 44-bar staircase: three rallies of 14, 15.4 and 14.5 percent with
    pullbacks between them.  Every bar closes above its open; bars 2, 16 and
    31 trade three times the usual volume. *)
Definition demo_closes : list Q :=
  [100; 102; 104; 106; 108; 110; 112; 114;
   112; 110; 108; 106; 104; 102;
   104; 106; 108; 110; 112; 114; 116; 118; 120;
   118; 116; 114; 112; 110; 108;
   110; 112; 114; 116; 118; 120; 122; 124; 126;
   124; 122; 120; 120; 120; 120].

Definition demo_bar (i : nat) (c : Q) : Bar :=
  mkBar (1000 + Z.of_nat i) (c - 1) (c + 1) (c - 2) c
        (if existsb (Nat.eqb i) [2; 16; 31]%nat then 300 else 100).

Definition demo_data : list Bar := imap demo_bar demo_closes.

(** A flat 30-bar series that jumps 20 percent on bar 27, three bars before
    its end. *)
Definition edge_closes : list Q := repeat 10 27 ++ [12; 11; 11].

Definition edge_data : list Bar :=
  imap (fun i c => mkBar (Z.of_nat i) (c + 1) (c + 1) (c - 1) c 100) edge_closes.

(** A 65-bar history that ends in a breakout: 20 bars at 140, the staircase
    of [demo_data] from its low of 100, and a last bar that closes at 128,
    above the third high, on five times the usual volume. *)
Definition breakout_data : list Bar :=
  imap (fun i (_ : unit) => mkBar (980 + Z.of_nat i) 139 141 138 140 100) (replicate 20 ())
  ++ demo_data
  ++ [mkBar 1044 125 129 124 128 500].

(** The breakout history together with two holder counts, latest first: a
    fall from 10000 to 9500 holders. *)
Definition demo_market : Provider :=
  {| get_price := get_price (history breakout_data);
     holder_num := fun _ _ => Frame [9500; 10000] |}.

Definition demo_pattern : Pattern :=
  Eval vm_compute in
    match identify_three_waves (history demo_data) default_params "600000.XSHG" 1000 1043 with
    | Confirmed p => p
    | NotConfirmed _ => mkPattern 0 [] [] [] 0 None 0 0 0
    end.

Definition demo_signal : Signal :=
  {| stock_code := "600000.XSHG";
     stock_name := "demo";
     signal_strength := "medium";
     sig_position_ratio := 0.06;
     entry_price := 127;
     sig_stop_loss := 86.7;
     sig_take_profit := 152.4;
     shareholder_change := Some 7.5;
     sig_volume_ratio := 1.3;
     price_change := 5;
     turnover_ratio := 8;
     sig_buy_time := mkDateTime 1044 14 56 |}.

(** A second medium signal, for an instrument whose holder count rose by 2
    percent. *)
Definition rival_signal : Signal :=
  {| stock_code := "600001.XSHG";
     stock_name := "rival";
     signal_strength := "medium";
     sig_position_ratio := 0.06;
     entry_price := 10;
     sig_stop_loss := 8;
     sig_take_profit := 12;
     shareholder_change := Some (-2);
     sig_volume_ratio := 1.3;
     price_change := 5;
     turnover_ratio := 8;
     sig_buy_time := mkDateTime 1044 14 56 |}.

(** A platform that takes every close order and fills none of them within
    the call, one that fills every close order at once, and one that raises
    on every close order. *)
Definition queued (held : gmap string Z) : string -> CloseResult :=
  fun code => {| close_raises := false; held_after := held !! code |}.

Definition filled : string -> CloseResult :=
  fun _ => {| close_raises := false; held_after := None |}.

Definition failing (held : gmap string Z) : string -> CloseResult :=
  fun code => {| close_raises := true; held_after := held !! code |}.

(** The decision tick on the breakout day: nothing held, 200000 in cash,
    the broker accepts every order, and the instrument's circulating
    capital makes today's turnover 10 percent. *)
Definition demo_fundamentals : Fundamentals :=
  {| circulating_cap := fun _ _ => Frame [0.5];
     trade_days := fun d => [(d - 1)%Z; d] |}.

Definition demo_broker : Broker :=
  {| available_cash := 200000; order_value := fun _ _ => OrderPlaced |}.

Definition decision_tick : Context :=
  {| current_dt := mkDateTime 1044 14 56;
     portfolio := ∅;
     last_price := {[ "600000.XSHG"%string := 128 ]};
     open_orders := [];
     order_target := queued ∅ |}.

Definition idle_strategy : Strategy :=
  {| positions := ∅; close_requests := []; cancel_requests := [] |}.

(** One open position, bought at 100, and a day on which the price falls
    through the stop. *)
Definition demo_position : Position :=
  {| buy_price := 100;
     buy_time := mkDateTime 1044 14 56;
     quantity := 100;
     selling := false;
     stop_loss := 97;
     take_profit := 108;
     sell_reason := None;
     sell_time := None |}.

Definition demo_strategy : Strategy :=
  {| positions := {[ "600000.XSHG"%string := demo_position ]};
     close_requests := [];
     cancel_requests := [] |}.

Definition demo_context (day hour minute : Z) (price : Q) (amount : Z) : Context :=
  {| current_dt := mkDateTime day hour minute;
     portfolio := {[ "600000.XSHG"%string := amount ]};
     last_price := {[ "600000.XSHG"%string := price ]};
     open_orders := [];
     order_target := queued {[ "600000.XSHG"%string := amount ]} |}.

(** The same call on a platform that fills the close order at once, and on
    one whose [order_target] raises. *)
Definition filling_context (day hour minute : Z) (price : Q) (amount : Z) : Context :=
  {| current_dt := mkDateTime day hour minute;
     portfolio := {[ "600000.XSHG"%string := amount ]};
     last_price := {[ "600000.XSHG"%string := price ]};
     open_orders := [];
     order_target := filled |}.

Definition failing_context (day hour minute : Z) (price : Q) (amount : Z) : Context :=
  {| current_dt := mkDateTime day hour minute;
     portfolio := {[ "600000.XSHG"%string := amount ]};
     last_price := {[ "600000.XSHG"%string := price ]};
     open_orders := [];
     order_target := failing {[ "600000.XSHG"%string := amount ]} |}.

Definition demo_ticks : list Tick :=
  [ ImmediateStops (demo_context 1045 10 0 84 100);
    ImmediateStops (demo_context 1045 10 1 83 100);
    HandleData (demo_context 1045 10 2 82 100);
    TailPosition (demo_context 1045 14 55 82 100) ].

(** Three calls on days on which the account no longer holds the shares:
    the price has halved and two months have passed. *)
Definition stale_ticks : list Tick :=
  [ ImmediateStops (demo_context 1045 10 0 50 0);
    TailPosition (demo_context 1100 14 55 50 0);
    MorningCleanup (demo_context 1101 9 25 50 0) ].

(** A position flagged at the close whose sell order did not fill: 100
    shares are still held the next morning and the order is still open. *)
Definition unsold_position : Position :=
  {| buy_price := 100;
     buy_time := mkDateTime 1044 14 56;
     quantity := 100;
     selling := true;
     stop_loss := 97;
     take_profit := 108;
     sell_reason := Some (ImmediateStopLoss (-16));
     sell_time := Some (mkDateTime 1045 10 0) |}.

Definition unsold_strategy : Strategy :=
  {| positions := {[ "600000.XSHG"%string := unsold_position ]};
     close_requests := ["600000.XSHG"%string];
     cancel_requests := [] |}.

Definition next_morning : Context :=
  {| current_dt := mkDateTime 1046 9 25;
     portfolio := {[ "600000.XSHG"%string := 100%Z ]};
     last_price := {[ "600000.XSHG"%string := 84 ]};
     open_orders := [[mkOpenOrder 7 "open"]];
     order_target := queued {[ "600000.XSHG"%string := 100%Z ]} |}.

(** * Properties *)

(** ** Comparisons, ranges and extrema *)

Lemma Qleb_true (x y : Q) : Qleb x y = true <-> x <= y.
Proof. apply Qle_bool_iff. Qed.

Lemma Qltb_true (x y : Q) : Qltb x y = true <-> x < y.
Proof.
  unfold Qltb. rewrite negb_true_iff. split.
  - intros H. apply Qnot_le_lt. intros Hle. apply Qle_bool_iff in Hle. congruence.
  - intros H. destruct (Qle_bool y x) eqn:E; [|reflexivity].
    apply Qle_bool_iff in E. lra.
Qed.

Lemma Qltb_false (x y : Q) : Qltb x y = false <-> y <= x.
Proof.
  unfold Qltb. rewrite negb_false_iff. apply Qle_bool_iff.
Qed.

Lemma Qleb_false (x y : Q) : Qleb x y = false <-> y < x.
Proof.
  rewrite <- Qltb_true. unfold Qltb, Qleb.
  destruct (Qle_bool x y); simpl; intuition congruence.
Qed.

Lemma in_range (a b i : nat) : In i (range a b) <-> (a <= i < b)%nat.
Proof. unfold range. rewrite in_seq. lia. Qed.

Lemma fold_left_invariant {A B} (P : A -> Prop) (f : A -> B -> A) (l : list B) (a : A) :
  P a -> (forall a b, In b l -> P a -> P (f a b)) -> P (fold_left f l a).
Proof.
  revert a. induction l as [|b l IH]; intros a Ha Hstep; simpl; [exact Ha|].
  apply IH.
  - apply Hstep; [left; reflexivity | exact Ha].
  - intros a' b' Hin. apply Hstep. right. exact Hin.
Qed.

Lemma fold_max_le (l : list Q) (x c : Q) :
  fold_left (fun m y => if Qltb m y then y else m) l x <= c
  <-> x <= c /\ Forall (fun y => y <= c) l.
Proof.
  revert x. induction l as [|y l IH]; intros x; simpl.
  - split; [intros H; split; [exact H | constructor] | intros [H _]; exact H].
  - rewrite IH. destruct (Qltb x y) eqn:E.
    + apply Qltb_true in E. split.
      * intros [Hy Hl]. split; [lra | constructor; assumption].
      * intros [Hx Hl]. inversion Hl; subst. split; assumption.
    + apply Qltb_false in E. split.
      * intros [Hx Hl]. split; [exact Hx | constructor; [lra | exact Hl]].
      * intros [Hx Hl]. inversion Hl; subst. split; assumption.
Qed.

Lemma py_max_le (l : list Q) (c : Q) :
  l <> [] -> (py_max l <= c <-> Forall (fun y => y <= c) l).
Proof.
  destruct l as [|x l]; [congruence|]. intros _. unfold py_max.
  rewrite fold_max_le. split.
  - intros [Hx Hl]. constructor; assumption.
  - intros H. inversion H; subst. split; assumption.
Qed.

Lemma fold_min_ge (l : list Q) (x c : Q) :
  c <= fold_left (fun m y => if Qltb y m then y else m) l x
  <-> c <= x /\ Forall (fun y => c <= y) l.
Proof.
  revert x. induction l as [|y l IH]; intros x; simpl.
  - split; [intros H; split; [exact H | constructor] | intros [H _]; exact H].
  - rewrite IH. destruct (Qltb y x) eqn:E.
    + apply Qltb_true in E. split.
      * intros [Hy Hl]. split; [lra | constructor; assumption].
      * intros [Hx Hl]. inversion Hl; subst. split; assumption.
    + apply Qltb_false in E. split.
      * intros [Hx Hl]. split; [exact Hx | constructor; [lra | exact Hl]].
      * intros [Hx Hl]. inversion Hl; subst. split; assumption.
Qed.

Lemma py_min_ge (l : list Q) (c : Q) :
  l <> [] -> (c <= py_min l <-> Forall (fun y => c <= y) l).
Proof.
  destruct l as [|x l]; [congruence|]. intros _. unfold py_min.
  rewrite fold_min_ge. split.
  - intros [Hx Hl]. constructor; assumption.
  - intros H. inversion H; subst. split; assumption.
Qed.

(** ** Where a leg starts and ends *)

Lemma best_low_bounds (closes : list Q) (cur : nat) :
  let b := best_low closes cur in
  (cur <= fst b)%nat
  /\ (fst b = cur \/ (fst b < Nat.min (cur + 10) (length closes))%nat)
  /\ snd b = item closes (fst b).
Proof.
  unfold best_low. apply fold_left_invariant.
  - simpl. repeat split; auto.
  - intros [bi bv] i Hin (H1 & H2 & H3). apply in_range in Hin. simpl in *.
    destruct (Qltb (item closes i) bv); simpl; repeat split; auto; lia.
Qed.

Lemma best_high_bounds (closes : list Q) (cur : nat) :
  let b := best_high closes cur in
  (cur <= fst b)%nat
  /\ (fst b = cur \/ (fst b < Nat.min (cur + 10) (length closes))%nat)
  /\ snd b = item closes (fst b).
Proof.
  unfold best_high. apply fold_left_invariant.
  - simpl. repeat split; auto.
  - intros [bi bv] i Hin (H1 & H2 & H3). apply in_range in Hin. simpl in *.
    destruct (Qltb bv (item closes i)); simpl; repeat split; auto; lia.
Qed.

Lemma wave_start_bounds (t : WaveType) (closes : list Q) (cur : nat) :
  (cur < length closes)%nat ->
  let b := wave_start t closes cur in
  (cur <= fst b < length closes)%nat /\ (fst b <= cur + 9)%nat
  /\ snd b = item closes (fst b).
Proof.
  intros Hcur. destruct t; simpl.
  - destruct (best_low_bounds closes cur) as (H1 & H2 & H3). repeat split; auto; lia.
  - destruct (best_high_bounds closes cur) as (H1 & H2 & H3). repeat split; auto; lia.
Qed.

Lemma scan_end_some (t : WaveType) (closes : list Q) (s : nat) (p : Q) (i : nat) :
  scan_end t closes s p = Some i ->
  (s + 5 <= i < Nat.min (s + 30) (length closes))%nat /\ end_test t closes p i = true.
Proof.
  unfold scan_end. intros H. apply find_some in H. destruct H as [Hin Ht].
  apply in_range in Hin. split; assumption.
Qed.

Lemma wave_end_bounds (t : WaveType) (closes : list Q) (s : nat) (p : Q) :
  (s < length closes)%nat ->
  let e := wave_end t closes s p in
  (s <= fst e < length closes)%nat /\ (fst e <= s + 29)%nat
  /\ snd e = item closes (fst e).
Proof.
  intros Hs. unfold wave_end. destruct (scan_end t closes s p) as [i|] eqn:E; simpl.
  - apply scan_end_some in E. destruct E as [Hi _]. repeat split; auto; lia.
  - repeat split; auto; lia.
Qed.

(** ** The segmentation loop *)

Lemma segment_loop_invariant (P : SegState -> Prop) (data : list Bar) :
  (forall st, P st -> segment_guard data st = true -> P (segment_step data st)) ->
  forall fuel st, P st -> P (segment_loop fuel data st).
Proof.
  intros Hstep. induction fuel as [|fuel IH]; intros st Hst; simpl; [exact Hst|].
  destruct (segment_guard data st) eqn:G; [|exact Hst].
  apply IH. apply Hstep; assumption.
Qed.

Lemma segment_guard_true (data : list Bar) (st : SegState) :
  segment_guard data st = true ->
  (current_idx st + 10 < length data)%nat /\ (length (acc_waves st) < 8)%nat.
Proof.
  unfold segment_guard. rewrite andb_true_iff, !Nat.ltb_lt. lia.
Qed.

(** What one iteration appends: exactly one leg, whose indices are known. *)
Lemma segment_step_spec (data : list Bar) (st : SegState) :
  (current_idx st < length data)%nat ->
  exists (s e : nat) (w : Wave),
    acc_waves (segment_step data st) = acc_waves st ++ [w]
    /\ current_idx (segment_step data st) = (e + 1)%nat
    /\ next_type (segment_step data st) = flip (next_type st)
    /\ wave_type w = next_type st
    /\ (current_idx st <= s <= current_idx st + 9)%nat
    /\ (s <= e <= s + 29)%nat /\ (e < length data)%nat
    /\ duration w = (Z.of_nat e - Z.of_nat s + 1)%Z.
Proof.
  intros Hcur. unfold segment_step.
  set (closes := map close data).
  assert (Hlen : length closes = length data) by (unfold closes; apply length_map).
  pose proof (wave_start_bounds (next_type st) closes (current_idx st)) as Hs.
  rewrite Hlen in Hs. specialize (Hs Hcur). simpl in Hs.
  destruct (wave_start (next_type st) closes (current_idx st)) as [s sp] eqn:Es.
  simpl in Hs. destruct Hs as (Hs1 & Hs2 & _).
  pose proof (wave_end_bounds (next_type st) closes s sp) as He.
  rewrite Hlen in He. specialize (He (proj2 Hs1)). simpl in He.
  destruct (wave_end (next_type st) closes s sp) as [e ep] eqn:Ee.
  simpl in He. destruct He as (He1 & He2 & _).
  eexists s, e, _. simpl. repeat split; try reflexivity; try lia.
Qed.

Lemma segment_fuel_enough (data : list Bar) :
  forall fuel st,
    (8 - length (acc_waves st) <= fuel)%nat ->
    segment_loop fuel data st = segment_loop (8 - length (acc_waves st)) data st.
Proof.
  induction fuel as [|fuel IH]; intros st Hfuel.
  - replace (8 - length (acc_waves st))%nat with O by lia. reflexivity.
  - simpl. destruct (segment_guard data st) eqn:G.
    + destruct (segment_guard_true _ _ G) as [Hc Hw].
      destruct (segment_step_spec data st) as (s & e & w & Hw' & _); [lia|].
      assert (Hl : length (acc_waves (segment_step data st))
                   = S (length (acc_waves st))).
      { rewrite Hw', length_app. simpl. lia. }
      rewrite IH by lia. rewrite Hl.
      replace (8 - length (acc_waves st))%nat
        with (S (8 - S (length (acc_waves st)))) by lia.
      simpl. rewrite G. reflexivity.
    + destruct (8 - length (acc_waves st))%nat; simpl; [reflexivity|].
      rewrite G. reflexivity.
Qed.

(** More fuel than the guard allows changes nothing: the loop has stopped. *)
Lemma segment_total (data : list Bar) (fuel : nat) :
  (8 <= fuel)%nat -> segment_loop fuel data segment_init = segment data.
Proof.
  intros H. unfold segment.
  rewrite (segment_fuel_enough data fuel segment_init) by (simpl; lia).
  reflexivity.
Qed.

Lemma segment_stopped (data : list Bar) :
  segment_guard data (segment data) = false.
Proof.
  unfold segment.
  assert (H : forall fuel st,
             (8 - length (acc_waves st) <= fuel)%nat ->
             segment_guard data (segment_loop fuel data st) = false).
  { induction fuel as [|fuel IH]; intros st Hf; simpl.
    - unfold segment_guard. apply andb_false_iff. right. apply Nat.ltb_ge. lia.
    - destruct (segment_guard data st) eqn:G; [|exact G].
      apply IH. destruct (segment_guard_true _ _ G) as [Hc Hw].
      destruct (segment_step_spec data st) as (s & e & w & Hw' & _); [lia|].
      rewrite Hw', length_app. simpl. lia. }
  apply H. simpl. lia.
Qed.

Lemma segment_loop_bounds (data : list Bar) (fuel : nat) (st : SegState) :
  (length (acc_waves st) <= 8)%nat -> Forall leg_bounded (acc_waves st) ->
  (length (acc_waves (segment_loop fuel data st)) <= 8)%nat
  /\ Forall leg_bounded (acc_waves (segment_loop fuel data st)).
Proof.
  intros H1 H2.
  apply (segment_loop_invariant
           (fun st => (length (acc_waves st) <= 8)%nat /\ Forall leg_bounded (acc_waves st)));
    [|split; assumption].
  clear. intros st [Hl Hf] G.
  destruct (segment_guard_true _ _ G) as [Hc Hw].
  destruct (segment_step_spec data st) as (s & e & w & Hw' & _ & _ & _ & Hs & He & _ & Hd);
    [lia|].
  rewrite Hw'. split.
  - rewrite length_app. simpl. lia.
  - apply Forall_app. split; [exact Hf|]. constructor; [|constructor].
    unfold leg_bounded. lia.
Qed.

(** C8. One run of the wave segmenter yields at most 8 legs, and each leg
    spans at most 30 bars: its [duration], end index minus start index plus
    one, is between 1 and 30. *)
Theorem segment_at_most_8_legs_of_30_bars (data : list Bar) :
  (length (acc_waves (segment data)) <= 8)%nat
  /\ Forall (fun w => (1 <= duration w <= 30)%Z) (acc_waves (segment data)).
Proof.
  unfold segment. apply segment_loop_bounds; simpl; [lia | constructor].
Qed.

(** ** The three-wave detector *)

Lemma band_fold (l : list Wave) (a : Z) :
  fold_left
    (fun (score : Z) w =>
       if Qleb 10 (change_pct w) && Qleb (change_pct w) 20
       then (score + 10)%Z else score) l a
  = (a + 10 * Z.of_nat (length (List.filter in_band l)))%Z.
Proof.
  revert a. induction l as [|w l IH]; intros a; simpl; [lia|].
  rewrite IH. unfold in_band at 2.
  destruct (Qleb 10 (change_pct w) && Qleb (change_pct w) 20); simpl; lia.
Qed.

Lemma wave_score_spec (all_waves : list Wave) (supports : list Q) :
  wave_score (up_legs all_waves) all_waves supports
  = spec_quality_score all_waves supports.
Proof.
  unfold wave_score, spec_quality_score, total_duration. rewrite band_fold.
  destruct (fold_right Z.add 0%Z (map duration all_waves) <=? 90)%Z;
    destruct (2 <=? length supports)%nat; lia.
Qed.

Lemma spec_quality_score_range (all_waves : list Wave) (supports : list Q) :
  (0 <= spec_quality_score all_waves supports <= 70)%Z.
Proof.
  unfold spec_quality_score.
  assert (H : (length (List.filter in_band (take 3 (up_legs all_waves))) <= 3)%nat).
  { etransitivity; [apply filter_length_le|]. rewrite length_take. lia. }
  destruct (total_duration all_waves <=? 90)%Z;
    destruct (2 <=? length supports)%nat; lia.
Qed.

Lemma highs_rising_test (all_waves : list Wave) :
  (3 <= length (up_legs all_waves))%nat ->
  let highs := map end_price (take 3 (up_legs all_waves)) in
  Qltb (item highs 0) (item highs 1) && Qltb (item highs 1) (item highs 2) = true
  <-> highs_rising all_waves.
Proof.
  intros Hlen. unfold highs_rising.
  destruct (up_legs all_waves) as [|w1 [|w2 [|w3 rest]]]; simpl in Hlen; try lia.
  simpl. unfold item. simpl. rewrite andb_true_iff, !Qltb_true. split.
  - intros [H1 H2]. exists w1, w2, w3, rest. auto.
  - intros (v1 & v2 & v3 & r & E & H1 & H2). inversion E; subst. auto.
Qed.

(** The only way through [analyse_waves] to a confirmed result. *)
Lemma analyse_waves_confirmed (pr : Params) (all_waves : list Wave) (supports : list Q)
    (p : Pattern) :
  analyse_waves pr all_waves supports = Confirmed p ->
  (3 <= length (up_legs all_waves))%nat
  /\ highs_rising all_waves
  /\ (2 <= length supports)%nat
  /\ (min_wave_score pr <= spec_quality_score all_waves supports)%Z
  /\ waves p = all_waves
  /\ support_levels p = take 3 supports
  /\ quality_score p = Z.min 100 (spec_quality_score all_waves supports).
Proof.
  unfold analyse_waves.
  destruct (length (up_legs all_waves) <? 3)%nat eqn:E1; [discriminate|].
  apply Nat.ltb_ge in E1.
  destruct (Qltb _ _ && Qltb _ _) eqn:E2; simpl; [|discriminate].
  apply (highs_rising_test all_waves E1) in E2.
  destruct (length supports <? 2)%nat eqn:E3; [discriminate|].
  apply Nat.ltb_ge in E3.
  rewrite wave_score_spec.
  destruct (spec_quality_score all_waves supports <? min_wave_score pr)%Z eqn:E4;
    [discriminate|].
  apply Z.ltb_ge in E4.
  intros H. inversion H; subst; clear H. simpl. repeat split; auto.
Qed.

Lemma identify_three_waves_confirmed (pv : Provider) (pr : Params) (code : string)
    (start_date end_date : Z) (p : Pattern) :
  identify_three_waves pv pr code start_date end_date = Confirmed p ->
  exists price_data start_idx,
    get_price pv code end_date (end_date - start_date + 100)%Z = Frame price_data
    /\ locate_start (map date price_data) start_date 0 = Some start_idx
    /\ (30 <= length price_data - start_idx)%nat
    /\ let st := segment (drop start_idx price_data) in
       analyse_waves pr (acc_waves st) (acc_supports st) = Confirmed p.
Proof.
  unfold identify_three_waves.
  destruct (get_price pv code end_date (end_date - start_date + 100)%Z)
    as [| |price_data]; try discriminate.
  destruct (locate_start (map date price_data) start_date 0) as [start_idx|] eqn:L;
    [|discriminate].
  destruct (length price_data - start_idx <? 30)%nat eqn:E; [discriminate|].
  apply Nat.ltb_ge in E. intros H. exists price_data, start_idx.
  repeat split; [exact L | exact E | exact H].
Qed.

(** C1. Whenever [identify_three_waves] returns a confirmed result, the
    returned legs contain at least three up legs, the end prices of the
    first three up legs strictly increase, at least two support levels are
    reported, and the reported quality score is at least the configured
    minimum [min_wave_score]. *)
Theorem confirmed_pattern_invariant (pv : Provider) (pr : Params) (code : string)
    (start_date end_date : Z) (p : Pattern)
    (Hconfirmed : identify_three_waves pv pr code start_date end_date = Confirmed p) :
  (3 <= length (up_legs (waves p)))%nat
  /\ highs_rising (waves p)
  /\ (2 <= length (support_levels p))%nat
  /\ (min_wave_score pr <= quality_score p)%Z.
Proof.
  apply identify_three_waves_confirmed in Hconfirmed.
  destruct Hconfirmed as (price_data & start_idx & _ & _ & _ & H).
  apply analyse_waves_confirmed in H.
  destruct H as (H1 & H2 & H3 & H4 & Hw & Hs & Hq).
  rewrite Hw, Hs, Hq. repeat split; auto.
  - rewrite length_take. lia.
  - pose proof (spec_quality_score_range
                  (acc_waves (segment (drop start_idx price_data)))
                  (acc_supports (segment (drop start_idx price_data)))).
    lia.
Qed.

(** The detector as a function of the fetched frame. *)
Lemma identify_three_waves_frame (pv : Provider) (pr : Params) (code : string)
    (start_date end_date : Z) (price_data : list Bar) (start_idx : nat) :
  get_price pv code end_date (end_date - start_date + 100)%Z = Frame price_data ->
  locate_start (map date price_data) start_date 0 = Some start_idx ->
  (30 <= length price_data - start_idx)%nat ->
  identify_three_waves pv pr code start_date end_date
  = analyse_waves pr (acc_waves (segment (drop start_idx price_data)))
      (acc_supports (segment (drop start_idx price_data))).
Proof.
  intros Hf Hl Hn. unfold identify_three_waves. rewrite Hf, Hl.
  apply Nat.ltb_ge in Hn. rewrite Hn. reflexivity.
Qed.

Lemma analyse_waves_scored (pr : Params) (all_waves : list Wave) (supports : list Q) :
  (3 <= length (up_legs all_waves))%nat ->
  highs_rising all_waves ->
  (2 <= length supports)%nat ->
  let score := spec_quality_score all_waves supports in
  if (score <? min_wave_score pr)%Z
  then analyse_waves pr all_waves supports = NotConfirmed (ScoreTooLow score)
  else exists p, analyse_waves pr all_waves supports = Confirmed p
                 /\ quality_score p = score.
Proof.
  intros Hups Hrise Hsup score. unfold analyse_waves.
  pose proof Hups as E1. apply Nat.ltb_ge in E1. rewrite E1.
  apply (highs_rising_test all_waves Hups) in Hrise. simpl in Hrise. rewrite Hrise.
  simpl. pose proof Hsup as E3. apply Nat.ltb_ge in E3. rewrite E3.
  rewrite wave_score_spec. fold score.
  destruct (score <? min_wave_score pr)%Z; [reflexivity|].
  eexists. split; [reflexivity|]. simpl.
  pose proof (spec_quality_score_range all_waves supports). unfold score. lia.
Qed.

Lemma full_marks (all_waves : list Wave) (supports : list Q) :
  (3 <= length (up_legs all_waves))%nat ->
  (2 <= length supports)%nat ->
  Forall (fun w => in_band w = true) (take 3 (up_legs all_waves)) ->
  (total_duration all_waves <= 90)%Z ->
  spec_quality_score all_waves supports = 70%Z.
Proof.
  intros Hups Hsup Hband Hdays. unfold spec_quality_score.
  assert (Hf : List.filter in_band (take 3 (up_legs all_waves))
               = take 3 (up_legs all_waves)).
  { revert Hband. generalize (take 3 (up_legs all_waves)).
    induction l as [|w l IH]; intros H; [reflexivity|].
    inversion H; subst. simpl. rewrite H2. f_equal. apply IH. assumption. }
  rewrite Hf, length_take.
  apply Z.leb_le in Hdays. rewrite Hdays.
  apply Nat.leb_le in Hsup. rewrite Hsup. lia.
Qed.

(** C9. On the legs and supports produced for a fetched frame that reached
    the scoring step, the score computed by the code is the sum of 10 for
    each of the first three up legs whose change lies in [10, 20], 20 when
    all durations sum to at most 90, and 20 when at least two supports
    exist; the detector fails with the score reason exactly when this sum is
    below [min_wave_score] (40 by default) and otherwise reports the sum;
    three legs in the band with at most 90 days score 70. *)
Theorem quality_score_rule (pv : Provider) (pr : Params) (code : string)
    (start_date end_date : Z) (price_data : list Bar) (start_idx : nat)
    (Hfetch : get_price pv code end_date (end_date - start_date + 100)%Z
              = Frame price_data)
    (Hstart : locate_start (map date price_data) start_date 0 = Some start_idx)
    (Hlen : (30 <= length price_data - start_idx)%nat)
    (Hups : (3 <= length (up_legs (acc_waves (segment (drop start_idx price_data)))))%nat)
    (Hrise : highs_rising (acc_waves (segment (drop start_idx price_data))))
    (Hsup : (2 <= length (acc_supports (segment (drop start_idx price_data))))%nat) :
  let all_waves := acc_waves (segment (drop start_idx price_data)) in
  let supports := acc_supports (segment (drop start_idx price_data)) in
  let score := spec_quality_score all_waves supports in
  wave_score (up_legs all_waves) all_waves supports = score
  /\ (if (score <? min_wave_score pr)%Z
      then identify_three_waves pv pr code start_date end_date
           = NotConfirmed (ScoreTooLow score)
      else exists p, identify_three_waves pv pr code start_date end_date = Confirmed p
                     /\ quality_score p = score)
  /\ min_wave_score default_params = 40%Z
  /\ (Forall (fun w => in_band w = true) (take 3 (up_legs all_waves)) ->
      (total_duration all_waves <= 90)%Z -> score = 70%Z).
Proof.
  intros all_waves supports score. split; [apply wave_score_spec|]. split.
  - rewrite (identify_three_waves_frame _ _ _ _ _ _ _ Hfetch Hstart Hlen).
    apply analyse_waves_scored; assumption.
  - split; [reflexivity|]. intros Hband Hdays. apply full_marks; assumption.
Qed.

Lemma quality_score_rule_witness :
  spec_quality_score (acc_waves (segment (drop 0 demo_data)))
    (acc_supports (segment (drop 0 demo_data)))
  = 70%Z.
Proof.
  assert (Hups : (3 <= length (up_legs (acc_waves (segment (drop 0 demo_data)))))%nat)
    by (vm_compute; lia).
  assert (Hsup : (2 <= length (acc_supports (segment (drop 0 demo_data))))%nat)
    by (vm_compute; lia).
  assert (Hrise : highs_rising (acc_waves (segment (drop 0 demo_data)))).
  { unfold highs_rising. eexists _, _, _, _.
    split; [vm_compute; reflexivity|]. split; reflexivity. }
  pose proof (quality_score_rule (history demo_data) default_params "600000.XSHG"
                1000 1043 demo_data 0 eq_refl eq_refl ltac:(vm_compute; lia)
                Hups Hrise Hsup) as H.
  cbv zeta in H. destruct H as (_ & _ & _ & H). apply H.
  - vm_compute. repeat constructor.
  - vm_compute. discriminate.
Defined.

Lemma confirmed_pattern_invariant_witness :
  (3 <= length (up_legs (waves demo_pattern)))%nat
  /\ highs_rising (waves demo_pattern)
  /\ (2 <= length (support_levels demo_pattern))%nat
  /\ (min_wave_score default_params <= quality_score demo_pattern)%Z.
Proof.
  apply (confirmed_pattern_invariant (history demo_data) default_params
           "600000.XSHG" 1000 1043 demo_pattern).
  vm_compute. reflexivity.
Defined.

(** ** The consolidation detector *)

Lemma filter_map_length {A B} (f : B -> bool) (h : A -> B) (l : list A) :
  length (List.filter f (map h l)) = length (List.filter (fun x => f (h x)) l).
Proof.
  induction l as [|x l IH]; simpl; [reflexivity|].
  destruct (f (h x)); simpl; rewrite IH; reflexivity.
Qed.

(** C2. For a fetched window of at least 20 bars and a non-empty list of
    support levels, [check_consolidation] returns a result.  Its
    [in_range_ratio] is the share of the window's bars that close between
    0.98 times the largest support and 1.02 times the third high, its
    [volume_ratio] the mean volume of the last 10 bars over that of the
    first 10 (1 when the latter is not positive), and its
    [is_consolidating] flag is true exactly when [in_range_ratio >= 0.7] and
    [volume_ratio < 1.5]; with [volume_ratio >= 1.5] the flag is false
    whatever the in-range ratio. *)
Theorem consolidation_flag (pv : Provider) (code : string) (wave3_high : Q)
    (supports : list Q) (end_date : Z) (price_data : list Bar)
    (Hfetch : get_price pv code end_date 60 = Frame price_data)
    (Hbars : (20 <= length price_data)%nat)
    (Hsupports : supports <> []) :
  exists c,
    check_consolidation pv code wave3_high supports end_date = Some c
    /\ in_range_ratio c = window_in_range_ratio price_data wave3_high supports
    /\ volume_ratio c = window_volume_ratio price_data
    /\ (is_consolidating c = true <-> 0.7 <= in_range_ratio c /\ volume_ratio c < 1.5)
    /\ (1.5 <= volume_ratio c -> is_consolidating c = false).
Proof.
  unfold check_consolidation, consolidation_of. rewrite Hfetch.
  pose proof Hbars as Hlt. apply Nat.ltb_ge in Hlt. rewrite Hlt.
  destruct supports as [|s rest]; [congruence|].
  eexists. split; [reflexivity|]. cbn [in_range_ratio volume_ratio is_consolidating].
  split; [|split; [|split]].
  - unfold window_in_range_ratio, bar_in_range.
    rewrite filter_map_length, length_map. reflexivity.
  - unfold window_volume_ratio. rewrite length_map.
    apply Nat.leb_le in Hbars. rewrite Hbars.
    rewrite firstn_map, skipn_map. reflexivity.
  - rewrite andb_true_iff, Qleb_true, Qltb_true. reflexivity.
  - intros H. apply andb_false_iff. right. apply Qltb_false. exact H.
Qed.

Lemma consolidation_flag_witness :
  exists c,
    check_consolidation (history demo_data) "600000.XSHG" 126 [102; 102; 102] 1043 = Some c
    /\ in_range_ratio c = window_in_range_ratio demo_data 126 [102; 102; 102]
    /\ volume_ratio c = window_volume_ratio demo_data
    /\ (is_consolidating c = true <-> 0.7 <= in_range_ratio c /\ volume_ratio c < 1.5)
    /\ (1.5 <= volume_ratio c -> is_consolidating c = false).
Proof.
  apply (consolidation_flag (history demo_data) "600000.XSHG" 126 [102; 102; 102] 1043
           demo_data).
  - vm_compute. reflexivity.
  - vm_compute. lia.
  - discriminate.
Defined.

(** On the sample window every close lies in the band and the last ten
    bars trade no more than the first ten: the window is consolidating. *)
Example demo_window_consolidates :
  window_in_range_ratio demo_data 126 [102; 102; 102] == 1
  /\ window_volume_ratio demo_data == 10 # 12
  /\ is_consolidating <$> check_consolidation (history demo_data) "600000.XSHG" 126
                            [102; 102; 102] 1043
     = Some true.
Proof. repeat split; vm_compute; reflexivity. Qed.

(** ** The composite score *)

Lemma clamp_builtin (x : Q) : py_max [-50; py_min [x; 50]] == clamp x (-50) 50.
Proof.
  unfold py_max, py_min, clamp. simpl.
  destruct (Qltb 50 x) eqn:E1; destruct (Qltb x (-50)) eqn:E2; simpl.
  - apply Qltb_true in E1. apply Qltb_true in E2. lra.
  - reflexivity.
  - assert (E3 : Qltb (-50) x = false) by (apply Qltb_false; apply Qltb_true in E2; lra).
    rewrite E3. reflexivity.
  - destruct (Qltb (-50) x) eqn:E3; [reflexivity|].
    apply Qltb_false in E2. apply Qltb_false in E3. lra.
Qed.

Lemma strength_score_label (st : Strength) :
  strength_score (strength_label st) = strength_base st.
Proof. destruct st; reflexivity. Qed.

(** C3. For a signal of any of the three strengths, the composite score is
    the strength's base (100, 60, 30) plus the auxiliary bonus: the
    shareholder-change factor times -10 clamped to [-50, 50] when the factor
    is present, 0 when it is absent; a positive factor gives a negative term
    before clamping. *)
Theorem composite_score_formula (signal : Signal) (st : Strength)
    (Hstrength : signal_strength signal = strength_label st) :
  calculate_composite_score signal
  == strength_base st + auxiliary_bonus (shareholder_change signal)
  /\ (shareholder_change signal = None -> auxiliary_bonus (shareholder_change signal) = 0)
  /\ (forall f, shareholder_change signal = Some f ->
        auxiliary_bonus (shareholder_change signal) == clamp (f * (-10)) (-50) 50
        /\ -50 <= auxiliary_bonus (shareholder_change signal) <= 50
        /\ (0 < f -> f * (-10) < 0)).
Proof.
  unfold calculate_composite_score. rewrite Hstrength, strength_score_label.
  split; [|split].
  - destruct (shareholder_change signal) as [f|]; unfold auxiliary_bonus;
      [|reflexivity].
    apply Qplus_comp; [reflexivity | apply clamp_builtin].
  - intros ->. reflexivity.
  - intros f ->. unfold auxiliary_bonus. split; [reflexivity|]. split.
    + unfold clamp. destruct (Qltb (f * -10) (-50)) eqn:E1; [lra|].
      destruct (Qltb 50 (f * -10)) eqn:E2; [lra|].
      apply Qltb_false in E1. apply Qltb_false in E2. lra.
    + intros Hf. lra.
Qed.

Lemma composite_score_formula_witness :
  calculate_composite_score demo_signal == 60 + -50.
Proof.
  destruct (composite_score_formula demo_signal Medium eq_refl) as [H _].
  etransitivity; [exact H|]. vm_compute. reflexivity.
Defined.

(** Signals only ever carry one of the three labels. *)
Lemma classify_label (pr : Params) (b e : bool) (h r v : Q) :
  exists st, fst (classify pr b e h r v) = strength_label st.
Proof.
  unfold classify.
  destruct (b && e && Qltb 1.5 v); [exists Strong; reflexivity|].
  destruct (b && Qltb 1.2 v); [exists Medium; reflexivity|].
  destruct (Qltb r h && Qltb 1.0 v); exists Weak; reflexivity.
Qed.

Lemma generated_signal_label (pv : Provider) (pr : Params) (code name : string)
    (change turnover : Q) (now : DateTime) (signal : Signal) :
  generate_trade_signal pv pr code name change turnover now = Some signal ->
  exists st, signal_strength signal = strength_label st.
Proof.
  unfold generate_trade_signal, signal_body, mbind, outcome_bind.
  destruct (negb (has_A_kill _)); [discriminate|].
  destruct (A_bottom_date _) as [bottom|]; unfold getitem; [|discriminate].
  destruct (identify_three_waves _ _ _ _ _) as [|p]; [discriminate|].
  destruct (check_consolidation _ _ _ _ _) as [c|]; [|discriminate].
  destruct (negb (is_consolidating c)); [discriminate|].
  destruct (get_price pv code (dt_date now) 1) as [| |[|today rest]]; try discriminate.
  destruct (get_price pv code (dt_date now) 5) as [| |rows]; try discriminate.
  destruct (5 <=? length rows)%nat;
    match goal with
    | |- context [classify ?a ?b ?c ?d ?e ?f] =>
        destruct (classify_label a b c d e f) as [st Hst];
        destruct (classify a b c d e f) as [strength ratio]
    end;
    simpl in Hst; (destruct (Qleb ratio 0); [discriminate|]);
    intros H; inversion H; subst; simpl; exists st; reflexivity.
Qed.

(** ** identify_A_kill and the signal generator *)

Lemma identify_A_kill_cases (pv : Provider) (code : string) (end_date : Z) :
  has_A_kill (identify_A_kill pv code end_date) = true
  /\ (a_kill_fallback pv code end_date
      <-> A_bottom_date (identify_A_kill pv code end_date) = None).
Proof.
  unfold identify_A_kill, a_kill_fallback.
  destruct (get_price pv code end_date 200) as [| |price_data]; simpl;
    try (split; [reflexivity | tauto]).
  destruct (length price_data <? 60)%nat eqn:E; simpl.
  - apply Nat.ltb_lt in E. split; [reflexivity|]. tauto.
  - apply Nat.ltb_ge in E.
    destruct (Qltb 30 _) eqn:E2; simpl; (split; [reflexivity|]).
    + apply Qltb_true in E2. split; [|discriminate].
      intros [H|H]; [lia | lra].
    + apply Qltb_false in E2. split; auto.
Qed.

Lemma missing_bottom_date_raises (pv : Provider) (pr : Params) (code name : string)
    (change turnover : Q) (now : DateTime) :
  A_bottom_date (identify_A_kill pv code (dt_date now)) = None ->
  signal_body pv pr code name change turnover now = Raise (KeyError "A_bottom_date").
Proof.
  intros H. unfold signal_body.
  destruct (identify_A_kill_cases pv code (dt_date now)) as [Hk _].
  rewrite Hk, H. reflexivity.
Qed.

(** C10. [identify_A_kill] always answers [has_A_kill = True].  When the
    fetch fails, fewer than 60 bars come back or the high-to-low change is
    at most 30 percent (and only then) the answer has no [A_bottom_date]; in
    that case the lookup in [generate_trade_signal] raises [KeyError], which
    the function's own handler turns into [None]: no signal, and no error
    reaches the caller. *)
Theorem a_kill_without_bottom_gives_no_signal (pv : Provider) (pr : Params)
    (code name : string) (change turnover : Q) (now : DateTime) :
  has_A_kill (identify_A_kill pv code (dt_date now)) = true
  /\ (a_kill_fallback pv code (dt_date now)
      <-> A_bottom_date (identify_A_kill pv code (dt_date now)) = None)
  /\ (a_kill_fallback pv code (dt_date now) ->
      signal_body pv pr code name change turnover now = Raise (KeyError "A_bottom_date")
      /\ generate_trade_signal pv pr code name change turnover now = None).
Proof.
  destruct (identify_A_kill_cases pv code (dt_date now)) as [Hk Hd].
  split; [exact Hk|]. split; [exact Hd|].
  intros Hf. apply Hd in Hf.
  pose proof (missing_bottom_date_raises pv pr code name change turnover now Hf) as Hr.
  split; [exact Hr|]. unfold generate_trade_signal. rewrite Hr. reflexivity.
Qed.

Lemma a_kill_without_bottom_gives_no_signal_witness :
  generate_trade_signal (history demo_data) default_params "600000.XSHG" "demo" 5 8
    (mkDateTime 1043 14 56) = None.
Proof.
  destruct (a_kill_without_bottom_gives_no_signal (history demo_data) default_params
              "600000.XSHG" "demo" 5 8 (mkDateTime 1043 14 56)) as (_ & _ & H).
  assert (Hshort : a_kill_fallback (history demo_data) "600000.XSHG"
                     (dt_date (mkDateTime 1043 14 56))).
  { left. vm_compute. lia. }
  exact (proj2 (H Hshort)).
Defined.

(** ** Where an up leg ends *)

Lemma item_lookup (l : list Q) (i : nat) (x : Q) : l !! i = Some x -> item l i = x.
Proof. intros H. unfold item. rewrite nth_lookup, H. reflexivity. Qed.

Lemma Forall_slice (P : Q -> Prop) (a b : nat) (l : list Q) :
  (b <= length l)%nat ->
  (Forall P (slice a b l) <-> forall j, (a <= j < b)%nat -> P (item l j)).
Proof.
  intros Hb. unfold slice. rewrite Forall_lookup. split.
  - intros H j Hj.
    destruct (lookup_lt_is_Some_2 l j) as [x Hx]; [lia|].
    rewrite (item_lookup _ _ _ Hx). apply (H (j - a)%nat).
    rewrite lookup_take_lt by lia. rewrite lookup_drop.
    replace (a + (j - a))%nat with j by lia. exact Hx.
  - intros H i x Hix.
    destruct (decide (i < b - a)%nat) as [Hi|Hi].
    + rewrite lookup_take_lt in Hix by lia. rewrite lookup_drop in Hix.
      rewrite <- (item_lookup _ _ _ Hix). apply H. lia.
    + rewrite lookup_take_ge in Hix by lia. discriminate.
Qed.

Lemma slice_nonempty (a b : nat) (l : list Q) :
  (a < b <= length l)%nat -> slice a b l <> [].
Proof.
  intros H E. apply (f_equal length) in E. unfold slice in E.
  rewrite length_take, length_drop in E. simpl in E. lia.
Qed.

Lemma up_end_test_spec (closes : list Q) (s : nat) (sp : Q) (i : nat) :
  (s + 5 <= i < s + 30)%nat ->
  (up_end_test closes sp i = true <-> up_end_candidate closes s sp i).
Proof.
  intros Hi. unfold up_end_test, up_end_candidate.
  rewrite !andb_true_iff, !Qleb_true, Nat.ltb_lt.
  replace (Nat.max 0 (i - 3)) with (i - 3)%nat by lia.
  split.
  - intros [[[Hrise Hedge] Hbefore] Hafter].
    replace (Nat.min (length closes) (i + 4)) with (i + 4)%nat in Hafter by lia.
    rewrite py_max_le in Hbefore by (apply slice_nonempty; lia).
    rewrite py_max_le in Hafter by (apply slice_nonempty; lia).
    rewrite Forall_slice in Hbefore by lia.
    rewrite Forall_slice in Hafter by lia.
    repeat split; auto; try lia.
    + intros j Hj. apply Hbefore. lia.
    + intros j Hj. apply Hafter. lia.
  - intros (_ & Hedge & Hrise & Hbefore & Hafter).
    replace (Nat.min (length closes) (i + 4)) with (i + 4)%nat by lia.
    repeat split; auto; try lia.
    + rewrite py_max_le by (apply slice_nonempty; lia).
      rewrite Forall_slice by lia. intros j Hj.
      destruct (decide (j = i)) as [->|Hne]; [apply Qle_refl|]. apply Hbefore. lia.
    + rewrite py_max_le by (apply slice_nonempty; lia).
      rewrite Forall_slice by lia. intros j Hj. apply Hafter. lia.
Qed.

Lemma find_seq_first (f : nat -> bool) (a n i : nat) :
  List.find f (seq a n) = Some i ->
  forall j, (a <= j < i)%nat -> f j = false.
Proof.
  revert a. induction n as [|n IH]; intros a; simpl; [discriminate|].
  destruct (f a) eqn:E.
  - intros H j Hj. inversion H; subst. lia.
  - intros H j Hj. destruct (decide (j = a)) as [->|Hne]; [exact E|].
    apply (IH (S a) H). lia.
Qed.

(** C6, as the code has it.  The end of an up leg that starts at bar [s] is
    the first bar [i] with [s + 5 <= i < s + 30] that is followed by three
    more bars of the series, has risen at least 10 percent from the start
    price, and whose close is at least the closes of the three bars before
    it and of the three bars after it (full windows on both sides); when no
    such bar exists the end is forced to bar [s + 29] or the last bar of the
    series, whichever comes first. *)
Theorem up_leg_end (closes : list Q) (s : nat) (sp : Q) :
  let e := fst (wave_end up closes s sp) in
  (up_end_candidate closes s sp e
   /\ forall j, (j < e)%nat -> ~ up_end_candidate closes s sp j)
  \/ ((forall j, ~ up_end_candidate closes s sp j)
      /\ e = Nat.min (s + 29) (length closes - 1)).
Proof.
  unfold wave_end. destruct (scan_end up closes s sp) as [i|] eqn:E; simpl.
  - left. pose proof E as E'. apply scan_end_some in E'. destruct E' as [Hi Ht].
    simpl in Ht. split.
    + apply (up_end_test_spec closes s sp i); [lia | exact Ht].
    + intros j Hj Hc. pose proof Hc as (Hr & _).
      apply (up_end_test_spec closes s sp j Hr) in Hc.
      unfold scan_end, range in E.
      assert (Hf : end_test up closes sp j = false)
        by (apply (find_seq_first _ _ _ _ E j); lia).
      simpl in Hf. congruence.
  - right. split; [|reflexivity]. intros j Hc. pose proof Hc as (Hr & Hlen & _).
    apply (up_end_test_spec closes s sp j Hr) in Hc.
    unfold scan_end in E.
    assert (Hf : end_test up closes sp j = false)
      by (apply (find_none _ _ E j); apply in_range; lia).
    simpl in Hf. congruence.
Qed.

(** C6, as worded, fails on [edge_closes]: bar 27 has risen 20 percent and
    tops the three bars before it and the two bars that follow, so a
    truncated window would end the leg there; the code leaves the last three
    bars out and forces the end at bar 29. *)
Lemma up_leg_end_truncated_window_counterexample :
  truncated_up_end edge_closes 0 10 = 27%nat
  /\ wave_start up edge_closes 0 = (0%nat, 10)
  /\ wave_end up edge_closes 0 10 = (29%nat, 11)
  /\ map end_date (acc_waves (segment edge_data)) = [29%Z]
  /\ fst (wave_end up edge_closes 0 10) <> truncated_up_end edge_closes 0 10.
Proof.
  repeat split; try (vm_compute; reflexivity).
  vm_compute. discriminate.
Qed.

(** ** Support prices *)

Lemma fold_left_ext_in {A B} (f g : A -> B -> A) (l : list B) (a : A) :
  (forall a b, In b l -> f a b = g a b) -> fold_left f l a = fold_left g l a.
Proof.
  revert a. induction l as [|b l IH]; intros a H; simpl; [reflexivity|].
  rewrite H by (left; reflexivity). apply IH. intros a' b' Hin. apply H. right. exact Hin.
Qed.

Lemma fold_left_through_map {A B C} (F : A -> C -> A) (h : B -> C) (l : list B) (a : A) :
  fold_left F (map h l) a = fold_left (fun acc i => F acc (h i)) l a.
Proof.
  revert a. induction l as [|b l IH]; intros a; simpl; [reflexivity | apply IH].
Qed.

Lemma fold_left_indices {A} (F : A -> Bar -> A) (leg : list Bar) (a : A) :
  fold_left (fun acc i => F acc (nth i leg bar0)) (seq 0 (length leg)) a
  = fold_left F leg a.
Proof.
  assert (E : map (fun i => nth i leg bar0) (seq 0 (length leg)) = leg).
  { apply (nth_ext _ _ bar0 bar0).
    - rewrite length_map, length_seq. reflexivity.
    - intros n Hn. rewrite length_map, length_seq in Hn.
      rewrite (nth_indep _ _ (nth 0%nat leg bar0))
        by (rewrite length_map, length_seq; exact Hn).
      rewrite (map_nth (fun i => nth i leg bar0)), seq_nth by exact Hn. reflexivity. }
  rewrite <- E at 2. symmetry. apply fold_left_through_map.
Qed.

Lemma keep_lowest_some (q : Bar -> bool) (l : list Bar) (m : Q) :
  fold_left (keep_lowest q) l (Some m)
  = Some (fold_left (fun m y => if Qltb y m then y else m) (map low (List.filter q l)) m).
Proof.
  revert m. induction l as [|b l IH]; intros m; simpl; [reflexivity|].
  unfold keep_lowest at 2. destruct (q b); simpl; [|apply IH].
  destruct (Qltb (low b) m); apply IH.
Qed.

Lemma keep_lowest_none (q : Bar -> bool) (l : list Bar) :
  fold_left (keep_lowest q) l None
  = match List.filter q l with
    | [] => None
    | qualifying => Some (py_min (map low qualifying))
    end.
Proof.
  induction l as [|b l IH]; simpl; [reflexivity|].
  unfold keep_lowest at 2. destruct (q b); simpl; [|exact IH].
  apply keep_lowest_some.
Qed.

(** For a leg that starts at bar 0 the loop index and the bar index coincide,
    and the search returns the support of the leg. *)
Lemma find_support_first_leg (data : list Bar) (e : nat) :
  find_support data 0 e = leg_support data 0 e.
Proof.
  unfold find_support, leg_support.
  set (leg := slice 0 (e + 1) data).
  destruct (length leg) as [|n] eqn:Hlen.
  - destruct leg; [reflexivity | discriminate].
  - assert (Hpos : (0 <? length (map volume leg))%nat = true)
      by (rewrite length_map, Hlen; reflexivity).
    rewrite Hpos. rewrite <- Hlen.
    set (avg := mean (map volume leg)).
    rewrite <- (keep_lowest_none
                  (fun b => Qltb (open b) (close b) && Qltb (avg * 1.2) (volume b)) leg).
    rewrite <- fold_left_indices. unfold range. rewrite Nat.sub_0_r.
    apply fold_left_ext_in. intros acc i Hin. apply in_seq in Hin.
    assert (Hb : iloc data i = nth i leg bar0).
    { unfold iloc, leg, slice. rewrite drop_0, Nat.sub_0_r.
      rewrite nth_firstn.
      assert (Hi : (i < e + 1)%nat).
      { unfold leg, slice in Hin. rewrite length_take in Hin. lia. }
      apply Nat.ltb_lt in Hi. rewrite Hi. reflexivity. }
    assert (Hv : item (map volume leg) i = volume (nth i leg bar0)).
    { unfold item. apply (map_nth volume leg bar0 i). }
    rewrite Hb, Hv. reflexivity.
Qed.

(** The leg an iteration appends, in terms of its start and end search. *)
Lemma segment_step_up_leg (data : list Bar) (st : SegState) :
  next_type st = up ->
  let closes := map close data in
  let s := wave_start up closes (current_idx st) in
  let e := wave_end up closes (fst s) (snd s) in
  exists w,
    acc_waves (segment_step data st) = acc_waves st ++ [w]
    /\ wave_type w = up
    /\ start_date w = date (iloc data (fst s)) /\ start_price w = snd s
    /\ end_date w = date (iloc data (fst e)) /\ end_price w = snd e
    /\ support_level w = truthy (find_support data (fst s) (fst e)).
Proof.
  intros Hup. unfold segment_step. rewrite Hup. simpl.
  destruct (best_low (map close data) (current_idx st)) as [s sp].
  simpl. destruct (wave_end up (map close data) s sp) as [e ep].
  eexists. simpl. repeat split.
Qed.

(** C5 at a failing input.  On [demo_data] the second up leg runs over bars
    14 to 22 and its only bar with volume above 1.2 times the leg's mean is
    bar 16 (bullish, low 106).  The code pairs that volume with
    [data.iloc[2]], a bar outside the leg, and records its low, 102. *)
Example support_read_outside_leg :
  map (fun w => (start_date w, end_date w, support_level w))
      (up_legs (acc_waves (segment demo_data)))
  = [(1000%Z, 1007%Z, Some 102); (1014%Z, 1022%Z, Some 102);
     (1029%Z, 1037%Z, Some 102)]
  /\ find_support demo_data 14 22 = Some 102
  /\ leg_support demo_data 14 22 = Some 106
  /\ low (iloc demo_data 2) = 102
  /\ low (iloc demo_data 16) = 106.
Proof. repeat split; vm_compute; reflexivity. Qed.

(** ** Dictionaries *)

Lemma key_is_true {A} (k : string) (e : string * A) : key_is k e = true <-> fst e = k.
Proof. unfold key_is. apply String.eqb_eq. Qed.

Lemma key_is_false {A} (k : string) (e : string * A) : key_is k e = false <-> fst e <> k.
Proof. unfold key_is. apply String.eqb_neq. Qed.

Lemma assoc_alter {A} (f : A -> A) (c k : string) (l : list (string * A)) :
  assoc k (map (fun e => if key_is c e then (fst e, f (snd e)) else e) l)
  = if String.eqb c k then f <$> assoc k l else assoc k l.
Proof.
  induction l as [|e rest IH]; simpl.
  - destruct (String.eqb c k); reflexivity.
  - destruct (key_is c e) eqn:Ec, (key_is k e) eqn:Ek; unfold key_is in *; simpl;
      rewrite ?Ek.
    + apply String.eqb_eq in Ec, Ek. rewrite <- Ec, Ek, String.eqb_refl. reflexivity.
    + exact IH.
    + apply String.eqb_neq in Ec. apply String.eqb_eq in Ek.
      destruct (String.eqb c k) eqn:E; [|reflexivity].
      apply String.eqb_eq in E. congruence.
    + exact IH.
Qed.

Lemma dict_lookup_alter_eq {A} (f : A -> A) (k : string) (d : Dict A) :
  alter f k d !! k = f <$> d !! k.
Proof.
  unfold lookup, dict_lookup, alter, dict_alter. simpl.
  rewrite assoc_alter, String.eqb_refl. reflexivity.
Qed.

Lemma dict_lookup_alter_ne {A} (f : A -> A) (c k : string) (d : Dict A) :
  c <> k -> alter f c d !! k = d !! k.
Proof.
  intros H. unfold lookup, dict_lookup, alter, dict_alter. simpl.
  rewrite assoc_alter. apply String.eqb_neq in H. rewrite H. reflexivity.
Qed.

Lemma assoc_filter {A} (c k : string) (l : list (string * A)) :
  assoc k (List.filter (fun e => negb (key_is c e)) l)
  = if String.eqb c k then None else assoc k l.
Proof.
  induction l as [|e rest IH]; simpl.
  - destruct (String.eqb c k); reflexivity.
  - destruct (key_is c e) eqn:Ec; simpl.
    + rewrite IH. destruct (String.eqb c k) eqn:E; [reflexivity|].
      destruct (key_is k e) eqn:Ek; [|reflexivity].
      apply key_is_true in Ec, Ek. apply String.eqb_neq in E. congruence.
    + rewrite IH. destruct (key_is k e) eqn:Ek; [|reflexivity].
      apply key_is_false in Ec. apply key_is_true in Ek.
      destruct (String.eqb c k) eqn:E; [|reflexivity].
      apply String.eqb_eq in E. congruence.
Qed.

Lemma dict_lookup_delete_eq {A} (k : string) (d : Dict A) : delete k d !! k = None.
Proof.
  unfold lookup, dict_lookup, delete, dict_delete. simpl.
  rewrite assoc_filter, String.eqb_refl. reflexivity.
Qed.

Lemma dict_lookup_delete_ne {A} (c k : string) (d : Dict A) :
  c <> k -> delete c d !! k = d !! k.
Proof.
  intros H. unfold lookup, dict_lookup, delete, dict_delete. simpl.
  rewrite assoc_filter. apply String.eqb_neq in H. rewrite H. reflexivity.
Qed.

Lemma assoc_set_lookup {A} (c k : string) (v : A) (l : list (string * A)) :
  assoc k (assoc_set c v l) = if String.eqb c k then Some v else assoc k l.
Proof.
  induction l as [|e rest IH]; simpl.
  - unfold key_is. simpl. destruct (String.eqb c k); reflexivity.
  - destruct (key_is c e) eqn:Ec; simpl.
    + unfold key_is at 1. simpl. destruct (String.eqb c k) eqn:E; [reflexivity|].
      destruct (key_is k e) eqn:Ek; [|reflexivity].
      apply key_is_true in Ec, Ek. apply String.eqb_neq in E. congruence.
    + rewrite IH. destruct (key_is k e) eqn:Ek; [|reflexivity].
      apply key_is_false in Ec. apply key_is_true in Ek.
      destruct (String.eqb c k) eqn:E; [|reflexivity].
      apply String.eqb_eq in E. congruence.
Qed.

Lemma dict_lookup_insert_eq {A} (k : string) (v : A) (d : Dict A) :
  <[k := v]> d !! k = Some v.
Proof.
  unfold lookup, dict_lookup, insert, dict_insert. simpl.
  rewrite assoc_set_lookup, String.eqb_refl. reflexivity.
Qed.

Lemma dict_lookup_insert_ne {A} (c k : string) (v : A) (d : Dict A) :
  c <> k -> <[c := v]> d !! k = d !! k.
Proof.
  intros H. unfold lookup, dict_lookup, insert, dict_insert. simpl.
  rewrite assoc_set_lookup. apply String.eqb_neq in H. rewrite H. reflexivity.
Qed.

Lemma dict_lookup_empty {A} (k : string) : (∅ : Dict A) !! k = None.
Proof. reflexivity. Qed.

Lemma dict_is_empty_true {A} (d : Dict A) : dict_is_empty d = true -> d = ∅.
Proof. destruct d as [[|e l]]; [reflexivity | discriminate]. Qed.

Lemma keys_of_filter {A} (f : string * A -> bool) (l : list (string * A)) (k : string) :
  k ∈ (List.filter f l).*1 -> k ∈ l.*1.
Proof.
  induction l as [|e rest IH]; simpl; [auto|].
  destruct (f e); simpl; rewrite ?elem_of_cons; intros H.
  - destruct H as [H|H]; [left; exact H | right; apply IH; exact H].
  - right. apply IH. exact H.
Qed.

Lemma NoDup_keys_filter {A} (f : string * A -> bool) (l : list (string * A)) :
  NoDup l.*1 -> NoDup (List.filter f l).*1.
Proof.
  induction l as [|e rest IH]; simpl; [auto|].
  rewrite NoDup_cons. intros [Hin Hnd]. destruct (f e); simpl; [|auto].
  apply NoDup_cons. split; [|auto]. intros H. apply Hin.
  apply keys_of_filter in H. exact H.
Qed.

Lemma NoDup_first_entries {A} (l : list (string * A)) : NoDup (first_entries l).*1.
Proof.
  induction l as [|e rest IH]; simpl; [constructor|].
  apply NoDup_cons. split; [|apply NoDup_keys_filter; exact IH].
  intros H. apply list_elem_of_fmap in H. destruct H as (e' & He & Hin).
  apply list_elem_of_In, filter_In in Hin. destruct Hin as [_ Hk].
  apply negb_true_iff, key_is_false in Hk. congruence.
Qed.

Lemma assoc_first_entries {A} (k : string) (l : list (string * A)) :
  assoc k (first_entries l) = assoc k l.
Proof.
  induction l as [|e rest IH]; simpl; [reflexivity|].
  destruct (key_is k e) eqn:Ek; [reflexivity|].
  rewrite assoc_filter, IH. apply key_is_false in Ek.
  apply String.eqb_neq in Ek. rewrite Ek. reflexivity.
Qed.

Lemma assoc_elem {A} (l : list (string * A)) (k : string) (v : A) :
  NoDup l.*1 -> ((k, v) ∈ l <-> assoc k l = Some v).
Proof.
  induction l as [|[c x] rest IH]; simpl.
  - intros _. split; [intros H; inversion H | discriminate].
  - rewrite NoDup_cons. intros [Hin Hnd]. rewrite elem_of_cons, (IH Hnd).
    unfold key_is. simpl. destruct (String.eqb c k) eqn:Ek.
    + apply String.eqb_eq in Ek. subst c. split.
      * intros [H | H]; [congruence|]. exfalso. apply Hin.
        apply (proj2 (IH Hnd)) in H. apply list_elem_of_fmap.
        exists (k, v). split; [reflexivity | exact H].
      * intros H. left. congruence.
    + apply String.eqb_neq in Ek. split; [|auto].
      intros [H | H]; [congruence | exact H].
Qed.

Lemma NoDup_items {A} (d : Dict A) : NoDup (items d).*1.
Proof. apply NoDup_first_entries. Qed.

Lemma elem_of_items {A} (d : Dict A) (k : string) (v : A) :
  (k, v) ∈ items d <-> d !! k = Some v.
Proof.
  unfold items, lookup, dict_lookup.
  rewrite (assoc_elem _ _ _ (NoDup_first_entries _)), assoc_first_entries. reflexivity.
Qed.

Lemma items_empty {A} : items (∅ : Dict A) = [].
Proof. reflexivity. Qed.

Lemma assoc_set_new {A} (k : string) (v : A) (l : list (string * A)) :
  assoc k l = None -> assoc_set k v l = l ++ [(k, v)].
Proof.
  induction l as [|e rest IH]; simpl; [reflexivity|].
  destruct (key_is k e); [discriminate|]. intros H. rewrite IH by exact H. reflexivity.
Qed.

Lemma first_entries_new {A} (k : string) (v : A) (l : list (string * A)) :
  assoc k l = None -> first_entries (l ++ [(k, v)]) = first_entries l ++ [(k, v)].
Proof.
  induction l as [|e rest IH]; simpl; [reflexivity|].
  destruct (key_is k e) eqn:Ek; [discriminate|]. intros H.
  rewrite IH by exact H. rewrite List.filter_app. simpl.
  apply key_is_false in Ek.
  assert (E : key_is (fst e) (k, v) = false) by (apply key_is_false; simpl; congruence).
  rewrite E. reflexivity.
Qed.

(** A new key adds one entry, at the end. *)
Lemma items_insert_new {A} (k : string) (v : A) (d : Dict A) :
  d !! k = None -> items (<[k := v]> d) = items d ++ [(k, v)].
Proof.
  unfold lookup, dict_lookup, items, insert, dict_insert. simpl. intros H.
  rewrite assoc_set_new by exact H. apply first_entries_new. exact H.
Qed.

Lemma dict_size_insert_None {A} (k : string) (v : A) (d : Dict A) :
  d !! k = None -> size (<[k := v]> d) = S (size d).
Proof.
  intros H. unfold size, dict_size. rewrite items_insert_new by exact H.
  rewrite length_app. simpl. lia.
Qed.

Lemma filter_key_map {A} (h : string * A -> string * A) (c : string)
    (l : list (string * A)) :
  (forall e, fst (h e) = fst e) ->
  List.filter (fun e => negb (key_is c e)) (map h l)
  = map h (List.filter (fun e => negb (key_is c e)) l).
Proof.
  intros Hh. induction l as [|e rest IH]; simpl; [reflexivity|].
  assert (E : key_is c (h e) = key_is c e) by (unfold key_is; rewrite Hh; reflexivity).
  rewrite E, IH. destruct (key_is c e); reflexivity.
Qed.

Lemma first_entries_map {A} (h : string * A -> string * A) (l : list (string * A)) :
  (forall e, fst (h e) = fst e) ->
  first_entries (map h l) = map h (first_entries l).
Proof.
  intros Hh. induction l as [|e rest IH]; simpl; [reflexivity|].
  rewrite IH, Hh, filter_key_map by exact Hh. reflexivity.
Qed.

(** An update in place keeps every entry where it is. *)
Lemma items_alter_keys {A} (f : A -> A) (k : string) (d : Dict A) :
  (items (alter f k d)).*1 = (items d).*1.
Proof.
  unfold items, alter, dict_alter. simpl. rewrite first_entries_map.
  - rewrite <- list_fmap_compose. apply list_fmap_ext. intros i e _. simpl.
    destruct (key_is k e); reflexivity.
  - intros e. destruct (key_is k e); reflexivity.
Qed.

(** The dicts the strategy builds never repeat a key: every operation keeps
    the keys distinct, and then the items are the list itself. *)
Lemma filter_all {A} (f : A -> bool) (l : list A) :
  (forall x, x ∈ l -> f x = true) -> List.filter f l = l.
Proof.
  induction l as [|x l IH]; simpl; intros H; [reflexivity|].
  rewrite (H x) by left. rewrite IH; [reflexivity|].
  intros y Hy. apply H. right. exact Hy.
Qed.

Lemma items_distinct {A} (d : Dict A) : NoDup (dict_list d).*1 -> items d = dict_list d.
Proof.
  unfold items. destruct d as [l]. simpl.
  induction l as [|e rest IH]; simpl; [reflexivity|].
  rewrite NoDup_cons. intros [Hin Hnd]. rewrite IH by exact Hnd.
  rewrite filter_all; [reflexivity|].
  intros x Hx. apply negb_true_iff, key_is_false. intros E. apply Hin.
  apply list_elem_of_fmap. exists x. split; [symmetry; exact E | exact Hx].
Qed.

Lemma assoc_set_keys {A} (k : string) (v : A) (l : list (string * A)) :
  (assoc_set k v l).*1 = if decide (k ∈ l.*1) then l.*1 else l.*1 ++ [k].
Proof.
  induction l as [|e rest IH].
  - destruct (decide (k ∈ ([] : list (string * A)).*1)) as [H|H];
      [inversion H | reflexivity].
  - cbn [assoc_set].
    assert (Hcons : forall x, x ∈ (e :: rest).*1 <-> x = fst e \/ x ∈ rest.*1)
      by (intros x; simpl; apply elem_of_cons).
    destruct (key_is k e) eqn:Ek.
    + apply key_is_true in Ek.
      destruct (decide (k ∈ (e :: rest).*1)) as [H|H].
      * simpl. rewrite Ek. reflexivity.
      * exfalso. apply H, Hcons. left. congruence.
    + apply key_is_false in Ek.
      change ((e :: assoc_set k v rest).*1) with (fst e :: (assoc_set k v rest).*1).
      rewrite IH.
      destruct (decide (k ∈ rest.*1)) as [H'|H'];
        destruct (decide (k ∈ (e :: rest).*1)) as [H|H]; try reflexivity.
      * exfalso. apply H, Hcons. right. exact H'.
      * exfalso. apply Hcons in H. destruct H; [congruence | auto].
Qed.

Lemma dict_keys_stay_distinct {A} (f : A -> A) (k : string) (v : A) (d : Dict A) :
  NoDup (dict_list d).*1 ->
  NoDup (dict_list (<[k := v]> d)).*1
  /\ NoDup (dict_list (alter f k d)).*1
  /\ NoDup (dict_list (delete k d)).*1.
Proof.
  intros Hnd. split; [|split].
  - unfold insert, dict_insert. simpl. rewrite assoc_set_keys.
    destruct (decide (k ∈ (dict_list d).*1)) as [H|H]; [exact Hnd|].
    apply NoDup_app. split; [exact Hnd|]. split; [|apply NoDup_singleton].
    intros x Hx Hk. apply list_elem_of_singleton in Hk. congruence.
  - unfold alter, dict_alter. simpl. rewrite <- list_fmap_compose.
    erewrite list_fmap_ext; [exact Hnd|]. intros i e _. simpl.
    destruct (key_is k e); reflexivity.
  - unfold delete, dict_delete. simpl. apply NoDup_keys_filter. exact Hnd.
Qed.

(** ** Exit checks *)

Lemma budget_le_1 (code : string) (g : Strategy) : (budget code g <= 1)%nat.
Proof.
  unfold budget. destruct (positions g !! code) as [p|]; [|lia].
  destruct (selling p); lia.
Qed.

Lemma advances_refl (r : string -> nat) (g : Strategy) : advances r g g.
Proof.
  exists []. split; [rewrite app_nil_r; reflexivity|]. intros code. simpl.
  split; [lia|]. pose proof (budget_le_1 code g). nia.
Qed.

Lemma advances_trans (r1 r2 : string -> nat) (g1 g2 g3 : Strategy) :
  advances r1 g1 g2 -> advances r2 g2 g3 ->
  advances (fun code => (r1 code + r2 code)%nat) g1 g3.
Proof.
  intros (n1 & E1 & B1) (n2 & E2 & B2). exists (n1 ++ n2). split.
  - rewrite E2, E1, app_assoc. reflexivity.
  - intros code. rewrite List.filter_app, length_app.
    destruct (B1 code) as [L1 C1]. destruct (B2 code) as [L2 C2].
    pose proof (budget_le_1 code g1). pose proof (budget_le_1 code g2).
    split; [lia | nia].
Qed.

Lemma advances_ext (r r' : string -> nat) (g g' : Strategy) :
  (forall code, r code = r' code) -> advances r g g' -> advances r' g g'.
Proof.
  intros H (new & E & B). exists new. split; [exact E|].
  intros code. rewrite <- H. apply B.
Qed.

(** A flagged entry is skipped before any price is looked at. *)
Lemma live_profit_flagged (ctx : Context) (code : string) (p : Position) :
  selling p = true -> live_profit ctx code p = None.
Proof. intros H. unfold live_profit. rewrite H. reflexivity. Qed.

Lemma live_profit_open (ctx : Context) (code : string) (p : Position) (x : Q) :
  live_profit ctx code p = Some x -> selling p = false.
Proof.
  unfold live_profit. destruct (selling p); [discriminate | reflexivity].
Qed.

(** An order for one instrument leaves the loop's view of the others. *)
Lemma live_profit_same_call (ctx ctx' : Context) (code : string) (p : Position) :
  same_call ctx ctx' -> portfolio ctx' !! code = portfolio ctx !! code ->
  live_profit ctx' code p = live_profit ctx code p.
Proof.
  intros (_ & Hl & _) Hp. unfold live_profit. rewrite Hp, Hl. reflexivity.
Qed.

Lemma same_call_refl (ctx : Context) : same_call ctx ctx.
Proof. repeat split. Qed.

Lemma immediate_stop_one_verdict (pr : Params) (ctx : Context) (st : Context * Strategy)
    (c : string) (p : Position) :
  same_call ctx (fst st) -> portfolio (fst st) !! c = portfolio ctx !! c ->
  immediate_stop_one pr st (c, p)
  = match immediate_verdict pr ctx c p with
    | Some why => submit_close st c why
    | None => st
    end.
Proof.
  intros Hc Hp. unfold immediate_stop_one, immediate_verdict.
  rewrite (live_profit_same_call ctx (fst st)) by assumption.
  destruct (live_profit ctx c p) as [x|]; [|reflexivity].
  destruct (Qleb x _); [reflexivity|]. destruct (Qleb _ x); reflexivity.
Qed.

Lemma tail_one_verdict (pr : Params) (ctx : Context) (st : Context * Strategy)
    (c : string) (p : Position) :
  same_call ctx (fst st) -> portfolio (fst st) !! c = portfolio ctx !! c ->
  tail_one pr st (c, p)
  = match tail_verdict pr ctx c p with
    | Some why => submit_close st c why
    | None => st
    end.
Proof.
  intros Hc Hp. unfold tail_one, tail_verdict.
  rewrite (live_profit_same_call ctx (fst st)) by assumption.
  destruct Hc as (Hdt & _). rewrite Hdt.
  destruct (live_profit ctx c p) as [x|]; [|reflexivity].
  destruct (Qleb _ x); [reflexivity|]. destruct (_ <=? _)%Z; [|reflexivity].
  destruct (Qltb 0 x); reflexivity.
Qed.

Lemma live_profit_held (ctx : Context) (code : string) (p : Position) (x : Q) :
  live_profit ctx code p = Some x ->
  selling p = false
  /\ (exists amount, portfolio ctx !! code = Some amount /\ (0 < amount)%Z)
  /\ ~ buy_price p == 0.
Proof.
  unfold live_profit. destruct (selling p); [discriminate|].
  destruct (portfolio ctx !! code) as [a|]; [|discriminate].
  destruct (a <=? 0)%Z eqn:Ea; [discriminate|]. apply Z.leb_gt in Ea.
  destruct (last_price ctx !! code); [|discriminate].
  destruct (Qeq_bool (buy_price p) 0) eqn:Eb; [discriminate|].
  intros _. split; [reflexivity|]. split; [eauto|]. apply Qeq_bool_neq. exact Eb.
Qed.

Lemma tail_verdict_held (pr : Params) (ctx : Context) (code : string) (p : Position)
    (why : SellReason) :
  tail_verdict pr ctx code p = Some why ->
  selling p = false
  /\ exists amount, portfolio ctx !! code = Some amount /\ (0 < amount)%Z.
Proof.
  unfold tail_verdict. destruct (live_profit ctx code p) as [x|] eqn:E; [|discriminate].
  intros _. apply live_profit_held in E. tauto.
Qed.

Lemma immediate_verdict_held (pr : Params) (ctx : Context) (code : string) (p : Position)
    (why : SellReason) :
  immediate_verdict pr ctx code p = Some why ->
  selling p = false
  /\ exists amount, portfolio ctx !! code = Some amount /\ (0 < amount)%Z.
Proof.
  unfold immediate_verdict.
  destruct (live_profit ctx code p) as [x|] eqn:E; [|discriminate].
  intros _. apply live_profit_held in E. tauto.
Qed.

Lemma asked_cons (v : string -> Position -> option SellReason) (c : string)
    (p : Position) (l : list (string * Position)) :
  asked v ((c, p) :: l)
  = match v c p with
    | Some _ => c :: asked v l
    | None => asked v l
    end.
Proof. unfold asked. simpl. destruct (v c p); reflexivity. Qed.

Lemma asked_elem (v : string -> Position -> option SellReason)
    (l : list (string * Position)) (k : string) :
  k ∈ asked v l <-> exists p, (k, p) ∈ l /\ v k p <> None.
Proof.
  unfold asked. rewrite list_elem_of_omap. split.
  - intros ([c p] & Hin & H). simpl in H.
    destruct (v c p) eqn:E; [|discriminate]. inversion H; subst.
    exists p. split; [exact Hin | congruence].
  - intros (p & Hin & H). exists (k, p). split; [exact Hin|]. simpl.
    destruct (v k p); [reflexivity | congruence].
Qed.

Lemma asked_keys (v : string -> Position -> option SellReason)
    (l : list (string * Position)) (k : string) :
  k ∈ asked v l -> k ∈ l.*1.
Proof.
  intros H. apply asked_elem in H. destruct H as (p & Hin & _).
  apply list_elem_of_fmap. exists (k, p). auto.
Qed.

(** A loop that visits a snapshot of the entries and asks to close some of
    them leaves every entry as its own verdict and its own order say. *)
Lemma loop_result (v : string -> Position -> option SellReason) (ctx : Context)
    (step : Context * Strategy -> string * Position -> Context * Strategy)
    (Hstep : forall st c p,
        same_call ctx (fst st) -> portfolio (fst st) !! c = portfolio ctx !! c ->
        step st (c, p) = match v c p with
                         | Some why => submit_close st c why
                         | None => st
                         end)
    (l : list (string * Position)) :
  forall st,
    NoDup (l.*1) ->
    (forall c p, (c, p) ∈ l -> positions (snd st) !! c = Some p) ->
    same_call ctx (fst st) ->
    (forall c, c ∈ l.*1 -> portfolio (fst st) !! c = portfolio ctx !! c) ->
    (forall k,
        positions (snd (fold_left step l st)) !! k
        = match positions (snd st) !! k with
          | Some p => Some (if decide (k ∈ l.*1) then decided v ctx k p else p)
          | None => None
          end)
    /\ close_requests (snd (fold_left step l st)) = close_requests (snd st) ++ asked v l
    /\ cancel_requests (snd (fold_left step l st)) = cancel_requests (snd st)
    /\ same_call ctx (fst (fold_left step l st))
    /\ (forall k,
          portfolio (fst (fold_left step l st)) !! k
          = if decide (k ∈ asked v l)
            then held_after (order_target ctx k)
            else portfolio (fst st) !! k)
    /\ (items (positions (snd (fold_left step l st)))).*1 = (items (positions (snd st))).*1.
Proof.
  induction l as [|[c p] l IH]; intros st Hnd Hlive Hcall Hsame.
  - cbn [fold_left]. split; [|split; [unfold asked; simpl; rewrite app_nil_r; reflexivity|]].
    + intros k. destruct (positions (snd st) !! k); [|reflexivity].
      destruct (decide (k ∈ ([] : list (string * Position)).*1)) as [H|H];
        [simpl in H; inversion H | reflexivity].
    + split; [reflexivity|]. split; [exact Hcall|]. split; [|reflexivity]. intros k.
      rewrite decide_False; [reflexivity|]. intros H. inversion H.
  - simpl in Hnd. apply NoDup_cons in Hnd. destruct Hnd as [Hc Hnd].
    assert (Hp : positions (snd st) !! c = Some p) by (apply Hlive; left).
    assert (Hrest : forall c' p', (c', p') ∈ l -> c' <> c).
    { intros c' p' Hin ->. apply Hc. apply list_elem_of_fmap. exists (c, p'). auto. }
    assert (Hkeys : forall c', c' ∈ l.*1 -> c' <> c) by (intros c' Hin ->; auto).
    assert (Hnot : c ∉ asked v l) by (intros H; apply Hc, (asked_keys v); exact H).
    cbn [fold_left].
    rewrite Hstep by (try exact Hcall; apply Hsame; simpl; left).
    assert (Hin_cons : forall k, k <> c -> (k ∈ ((c, p) :: l).*1 <-> k ∈ l.*1)).
    { intros k Hk. simpl. rewrite elem_of_cons. tauto. }
    rewrite asked_cons.
    destruct st as [cs g]. simpl in Hp, Hcall, Hsame, Hlive |- *.
    pose proof Hcall as (Hdt & Hlp & Hot & Hoo).
    destruct (v c p) as [why|] eqn:Ev.
    + unfold submit_close.
      set (g1 := {| positions := _; close_requests := _; cancel_requests := _ |}).
      set (c1 := settle cs c _).
      assert (Hpos1 : forall k, k <> c -> positions g1 !! k = positions g !! k).
      { intros k Hk. subst g1. simpl.
        destruct (close_raises (order_target cs c)); [reflexivity|].
        apply dict_lookup_alter_ne. congruence. }
      assert (Hpos1c : positions g1 !! c = Some (decided v ctx c p)).
      { subst g1. simpl. unfold decided. rewrite Ev, Hot, Hdt.
        destruct (close_raises (order_target ctx c)); [exact Hp|].
        rewrite dict_lookup_alter_eq, Hp. reflexivity. }
      assert (Hport1 : forall k, k <> c -> portfolio c1 !! k = portfolio cs !! k).
      { intros k Hk. subst c1. simpl. apply lookup_partial_alter_ne. congruence. }
      assert (Hport1c : portfolio c1 !! c = held_after (order_target ctx c)).
      { subst c1. simpl. rewrite lookup_partial_alter_eq, Hot. reflexivity. }
      assert (Hkeys1 : (items (positions g1)).*1 = (items (positions g)).*1).
      { subst g1. simpl. destruct (close_raises (order_target cs c)); [reflexivity|].
        apply items_alter_keys. }
      destruct (IH (c1, g1) Hnd) as (Hpos & Hreq & Hcan & Hcall' & Hport & Hord).
      { intros c' p' Hin. cbn [fst snd]. rewrite Hpos1 by (eapply Hrest; eauto).
        apply Hlive. right. exact Hin. }
      { exact Hcall. }
      { intros c' Hin. cbn [fst snd]. rewrite Hport1 by (apply Hkeys; exact Hin).
        apply Hsame. simpl. right. exact Hin. }
      cbn [fst snd] in Hpos, Hreq, Hcan, Hcall', Hport, Hord.
      split; [|split; [|split; [|split; [|split]]]].
      * intros k. rewrite Hpos. destruct (decide (k = c)) as [->|Hk].
        -- rewrite Hpos1c, Hp. rewrite decide_False by exact Hc.
           rewrite decide_True by (simpl; left). reflexivity.
        -- rewrite Hpos1 by exact Hk.
           destruct (positions g !! k) as [q|]; [|reflexivity].
           destruct (decide (k ∈ l.*1)) as [Hi|Hi].
           ++ rewrite decide_True by (apply Hin_cons; assumption). reflexivity.
           ++ rewrite decide_False by (rewrite Hin_cons; assumption). reflexivity.
      * rewrite Hreq. subst g1. simpl. rewrite <- app_assoc. reflexivity.
      * rewrite Hcan. reflexivity.
      * exact Hcall'.
      * intros k. rewrite Hport. destruct (decide (k = c)) as [->|Hk].
        -- rewrite decide_False by exact Hnot.
           rewrite decide_True by left. exact Hport1c.
        -- rewrite Hport1 by exact Hk.
           destruct (decide (k ∈ asked v l)) as [Hi|Hi].
           ++ rewrite decide_True by (right; exact Hi). reflexivity.
           ++ rewrite decide_False; [reflexivity|].
              intros H. apply elem_of_cons in H. destruct H; [congruence | auto].
      * rewrite Hord. exact Hkeys1.
    + destruct (IH (cs, g) Hnd) as (Hpos & Hreq & Hcan & Hcall' & Hport & Hord).
      { intros c' p' Hin. apply Hlive. right. exact Hin. }
      { exact Hcall. }
      { intros c' Hin. apply Hsame. simpl. right. exact Hin. }
      simpl in Hpos, Hreq, Hcan, Hcall', Hport, Hord.
      split; [|split; [|split; [|split; [|split]]]].
      * intros k. rewrite Hpos. destruct (decide (k = c)) as [->|Hk].
        -- rewrite Hp. rewrite decide_False by exact Hc.
           rewrite decide_True by (simpl; left).
           unfold decided. rewrite Ev. reflexivity.
        -- destruct (positions g !! k) as [q|]; [|reflexivity].
           destruct (decide (k ∈ l.*1)) as [Hi|Hi].
           ++ rewrite decide_True by (apply Hin_cons; assumption). reflexivity.
           ++ rewrite decide_False by (rewrite Hin_cons; assumption). reflexivity.
      * exact Hreq.
      * exact Hcan.
      * exact Hcall'.
      * exact Hport.
      * exact Hord.
Qed.

Lemma account_after_asked (v : string -> Position -> option SellReason) (ctx : Context)
    (held : Dict Position) (k : string) :
  (if decide (k ∈ closed_codes v held)
   then held_after (order_target ctx k)
   else portfolio ctx !! k)
  = account_after v ctx held k.
Proof.
  unfold account_after, closed_codes.
  destruct (held !! k) as [p|] eqn:Hp.
  - destruct (v k p) eqn:Ev.
    + rewrite decide_True; [reflexivity|]. apply asked_elem. exists p.
      split; [apply elem_of_items; exact Hp | congruence].
    + rewrite decide_False; [reflexivity|]. intros H. apply asked_elem in H.
      destruct H as (q & Hq & Hv). apply elem_of_items in Hq. congruence.
  - rewrite decide_False; [reflexivity|]. intros H. apply asked_elem in H.
    destruct H as (q & Hq & _). apply elem_of_items in Hq. congruence.
Qed.

Lemma snapshot_result (v : string -> Position -> option SellReason) (ctx : Context)
    (step : Context * Strategy -> string * Position -> Context * Strategy)
    (Hstep : forall st c p,
        same_call ctx (fst st) -> portfolio (fst st) !! c = portfolio ctx !! c ->
        step st (c, p) = match v c p with
                         | Some why => submit_close st c why
                         | None => st
                         end)
    (g : Strategy) :
  (forall k,
      positions (snd (fold_left step (items (positions g)) (ctx, g))) !! k
      = decided v ctx k <$> positions g !! k)
  /\ close_requests (snd (fold_left step (items (positions g)) (ctx, g)))
     = close_requests g ++ closed_codes v (positions g)
  /\ cancel_requests (snd (fold_left step (items (positions g)) (ctx, g)))
     = cancel_requests g
  /\ same_call ctx (fst (fold_left step (items (positions g)) (ctx, g)))
  /\ (forall k,
        portfolio (fst (fold_left step (items (positions g)) (ctx, g))) !! k
        = account_after v ctx (positions g) k)
  /\ (items (positions (snd (fold_left step (items (positions g)) (ctx, g))))).*1
     = (items (positions g)).*1.
Proof.
  destruct (loop_result v ctx step Hstep (items (positions g)) (ctx, g))
    as (Hpos & Hreq & Hcan & Hcall & Hport & Hord).
  - apply NoDup_items.
  - intros c p Hin. apply elem_of_items. exact Hin.
  - apply same_call_refl.
  - reflexivity.
  - split; [|split; [exact Hreq | split; [exact Hcan | split; [exact Hcall|]]]];
      [|split; [|exact Hord]].
    + intros k. rewrite Hpos. cbn [snd].
      destruct (positions g !! k) as [p|] eqn:Hp; [|reflexivity].
      simpl. rewrite decide_True; [reflexivity|].
      apply list_elem_of_fmap. exists (k, p). split; [reflexivity|].
      apply elem_of_items. exact Hp.
    + intros k. rewrite Hport. apply account_after_asked.
Qed.

Lemma check_immediate_stops_quiet (pr : Params) (ctx : Context) (g : Strategy) :
  quiet_window (current_dt ctx) = true -> check_immediate_stops pr ctx g = (ctx, g).
Proof.
  intros Hq. unfold check_immediate_stops. rewrite Hq.
  destruct (dict_is_empty (positions g)); reflexivity.
Qed.

Lemma check_immediate_stops_loop (pr : Params) (ctx : Context) (g : Strategy) :
  quiet_window (current_dt ctx) = false ->
  check_immediate_stops pr ctx g
  = fold_left (immediate_stop_one pr) (items (positions g)) (ctx, g).
Proof.
  intros Hq. unfold check_immediate_stops. rewrite Hq.
  destruct (dict_is_empty (positions g)) eqn:E; [|reflexivity].
  rewrite (dict_is_empty_true _ E). reflexivity.
Qed.

Lemma check_immediate_stops_result (pr : Params) (ctx : Context) (g : Strategy) :
  quiet_window (current_dt ctx) = false ->
  (forall k,
      positions (snd (check_immediate_stops pr ctx g)) !! k
      = decided (immediate_verdict pr ctx) ctx k <$> positions g !! k)
  /\ close_requests (snd (check_immediate_stops pr ctx g))
     = close_requests g ++ closed_codes (immediate_verdict pr ctx) (positions g)
  /\ cancel_requests (snd (check_immediate_stops pr ctx g)) = cancel_requests g
  /\ same_call ctx (fst (check_immediate_stops pr ctx g))
  /\ (forall k,
        portfolio (fst (check_immediate_stops pr ctx g)) !! k
        = account_after (immediate_verdict pr ctx) ctx (positions g) k)
  /\ (items (positions (snd (check_immediate_stops pr ctx g)))).*1
     = (items (positions g)).*1.
Proof.
  intros Hq. rewrite check_immediate_stops_loop by exact Hq.
  apply (snapshot_result (immediate_verdict pr ctx) ctx).
  intros. apply immediate_stop_one_verdict; assumption.
Qed.

(** ** Cleanups *)

Lemma remove_all_lookup (codes : list string) (held : Dict Position) (k : string) :
  remove_all codes held !! k = if decide (k ∈ codes) then None else held !! k.
Proof.
  unfold remove_all. revert held. induction codes as [|c codes IH]; intros held; simpl.
  - destruct (decide (k ∈ [])) as [H|H]; [inversion H | reflexivity].
  - rewrite IH. destruct (decide (k ∈ codes)) as [H|H].
    + rewrite decide_True by (right; exact H). reflexivity.
    + destruct (decide (c = k)) as [->|Hne].
      * rewrite decide_True by left. apply dict_lookup_delete_eq.
      * rewrite decide_False by (intros Hin; apply elem_of_cons in Hin;
                                 destruct Hin; congruence).
        apply dict_lookup_delete_ne. exact Hne.
Qed.

Lemma flagged_elem (held : Dict Position) (k : string) :
  k ∈ flagged held <-> exists p, held !! k = Some p /\ selling p = true.
Proof.
  unfold flagged. rewrite list_elem_of_omap. split.
  - intros ([c p] & Hin & Hf). simpl in Hf. apply elem_of_items in Hin.
    destruct (selling p) eqn:E; [|discriminate]. inversion Hf; subst. eauto.
  - intros (p & Hp & Hs). exists (k, p). split; [apply elem_of_items; exact Hp|].
    simpl. rewrite Hs. reflexivity.
Qed.

Lemma stocks_to_remove_elem (ctx : Context) (held : Dict Position) (k : string) :
  k ∈ stocks_to_remove ctx held
  <-> exists p, held !! k = Some p /\ sold_out ctx k p = true.
Proof.
  unfold stocks_to_remove, sold_out. rewrite list_elem_of_omap. split.
  - intros ([c p] & Hin & Hf). apply elem_of_items in Hin.
    destruct (selling p) eqn:E; [|discriminate].
    destruct (default 0%Z (portfolio ctx !! c) <=? 0)%Z eqn:E2; [|discriminate].
    inversion Hf; subst. exists p. rewrite E, E2. auto.
  - intros (p & Hp & Hs). apply andb_true_iff in Hs. destruct Hs as [Hs Ha].
    exists (k, p). split; [apply elem_of_items; exact Hp|].
    rewrite Hs, Ha. reflexivity.
Qed.

(** What [morning_cleanup] does to the map: every flagged entry goes,
    whatever amount is still held; open entries stay as they are. *)
Lemma morning_cleanup_lookup (ctx : Context) (g : Strategy) (k : string) :
  positions (morning_cleanup ctx g) !! k
  = match positions g !! k with
    | Some p => if selling p then None else Some p
    | None => None
    end.
Proof.
  simpl. rewrite remove_all_lookup.
  destruct (decide (k ∈ flagged (positions g))) as [H|H].
  - apply flagged_elem in H. destruct H as (p & Hp & Hs). rewrite Hp, Hs. reflexivity.
  - destruct (positions g !! k) as [p|] eqn:Hp; [|reflexivity].
    destruct (selling p) eqn:Hs; [|reflexivity].
    exfalso. apply H. apply flagged_elem. eauto.
Qed.

(** What [cleanup_sold_positions] does: exactly the flagged entries whose
    held amount is not positive go. *)
Lemma cleanup_sold_positions_lookup (ctx : Context) (g : Strategy) (k : string) :
  positions (cleanup_sold_positions ctx g) !! k
  = match positions g !! k with
    | Some p => if sold_out ctx k p then None else Some p
    | None => None
    end.
Proof.
  simpl. rewrite remove_all_lookup.
  destruct (decide (k ∈ stocks_to_remove ctx (positions g))) as [H|H].
  - apply stocks_to_remove_elem in H. destruct H as (p & Hp & Hs).
    rewrite Hp, Hs. reflexivity.
  - destruct (positions g !! k) as [p|] eqn:Hp; [|reflexivity].
    destruct (sold_out ctx k p) eqn:Hs; [|reflexivity].
    exfalso. apply H. apply stocks_to_remove_elem. eauto.
Qed.

Lemma to_cancel_elem (orders : list (list OpenOrder)) (o : OpenOrder) :
  In o (to_cancel orders)
  <-> (exists order_list, In order_list orders /\ In o order_list)
      /\ (status o = "open"%string \/ status o = "pending"%string).
Proof.
  unfold to_cancel. rewrite filter_In, in_concat, orb_true_iff, !String.eqb_eq.
  reflexivity.
Qed.

(** C7 at a failing input.  The entry is flagged but 100 shares are still
    held: [morning_cleanup] cancels the open order and drops the entry all
    the same, where [cleanup_sold_positions] keeps it. *)
Example morning_cleanup_forgets_unsold_position :
  positions unsold_strategy !! "600000.XSHG"%string = Some unsold_position
  /\ portfolio next_morning !! "600000.XSHG"%string = Some 100%Z
  /\ sold_out next_morning "600000.XSHG" unsold_position = false
  /\ positions (morning_cleanup next_morning unsold_strategy) !! "600000.XSHG"%string = None
  /\ positions (cleanup_sold_positions next_morning unsold_strategy) !! "600000.XSHG"%string
     = Some unsold_position
  /\ cancel_requests (morning_cleanup next_morning unsold_strategy) = [mkOpenOrder 7 "open"].
Proof. repeat split; vm_compute; reflexivity. Qed.

(** ** The tail check and the minute check *)

(** What [check_tail_position] leaves of an entry: its verdict is applied,
    then the cleanup looks at the account as the orders have left it. *)
Lemma check_tail_position_result (pr : Params) (ctx : Context) (g : Strategy) :
  (forall k,
      positions (snd (check_tail_position pr ctx g)) !! k
      = match positions g !! k with
        | Some p =>
            let q := decided (tail_verdict pr ctx) ctx k p in
            if sold_out (fst (check_tail_position pr ctx g)) k q then None else Some q
        | None => None
        end)
  /\ close_requests (snd (check_tail_position pr ctx g))
     = close_requests g ++ closed_codes (tail_verdict pr ctx) (positions g)
  /\ cancel_requests (snd (check_tail_position pr ctx g)) = cancel_requests g
  /\ same_call ctx (fst (check_tail_position pr ctx g))
  /\ (forall k,
        portfolio (fst (check_tail_position pr ctx g)) !! k
        = account_after (tail_verdict pr ctx) ctx (positions g) k).
Proof.
  unfold check_tail_position.
  destruct (dict_is_empty (positions g)) eqn:E.
  - apply dict_is_empty_true in E. cbn [fst snd]. rewrite E.
    split; [intros k; reflexivity|]. split; [rewrite app_nil_r; reflexivity|].
    split; [reflexivity|]. split; [apply same_call_refl|]. intros k. reflexivity.
  - destruct (snapshot_result (tail_verdict pr ctx) ctx (tail_one pr)
                (tail_one_verdict pr ctx) g) as (Hpos & Hreq & Hcan & Hcall & Hport & _).
    cbn [fst snd].
    split; [|split; [exact Hreq | split; [exact Hcan | split; [exact Hcall | exact Hport]]]].
    intros k. rewrite cleanup_sold_positions_lookup, Hpos.
    destruct (positions g !! k) as [p|]; reflexivity.
Qed.

Lemma handle_data_result (pr : Params) (ctx : Context) (g : Strategy) :
  quiet_window (current_dt ctx) = false ->
  (forall k,
      positions (snd (handle_data pr ctx g)) !! k
      = match positions g !! k with
        | Some p =>
            let q := decided (immediate_verdict pr ctx) ctx k p in
            if sold_out (fst (handle_data pr ctx g)) k q then None else Some q
        | None => None
        end)
  /\ close_requests (snd (handle_data pr ctx g))
     = close_requests g ++ closed_codes (immediate_verdict pr ctx) (positions g)
  /\ cancel_requests (snd (handle_data pr ctx g)) = cancel_requests g
  /\ same_call ctx (fst (handle_data pr ctx g))
  /\ (forall k,
        portfolio (fst (handle_data pr ctx g)) !! k
        = account_after (immediate_verdict pr ctx) ctx (positions g) k).
Proof.
  intros Hq. unfold handle_data. rewrite Hq.
  destruct (check_immediate_stops_result pr ctx g Hq)
    as (Hpos & Hreq & Hcan & Hcall & Hport & _).
  cbn [fst snd].
  split; [|split; [exact Hreq | split; [exact Hcan | split; [exact Hcall | exact Hport]]]].
  intros k. rewrite cleanup_sold_positions_lookup, Hpos.
  destruct (positions g !! k) as [p|]; reflexivity.
Qed.

Lemma handle_data_quiet (pr : Params) (ctx : Context) (g : Strategy) :
  quiet_window (current_dt ctx) = true -> handle_data pr ctx g = (ctx, g).
Proof. intros Hq. unfold handle_data. rewrite Hq. reflexivity. Qed.

(** ** At most one close request for an entry *)

Lemma asked_count (v : string -> Position -> option SellReason)
    (l : list (string * Position)) (code : string) :
  NoDup l.*1 ->
  (length (List.filter (String.eqb code) (asked v l)) <= 1)%nat
  /\ (code ∉ asked v l -> List.filter (String.eqb code) (asked v l) = []).
Proof.
  induction l as [|[c p] l IH]; [simpl; intros _; split; [lia | reflexivity]|].
  intros Hnd. change (((c, p) :: l).*1) with (c :: l.*1) in Hnd.
  apply NoDup_cons in Hnd. destruct Hnd as [Hc Hnd]. destruct (IH Hnd) as [IH1 IH2].
  rewrite asked_cons. destruct (v c p); [|split; assumption].
  cbn [List.filter]. destruct (String.eqb code c) eqn:E.
  - apply String.eqb_eq in E. subst c.
    assert (Hn : code ∉ asked v l) by (intros H; apply Hc, (asked_keys v); exact H).
    rewrite (IH2 Hn). split; [simpl; lia|]. intros H. exfalso. apply H. left.
  - split; [exact IH1|]. intros H. apply IH2. intros Hin. apply H. right. exact Hin.
Qed.

(** A call whose entries come out as their verdicts say, or not at all,
    pays for every request from the budget of its instrument, but for the
    requests that raised. *)
Lemma result_advances (v : string -> Position -> option SellReason) (ctx : Context)
    (g g' : Strategy) :
  (forall k p why, v k p = Some why -> selling p = false) ->
  (forall k,
      positions g' !! k = None
      \/ positions g' !! k = decided v ctx k <$> positions g !! k) ->
  close_requests g' = close_requests g ++ closed_codes v (positions g) ->
  advances (fun code => if close_raises (order_target ctx code) then 1 else 0)%nat g g'.
Proof.
  intros Hv Hpos Hreq. exists (closed_codes v (positions g)). split; [exact Hreq|].
  intros code. unfold closed_codes.
  destruct (asked_count v (items (positions g)) code (NoDup_items _)) as [Hle Hnone].
  assert (Hnot : forall p, positions g !! code = Some p -> v code p = None ->
                           code ∉ asked v (items (positions g))).
  { intros p Hp Hn H. apply asked_elem in H. destruct H as (q & Hq & Hvq).
    apply elem_of_items in Hq. congruence. }
  unfold budget. destruct (positions g !! code) as [p|] eqn:Hp.
  - assert (Hb : positions g' !! code = None
                 \/ positions g' !! code = Some (decided v ctx code p)).
    { destruct (Hpos code) as [H|H]; [left; exact H | right; rewrite H, Hp; reflexivity]. }
    unfold decided in Hb. destruct (v code p) as [why|] eqn:Ev.
    + rewrite (Hv _ _ _ Ev).
      destruct (close_raises (order_target ctx code));
        destruct Hb as [Hb|Hb]; rewrite Hb; simpl; try rewrite (Hv _ _ _ Ev); lia.
    + rewrite (Hnone (Hnot p eq_refl Ev)). simpl.
      destruct Hb as [Hb|Hb]; rewrite Hb; destruct (selling p); lia.
  - assert (Hb : positions g' !! code = None).
    { destruct (Hpos code) as [H|H]; [exact H | rewrite H, Hp; reflexivity]. }
    rewrite Hb. rewrite Hnone; [simpl; lia|].
    intros H. apply asked_elem in H. destruct H as (q & Hq & _).
    apply elem_of_items in Hq. congruence.
Qed.

Lemma cleanup_advances (r : string -> nat) (g g' : Strategy) :
  (forall k, positions g' !! k = None \/ positions g' !! k = positions g !! k) ->
  close_requests g' = close_requests g ->
  advances r g g'.
Proof.
  intros Hpos Hreq. exists []. split; [rewrite app_nil_r; exact Hreq|].
  intros code. simpl. unfold budget.
  destruct (Hpos code) as [H|H]; rewrite H.
  - split; [lia|]. destruct (positions g !! code) as [p|]; [|lia].
    destruct (selling p); lia.
  - destruct (positions g !! code) as [p|]; [|lia]. destruct (selling p); lia.
Qed.

Lemma tick_advances (pr : Params) (g : Strategy) (t : Tick) :
  advances (fun code => if close_raises (order_target (tick_context t) code)
                        then 1 else 0)%nat
           g (tick pr g t).
Proof.
  destruct t as [ctx|ctx|ctx|ctx|ctx]; cbn [tick tick_context].
  - destruct (quiet_window (current_dt ctx)) eqn:Hq.
    + rewrite check_immediate_stops_quiet by exact Hq. apply advances_refl.
    + destruct (check_immediate_stops_result pr ctx g Hq) as (Hpos & Hreq & _).
      apply (result_advances (immediate_verdict pr ctx)).
      * intros k p why H. apply immediate_verdict_held in H. tauto.
      * intros k. right. apply Hpos.
      * exact Hreq.
  - destruct (check_tail_position_result pr ctx g) as (Hpos & Hreq & _).
    apply (result_advances (tail_verdict pr ctx)).
    + intros k p why H. apply tail_verdict_held in H. tauto.
    + intros k. rewrite Hpos. destruct (positions g !! k) as [p|]; [|left; reflexivity].
      cbv zeta. destruct (sold_out _ k _); [left | right]; reflexivity.
    + exact Hreq.
  - destruct (quiet_window (current_dt ctx)) eqn:Hq.
    + rewrite handle_data_quiet by exact Hq. apply advances_refl.
    + destruct (handle_data_result pr ctx g Hq) as (Hpos & Hreq & _).
      apply (result_advances (immediate_verdict pr ctx)).
      * intros k p why H. apply immediate_verdict_held in H. tauto.
      * intros k. rewrite Hpos. destruct (positions g !! k) as [p|]; [|left; reflexivity].
        cbv zeta. destruct (sold_out _ k _); [left | right]; reflexivity.
      * exact Hreq.
  - apply cleanup_advances; [|reflexivity].
    intros k. rewrite cleanup_sold_positions_lookup.
    destruct (positions g !! k) as [p|]; [|left; reflexivity].
    destruct (sold_out ctx k p); [left | right]; reflexivity.
  - apply cleanup_advances; [|reflexivity].
    intros k. rewrite morning_cleanup_lookup.
    destruct (positions g !! k) as [p|]; [|left; reflexivity].
    destruct (selling p); [left | right]; reflexivity.
Qed.

Lemma refusals_cons (code : string) (t : Tick) (ticks : list Tick) :
  refusals code (t :: ticks)
  = ((if close_raises (order_target (tick_context t) code) then 1 else 0)
     + refusals code ticks)%nat.
Proof.
  unfold refusals. simpl.
  destruct (close_raises (order_target (tick_context t) code)); reflexivity.
Qed.

Lemma run_advances (pr : Params) (ticks : list Tick) :
  forall g, advances (fun code => refusals code ticks) g (run pr ticks g).
Proof.
  unfold run. induction ticks as [|t ticks IH]; intros g; simpl;
    [apply advances_refl|].
  eapply advances_ext; [|eapply advances_trans; [apply tick_advances | apply IH]].
  intros code. cbv beta. rewrite refusals_cons. reflexivity.
Qed.

(** C4. For a held position and any sequence of exit checks and cleanups,
    the close requests sent during the sequence extend the earlier ones, and
    among the new ones none is for the position if it was already flagged
    [selling].  For a position that was open there is at most one, and one
    more for every call in which [order_target] raises for the instrument: a
    request that raises leaves the entry open, any other flags it. *)
Theorem flagged_position_is_not_closed_again (pr : Params) (ticks : list Tick)
    (g : Strategy) (code : string) (position : Position)
    (Hheld : positions g !! code = Some position) :
  exists new,
    close_requests (run pr ticks g) = close_requests g ++ new
    /\ (length (List.filter (String.eqb code) new)
        <= if selling position then 0 else 1 + refusals code ticks)%nat
    /\ (selling position = true -> List.filter (String.eqb code) new = []).
Proof.
  destruct (run_advances pr ticks g) as (new & E & B).
  exists new. split; [exact E|].
  destruct (B code) as [_ Hb]. unfold budget in Hb at 2. rewrite Hheld in Hb.
  split.
  - destruct (selling position); lia.
  - intros Hs. rewrite Hs in Hb.
    destruct (List.filter (String.eqb code) new); [reflexivity | simpl in Hb; lia].
Qed.

Lemma flagged_position_is_not_closed_again_witness :
  exists new,
    close_requests (run default_params demo_ticks demo_strategy)
    = close_requests demo_strategy ++ new
    /\ (length (List.filter (String.eqb "600000.XSHG") new)
        <= if selling demo_position then 0 else 1 + refusals "600000.XSHG" demo_ticks)%nat
    /\ (selling demo_position = true -> List.filter (String.eqb "600000.XSHG") new = []).
Proof.
  apply (flagged_position_is_not_closed_again default_params demo_ticks demo_strategy
           "600000.XSHG" demo_position).
  vm_compute. reflexivity.
Defined.

(** The sample day: the first check sends the only close request; the two
    later checks and the tail check find the entry flagged. *)
Example demo_day_single_request :
  close_requests (run default_params demo_ticks demo_strategy) = ["600000.XSHG"%string].
Proof. vm_compute. reflexivity. Qed.

(** The same day on a platform whose [order_target] raises at the first
    check: the entry stays open, and the next check asks again. *)
Example refused_request_is_repeated :
  close_requests
    (run default_params
       [ImmediateStops (failing_context 1045 10 0 84 100);
        ImmediateStops (demo_context 1045 10 1 83 100)]
       demo_strategy)
  = ["600000.XSHG"%string; "600000.XSHG"%string].
Proof. vm_compute. reflexivity. Qed.

(** * Further properties of the code *)

(** ** Leg starts *)

Lemma lowest_so_far (closes : list Q) (cur n : nat) :
  let b := fold_left
             (fun (best : nat * Q) i =>
                if Qltb (item closes i) (snd best) then (i, item closes i) else best)
             (seq cur n) (cur, item closes cur) in
  (cur <= fst b)%nat /\ (fst b < cur + Nat.max n 1)%nat
  /\ snd b = item closes (fst b)
  /\ (forall j, (cur <= j < cur + n)%nat -> snd b <= item closes j)
  /\ (forall j, (cur <= j < fst b)%nat -> snd b < item closes j).
Proof.
  induction n as [|n IH].
  - simpl. repeat split; auto; try lia; intros j Hj; lia.
  - rewrite seq_S, fold_left_app. simpl.
    set (b := fold_left _ (seq cur n) _) in *.
    simpl in IH. destruct IH as (H1 & H2 & H3 & H4 & H5).
    destruct (Qltb (item closes (cur + n)) (snd b)) eqn:E; simpl.
    + apply Qltb_true in E. repeat split; auto; try lia.
      * intros j Hj. destruct (decide (j = cur + n)%nat) as [->|Hne]; [lra|].
        assert (snd b <= item closes j) by (apply H4; lia). lra.
      * intros j Hj. assert (snd b <= item closes j) by (apply H4; lia). lra.
    + apply Qltb_false in E. repeat split; auto; try lia.
      intros j Hj. destruct (decide (j = cur + n)%nat) as [->|Hne]; [exact E|].
      apply H4. lia.
Qed.

Lemma highest_so_far (closes : list Q) (cur n : nat) :
  let b := fold_left
             (fun (best : nat * Q) i =>
                if Qltb (snd best) (item closes i) then (i, item closes i) else best)
             (seq cur n) (cur, item closes cur) in
  (cur <= fst b)%nat /\ (fst b < cur + Nat.max n 1)%nat
  /\ snd b = item closes (fst b)
  /\ (forall j, (cur <= j < cur + n)%nat -> item closes j <= snd b)
  /\ (forall j, (cur <= j < fst b)%nat -> item closes j < snd b).
Proof.
  induction n as [|n IH].
  - simpl. repeat split; auto; try lia; intros j Hj; lia.
  - rewrite seq_S, fold_left_app. simpl.
    set (b := fold_left _ (seq cur n) _) in *.
    simpl in IH. destruct IH as (H1 & H2 & H3 & H4 & H5).
    destruct (Qltb (snd b) (item closes (cur + n))) eqn:E; simpl.
    + apply Qltb_true in E. repeat split; auto; try lia.
      * intros j Hj. destruct (decide (j = cur + n)%nat) as [->|Hne]; [lra|].
        assert (item closes j <= snd b) by (apply H4; lia). lra.
      * intros j Hj. assert (item closes j <= snd b) by (apply H4; lia). lra.
    + apply Qltb_false in E. repeat split; auto; try lia.
      intros j Hj. destruct (decide (j = cur + n)%nat) as [->|Hne]; [exact E|].
      apply H4. lia.
Qed.

(** X1. A leg starts at the extreme close of the (at most) 10 bars from the
    cursor: an up leg at the first bar holding the lowest close of the
    window, a down leg at the first bar holding the highest close. *)
Theorem leg_starts_at_first_extreme_close (closes : list Q) (cur : nat)
    (Hcur : (cur < length closes)%nat) :
  let window j := (cur <= j < Nat.min (cur + 10) (length closes))%nat in
  let lo := wave_start up closes cur in
  let hi := wave_start down closes cur in
  (window (fst lo) /\ snd lo = item closes (fst lo)
   /\ (forall j, window j -> snd lo <= item closes j)
   /\ (forall j, (cur <= j < fst lo)%nat -> snd lo < item closes j))
  /\ (window (fst hi) /\ snd hi = item closes (fst hi)
      /\ (forall j, window j -> item closes j <= snd hi)
      /\ (forall j, (cur <= j < fst hi)%nat -> item closes j < snd hi)).
Proof.
  simpl. unfold best_low, best_high, range.
  set (n := (Nat.min (cur + 10) (length closes) - cur)%nat).
  assert (Hn : (1 <= n)%nat) by (unfold n; lia).
  split.
  - destruct (lowest_so_far closes cur n) as (H1 & H2 & H3 & H4 & H5).
    repeat split; auto; try lia. intros j Hj. apply H4. lia.
  - destruct (highest_so_far closes cur n) as (H1 & H2 & H3 & H4 & H5).
    repeat split; auto; try lia. intros j Hj. apply H4. lia.
Qed.

Lemma leg_starts_at_first_extreme_close_witness :
  wave_start up demo_closes 8 = (13%nat, 102)
  /\ wave_start down demo_closes 8 = (8%nat, 112)
  /\ (forall j, (8 <= j < 13)%nat -> 102 < item demo_closes j).
Proof.
  pose proof (leg_starts_at_first_extreme_close demo_closes 8
                ltac:(vm_compute; lia)) as H.
  cbv zeta in H. destruct H as [(_ & _ & _ & H) _].
  assert (E1 : wave_start up demo_closes 8 = (13%nat, 102)) by (vm_compute; reflexivity).
  rewrite E1 in H. simpl in H.
  split; [exact E1|]. split; [vm_compute; reflexivity | exact H].
Defined.

(** ** Where a down leg ends *)

Lemma down_end_test_spec (closes : list Q) (s : nat) (sp : Q) (i : nat) :
  (s + 5 <= i < s + 30)%nat ->
  (down_end_test closes sp i = true <-> down_end_candidate closes s sp i).
Proof.
  intros Hi. unfold down_end_test, down_end_candidate.
  rewrite !andb_true_iff, !Qleb_true, Nat.ltb_lt.
  replace (Nat.max 0 (i - 3)) with (i - 3)%nat by lia.
  split.
  - intros [[[Hfall Hedge] Hbefore] Hafter].
    replace (Nat.min (length closes) (i + 4)) with (i + 4)%nat in Hafter by lia.
    rewrite py_min_ge in Hbefore by (apply slice_nonempty; lia).
    rewrite py_min_ge in Hafter by (apply slice_nonempty; lia).
    rewrite Forall_slice in Hbefore by lia.
    rewrite Forall_slice in Hafter by lia.
    repeat split; auto; try lia.
    + intros j Hj. apply Hbefore. lia.
    + intros j Hj. apply Hafter. lia.
  - intros (_ & Hedge & Hfall & Hbefore & Hafter).
    replace (Nat.min (length closes) (i + 4)) with (i + 4)%nat by lia.
    repeat split; auto; try lia.
    + rewrite py_min_ge by (apply slice_nonempty; lia).
      rewrite Forall_slice by lia. intros j Hj.
      destruct (decide (j = i)) as [->|Hne]; [apply Qle_refl|]. apply Hbefore. lia.
    + rewrite py_min_ge by (apply slice_nonempty; lia).
      rewrite Forall_slice by lia. intros j Hj. apply Hafter. lia.
Qed.

(** X2. The end of a down leg that starts at bar [s] is the first bar [i]
    with [s + 5 <= i < s + 30], followed by three more bars, that has fallen
    at least 5 percent from the start price and whose close is no higher
    than the closes of the three bars before and the three bars after it;
    without such a bar the end is bar [s + 29] or the last bar of the
    series, whichever comes first. *)
Theorem down_leg_end (closes : list Q) (s : nat) (sp : Q) :
  let e := fst (wave_end down closes s sp) in
  (down_end_candidate closes s sp e
   /\ forall j, (j < e)%nat -> ~ down_end_candidate closes s sp j)
  \/ ((forall j, ~ down_end_candidate closes s sp j)
      /\ e = Nat.min (s + 29) (length closes - 1)).
Proof.
  unfold wave_end. destruct (scan_end down closes s sp) as [i|] eqn:E; simpl.
  - left. pose proof E as E'. apply scan_end_some in E'. destruct E' as [Hi Ht].
    simpl in Ht. split.
    + apply (down_end_test_spec closes s sp i); [lia | exact Ht].
    + intros j Hj Hc. pose proof Hc as (Hr & _).
      apply (down_end_test_spec closes s sp j Hr) in Hc.
      unfold scan_end, range in E.
      assert (Hf : end_test down closes sp j = false)
        by (apply (find_seq_first _ _ _ _ E j); lia).
      simpl in Hf. congruence.
  - right. split; [|reflexivity]. intros j Hc. pose proof Hc as (Hr & Hlen & _).
    apply (down_end_test_spec closes s sp j Hr) in Hc.
    unfold scan_end in E.
    assert (Hf : end_test down closes sp j = false)
      by (apply (find_none _ _ E j); apply in_range; lia).
    simpl in Hf. congruence.
Qed.

(** ** Invariants of the segmentation loop *)

Lemma truthy_nonzero (o : option Q) (x : Q) : truthy o = Some x -> ~ x == 0.
Proof.
  destruct o as [s|]; simpl; [|discriminate].
  destruct (Qeq_bool s 0) eqn:E; [discriminate|].
  intros H. inversion H; subst. apply Qeq_bool_neq. exact E.
Qed.

(** Everything one iteration does, with the indices it worked on. *)
Lemma segment_step_detail (data : list Bar) (st : SegState) :
  (current_idx st < length data)%nat ->
  exists (s e : nat) (w : Wave),
    acc_waves (segment_step data st) = acc_waves st ++ [w]
    /\ acc_supports (segment_step data st)
       = acc_supports st ++ match support_level w with Some x => [x] | None => [] end
    /\ current_idx (segment_step data st) = (e + 1)%nat
    /\ next_type (segment_step data st) = flip (next_type st)
    /\ wave_type w = next_type st
    /\ (current_idx st <= s <= current_idx st + 9)%nat
    /\ (s <= e <= s + 29)%nat /\ (e < length data)%nat
    /\ (s + 5 <= e \/ e = Nat.min (s + 29) (length data - 1))%nat
    /\ duration w = (Z.of_nat e - Z.of_nat s + 1)%Z
    /\ change_pct w = pct_change (start_price w) (end_price w)
    /\ (wave_type w = down -> support_level w = None)
    /\ (forall x, support_level w = Some x -> ~ x == 0).
Proof.
  intros Hcur. unfold segment_step.
  set (closes := map close data).
  assert (Hlen : length closes = length data) by (unfold closes; apply length_map).
  pose proof (wave_start_bounds (next_type st) closes (current_idx st)) as Hs.
  rewrite Hlen in Hs. specialize (Hs Hcur). simpl in Hs.
  destruct (wave_start (next_type st) closes (current_idx st)) as [s sp] eqn:Es.
  simpl in Hs. destruct Hs as (Hs1 & Hs2 & _).
  pose proof (wave_end_bounds (next_type st) closes s sp) as He.
  rewrite Hlen in He. specialize (He (proj2 Hs1)). simpl in He.
  assert (Hscan : (s + 5 <= fst (wave_end (next_type st) closes s sp)
                   \/ fst (wave_end (next_type st) closes s sp)
                      = Nat.min (s + 29) (length data - 1))%nat).
  { unfold wave_end. destruct (scan_end (next_type st) closes s sp) as [i|] eqn:E; simpl.
    - apply scan_end_some in E. left. lia.
    - right. rewrite Hlen. reflexivity. }
  destruct (wave_end (next_type st) closes s sp) as [e ep] eqn:Ee.
  simpl in He, Hscan. destruct He as (He1 & He2 & _).
  eexists s, e, _. simpl.
  split; [reflexivity|]. split.
  { destruct (next_type st); [|simpl; rewrite app_nil_r; reflexivity].
    destruct (truthy (find_support data s e)); simpl;
      [reflexivity | rewrite app_nil_r; reflexivity]. }
  repeat split; try reflexivity; try lia; try exact Hscan.
  - intros Hd. simpl in Hd. rewrite Hd. reflexivity.
  - intros x Hx. simpl in Hx. destruct (next_type st); [|discriminate].
    apply truthy_nonzero in Hx. exact Hx.
Qed.

Lemma is_up_flip (t : WaveType) : is_up (flip t) = negb (is_up t).
Proof. destruct t; reflexivity. Qed.

Lemma total_duration_app (ws : list Wave) (w : Wave) :
  total_duration (ws ++ [w]) = (total_duration ws + duration w)%Z.
Proof.
  unfold total_duration. induction ws as [|v ws IH]; simpl; [lia|].
  rewrite IH. lia.
Qed.

Lemma up_legs_app (ws : list Wave) (w : Wave) :
  up_legs (ws ++ [w]) = up_legs ws ++ (if is_up (wave_type w) then [w] else []).
Proof. unfold up_legs. rewrite List.filter_app. reflexivity. Qed.

Lemma segment_invariant_init (data : list Bar) : segment_invariant data segment_init.
Proof.
  unfold segment_invariant, segment_init. simpl.
  repeat split; auto; try lia; try constructor.
  - intros i w H. rewrite lookup_nil in H. discriminate.
  - unfold total_duration. simpl. lia.
Qed.

Lemma segment_invariant_step (data : list Bar) (st : SegState) :
  segment_invariant data st -> segment_guard data st = true ->
  segment_invariant data (segment_step data st).
Proof.
  intros (Halt & Hnext & Hcount & Hspan & Hin & Hsix & Hmin & Hsup & Hdown & Hnz & Hchg) G.
  destruct (segment_guard_true _ _ G) as [Hc Hw].
  destruct (segment_step_detail data st) as
    (s & e & w & Ew & Es & Ec & En & Ht & Hs & He & Hlt & Hscan & Hd & Hcp & Hwd & Hwz);
    [lia|].
  unfold segment_invariant. rewrite Ew, Es, Ec, En.
  rewrite length_app, up_legs_app, length_app, total_duration_app, omap_app, Ht.
  simpl. rewrite is_up_flip.
  split; [|split; [|split; [|split; [|split; [|split; [|split; [|split;
    [|split; [|split]]]]]]]]].
  - intros i v Hi. apply lookup_app_Some in Hi.
    destruct Hi as [Hi | [Hge Hi]]; [apply Halt; exact Hi|].
    destruct (i - length (acc_waves st))%nat as [|k] eqn:Ek; simpl in Hi; [|discriminate].
    inversion Hi; subst v. assert (i = length (acc_waves st)) by lia. subst i.
    rewrite Ht. exact Hnext.
  - rewrite Nat.add_1_r, Nat.even_succ, <- Nat.negb_even, <- Hnext. reflexivity.
  - destruct (is_up (next_type st)); simpl; lia.
  - lia.
  - lia.
  - destruct Hscan as [Hfound | Hforced]; lia.
  - right. lia.
  - rewrite Hsup. reflexivity.
  - apply Forall_app. split; [exact Hdown|]. constructor; [exact Hwd | constructor].
  - apply Forall_app. split; [exact Hnz|].
    destruct (support_level w) as [x|] eqn:Ex; [|constructor].
    constructor; [apply Hwz; reflexivity | constructor].
  - apply Forall_app. split; [exact Hchg|]. constructor; [exact Hcp | constructor].
Qed.

Lemma segment_invariant_holds (data : list Bar) : segment_invariant data (segment data).
Proof.
  unfold segment. apply segment_loop_invariant.
  - intros st. apply segment_invariant_step.
  - apply segment_invariant_init.
Qed.

(** X3. The legs of one segmentation alternate, the first one up: the leg
    at position [i] is an up leg exactly when [i] is even, so the up legs
    are half of the legs, rounded up. *)
Theorem legs_alternate (data : list Bar) :
  map (fun w => is_up (wave_type w)) (acc_waves (segment data))
  = map Nat.even (seq 0 (length (acc_waves (segment data))))
  /\ (length (acc_waves (segment data))
      <= 2 * length (up_legs (acc_waves (segment data)))
      <= length (acc_waves (segment data)) + 1)%nat.
Proof.
  destruct (segment_invariant_holds data) as (Halt & Hnext & Hcount & _).
  split.
  - apply list_eq. intros i. rewrite !list_lookup_fmap.
    destruct (acc_waves (segment data) !! i) as [w|] eqn:E; simpl.
    + rewrite (Halt i w E).
      rewrite lookup_seq_lt by (apply lookup_lt_Some in E; exact E). reflexivity.
    + apply lookup_ge_None in E. rewrite lookup_seq_ge by exact E. reflexivity.
  - destruct (is_up (next_type (segment data))); lia.
Qed.

Lemma total_duration_bound (ws : list Wave) :
  Forall leg_bounded ws -> (total_duration ws <= 30 * Z.of_nat (length ws))%Z.
Proof.
  unfold total_duration. induction 1 as [|w ws Hw _ IH]; [simpl; lia|].
  cbn [map fold_right length]. rewrite Nat2Z.inj_succ.
  unfold leg_bounded in Hw. lia.
Qed.

Lemma legs_fit_in_series_aux (data : list Bar) :
  (total_duration (acc_waves (segment data)) <= 240)%Z.
Proof.
  destruct (segment_loop_bounds data 8 segment_init) as [Hl Hf];
    [simpl; lia | constructor |].
  fold (segment data) in Hl, Hf.
  pose proof (total_duration_bound _ Hf). lia.
Qed.

(** X4. The legs lie one after the other inside the series: their durations
    sum to at most the number of bars consumed, hence to at most the length
    of the series, and to at most 240. *)
Theorem legs_fit_in_series (data : list Bar) :
  (total_duration (acc_waves (segment data))
   <= Z.of_nat (current_idx (segment data)) <= Z.of_nat (length data))%Z
  /\ (total_duration (acc_waves (segment data)) <= 240)%Z.
Proof.
  destruct (segment_invariant_holds data) as (_ & _ & _ & Hspan & Hin & _).
  split; [lia|].
  destruct (segment_loop_bounds data 8 segment_init) as [Hl Hf];
    [simpl; lia | constructor |].
  fold (segment data) in Hl, Hf.
  pose proof (total_duration_bound _ Hf). lia.
Qed.

Lemma omap_support_length (ws : list Wave) :
  Forall (fun w => wave_type w = down -> support_level w = None) ws ->
  (length (omap support_level ws) <= length (up_legs ws))%nat.
Proof.
  unfold up_legs. induction 1 as [|w ws Hw _ IH]; simpl; [lia|].
  unfold omap in IH.
  destruct (wave_type w) eqn:Et; simpl.
  - destruct (support_level w); simpl; lia.
  - rewrite Hw by reflexivity. exact IH.
Qed.

(** X5. The support levels the segmenter collects are exactly the support
    prices stored in its legs, in leg order; a down leg never carries one, a
    recorded support is never zero, and there are at most as many supports
    as up legs. *)
Theorem supports_are_the_legs_supports (data : list Bar) :
  acc_supports (segment data) = omap support_level (acc_waves (segment data))
  /\ Forall (fun w => wave_type w = down -> support_level w = None)
            (acc_waves (segment data))
  /\ Forall (fun x => ~ x == 0) (acc_supports (segment data))
  /\ (length (acc_supports (segment data))
      <= length (up_legs (acc_waves (segment data))))%nat.
Proof.
  destruct (segment_invariant_holds data)
    as (_ & _ & _ & _ & _ & _ & _ & Hsup & Hdown & Hnz & _).
  repeat split; auto. rewrite Hsup. apply omap_support_length. exact Hdown.
Qed.

(** ** What a confirmed pattern reports *)

Lemma py_max_upper (l : list Q) : Forall (fun x => x <= py_max l) l.
Proof.
  destruct l as [|x l]; [constructor|].
  apply py_max_le; [discriminate | apply Qle_refl].
Qed.

Lemma analyse_waves_fields (pr : Params) (all_waves : list Wave) (supports : list Q)
    (p : Pattern) :
  analyse_waves pr all_waves supports = Confirmed p ->
  wave_count p = length all_waves
  /\ wave_highs p = map end_price (take 3 (up_legs all_waves))
  /\ wave3_high p = List.last (wave_highs p) 0
  /\ total_rise_pct p = pct_change (start_price (nth 0 all_waves wave0)) (wave3_high p)
  /\ total_days p = total_duration all_waves
  /\ strongest_support p = Some (py_max (support_levels p)).
Proof.
  intros H. pose proof (analyse_waves_confirmed _ _ _ _ H) as (_ & _ & Hsup & _).
  unfold analyse_waves in H.
  destruct (length (up_legs all_waves) <? 3)%nat; [discriminate|].
  destruct (negb _); [discriminate|].
  destruct (length supports <? 2)%nat; [discriminate|].
  destruct (_ <? _)%Z; [discriminate|].
  inversion H; subst; clear H. simpl. repeat split.
  destruct supports; [simpl in Hsup; lia | reflexivity].
Qed.

(** X6. A confirmed pattern has between 5 and 8 legs, and the series it was
    found in holds at least 35 bars from the start date on: three up legs
    need five alternating legs, every leg but the last takes at least 6
    bars, and a leg is only started with more than 10 bars left. *)
Theorem confirmation_needs_five_legs_and_35_bars (pv : Provider) (pr : Params)
    (code : string) (start_date end_date : Z) (p : Pattern)
    (Hconfirmed : identify_three_waves pv pr code start_date end_date = Confirmed p) :
  (5 <= wave_count p <= 8)%nat
  /\ wave_count p = length (waves p)
  /\ exists price_data start_idx,
       get_price pv code end_date (end_date - start_date + 100)%Z = Frame price_data
       /\ locate_start (map date price_data) start_date 0 = Some start_idx
       /\ (35 <= length price_data - start_idx)%nat.
Proof.
  apply identify_three_waves_confirmed in Hconfirmed.
  destruct Hconfirmed as (price_data & start_idx & Hf & Hl & _ & H). simpl in H.
  set (data := drop start_idx price_data) in *.
  pose proof (analyse_waves_confirmed _ _ _ _ H) as (Hups & _ & _ & _ & Hw & _).
  pose proof (analyse_waves_fields _ _ _ _ H) as (Hc & _).
  destruct (segment_invariant_holds data)
    as (_ & _ & Hcount & _ & _ & _ & Hmin & _).
  destruct (segment_loop_bounds data 8 segment_init) as [Hle _];
    [simpl; lia | constructor |].
  fold (segment data) in Hle.
  assert (Hn : (5 <= length (acc_waves (segment data)))%nat).
  { destruct (is_up (next_type (segment data))); lia. }
  rewrite Hc, Hw. split; [lia|]. split; [reflexivity|].
  exists price_data, start_idx. split; [exact Hf|]. split; [exact Hl|].
  assert (Hd : length data = (length price_data - start_idx)%nat)
    by (unfold data; apply length_drop).
  destruct Hmin as [He | Hlt]; [rewrite He in Hn; simpl in Hn; lia | lia].
Qed.

Lemma confirmation_needs_five_legs_and_35_bars_witness :
  (5 <= wave_count demo_pattern <= 8)%nat.
Proof.
  assert (H : identify_three_waves (history demo_data) default_params "600000.XSHG"
                1000 1043 = Confirmed demo_pattern) by (vm_compute; reflexivity).
  exact (proj1 (confirmation_needs_five_legs_and_35_bars _ _ _ _ _ _ H)).
Defined.

(** X7. A confirmed pattern reports the end prices of its first three up
    legs as [wave_highs], the third as [wave3_high] (the largest of the
    three), the rise from the start price of the first leg to that high, the
    sum of all leg durations (at most 240) as [total_days], at most three
    support levels and the largest of them as [strongest_support]. *)
Theorem confirmed_pattern_fields (pv : Provider) (pr : Params)
    (code : string) (start_date end_date : Z) (p : Pattern)
    (Hconfirmed : identify_three_waves pv pr code start_date end_date = Confirmed p) :
  exists w1 w2 w3 rest tail,
    waves p = w1 :: tail
    /\ up_legs (waves p) = w1 :: w2 :: w3 :: rest
    /\ wave_highs p = [end_price w1; end_price w2; end_price w3]
    /\ wave3_high p = end_price w3
    /\ Forall (fun h => h <= wave3_high p) (wave_highs p)
    /\ total_rise_pct p = pct_change (start_price w1) (end_price w3)
    /\ total_days p = total_duration (waves p)
    /\ (total_days p <= 240)%Z
    /\ (length (support_levels p) <= 3)%nat
    /\ strongest_support p = Some (py_max (support_levels p))
    /\ Forall (fun s => s <= py_max (support_levels p)) (support_levels p).
Proof.
  apply identify_three_waves_confirmed in Hconfirmed.
  destruct Hconfirmed as (price_data & start_idx & _ & _ & _ & H). simpl in H.
  set (data := drop start_idx price_data) in *.
  pose proof (analyse_waves_confirmed _ _ _ _ H)
    as (_ & (w1 & w2 & w3 & rest & Eups & H12 & H23) & _ & _ & Hw & Hs & _).
  pose proof (analyse_waves_fields _ _ _ _ H) as (_ & Hh & H3 & Hr & Hd & Hst).
  destruct (segment_invariant_holds data) as (Halt & _).
  pose proof (legs_fit_in_series_aux data) as Hdays.
  rewrite Eups in Hh. simpl in Hh. rewrite Hh in H3. simpl in H3.
  destruct (acc_waves (segment data)) as [|v tail] eqn:Ews;
    [discriminate Eups|].
  assert (Hv : is_up (wave_type v) = true) by (apply (Halt 0%nat v); reflexivity).
  unfold up_legs in Eups. simpl in Eups. rewrite Hv in Eups.
  inversion Eups; subst v. simpl in Hr.
  exists w1, w2, w3, rest, tail. rewrite Hw.
  split; [reflexivity|]. split; [unfold up_legs; simpl; rewrite Hv; f_equal; assumption|].
  split; [exact Hh|]. split; [exact H3|]. split.
  { rewrite Hh, H3. repeat constructor; lra. }
  split; [rewrite Hr, H3; reflexivity|]. split; [exact Hd|].
  split; [rewrite Hd; exact Hdays|]. split; [rewrite Hs, length_take; lia|].
  split; [exact Hst | apply py_max_upper].
Qed.

Lemma confirmed_pattern_fields_witness :
  (total_days demo_pattern <= 240)%Z
  /\ (length (support_levels demo_pattern) <= 3)%nat
  /\ strongest_support demo_pattern = Some (py_max (support_levels demo_pattern)).
Proof.
  assert (H : identify_three_waves (history demo_data) default_params "600000.XSHG"
                1000 1043 = Confirmed demo_pattern) by (vm_compute; reflexivity).
  destruct (confirmed_pattern_fields _ _ _ _ _ _ H)
    as (w1 & w2 & w3 & rest & tail & _ & _ & _ & _ & _ & _ & _ & Hd & Hl & Hs & _).
  split; [exact Hd|]. split; [exact Hl | exact Hs].
Defined.

(** ** Which bars the detector reads *)

Lemma locate_start_skip (bars : list Bar) (start_date : Z) (k : nat) :
  match locate_start (map date bars) start_date k with
  | Some i => (k <= i)%nat /\ skip_before start_date bars = drop (i - k) bars
              /\ (i - k < length bars)%nat
  | None => skip_before start_date bars = []
  end.
Proof.
  revert k. induction bars as [|b bars IH]; intros k; simpl; [reflexivity|].
  destruct (start_date <=? date b)%Z eqn:E.
  - apply Z.leb_le in E.
    assert (E' : (date b <? start_date)%Z = false) by (apply Z.ltb_ge; exact E).
    rewrite E', Nat.sub_diag. simpl. repeat split; lia.
  - apply Z.leb_gt in E.
    assert (E' : (date b <? start_date)%Z = true) by (apply Z.ltb_lt; exact E).
    rewrite E'. specialize (IH (S k)).
    destruct (locate_start (map date bars) start_date (S k)) as [i|]; [|exact IH].
    destruct IH as (Hk & Hs & Hl).
    replace (i - k)%nat with (S (i - S k)) by lia. simpl.
    repeat split; [lia | exact Hs | lia].
Qed.

Lemma skip_before_spec (start_date : Z) (bars : list Bar) :
  exists before,
    bars = before ++ skip_before start_date bars
    /\ Forall (fun b => (date b < start_date)%Z) before
    /\ match skip_before start_date bars with
       | [] => True
       | b :: _ => (start_date <= date b)%Z
       end.
Proof.
  induction bars as [|b bars (before & E & Hb & Hh)]; simpl.
  - exists []. repeat split. constructor.
  - destruct (date b <? start_date)%Z eqn:Ed.
    + apply Z.ltb_lt in Ed. exists (b :: before). simpl. rewrite <- E.
      repeat split; [constructor; assumption | exact Hh].
    + apply Z.ltb_ge in Ed. exists []. simpl. repeat split; [constructor | exact Ed].
Qed.

Lemma analyse_waves_not_short (pr : Params) (ws : list Wave) (ss : list Q) :
  analyse_waves pr ws ss <> NotConfirmed DataTooShort.
Proof.
  unfold analyse_waves.
  destruct (length (up_legs ws) <? 3)%nat; [discriminate|].
  destruct (negb _); [discriminate|].
  destruct (length ss <? 2)%nat; [discriminate|].
  destruct (_ <? _)%Z; discriminate.
Qed.

(** X8. How [identify_three_waves] treats what the fetch gives back.  A
    raising fetch is reported as a recognition failure and a [None] frame as
    a fetch failure.  From a frame the detector reads only the bars from the
    first one dated on or after [start_date]: with fewer than 30 of them
    (none included) it answers "data too short", and that is the only way to
    this answer; otherwise the result is the analysis of the legs of exactly
    those bars. *)
Theorem detector_reads_bars_from_start_date (pv : Provider) (pr : Params)
    (code : string) (start_date end_date : Z) :
  match get_price pv code end_date (end_date - start_date + 100)%Z with
  | Raised =>
      identify_three_waves pv pr code start_date end_date = NotConfirmed RecognitionFailed
  | NoData =>
      identify_three_waves pv pr code start_date end_date = NotConfirmed DataFetchFailed
  | Frame price_data =>
      let data := skip_before start_date price_data in
      (exists before,
         price_data = before ++ data
         /\ Forall (fun b => (date b < start_date)%Z) before
         /\ match data with [] => True | b :: _ => (start_date <= date b)%Z end)
      /\ (identify_three_waves pv pr code start_date end_date = NotConfirmed DataTooShort
          <-> (length data < 30)%nat)
      /\ ((30 <= length data)%nat ->
          identify_three_waves pv pr code start_date end_date
          = analyse_waves pr (acc_waves (segment data)) (acc_supports (segment data)))
  end.
Proof.
  unfold identify_three_waves.
  destruct (get_price pv code end_date (end_date - start_date + 100)%Z)
    as [| |price_data]; try reflexivity.
  split; [apply skip_before_spec|].
  pose proof (locate_start_skip price_data start_date 0) as H.
  destruct (locate_start (map date price_data) start_date 0) as [i|].
  - destruct H as (_ & Hs & Hl). rewrite Nat.sub_0_r in Hs, Hl.
    simpl. rewrite Hs, length_drop.
    destruct (length price_data - i <? 30)%nat eqn:E.
    + apply Nat.ltb_lt in E. split; [tauto | lia].
    + apply Nat.ltb_ge in E. split; [|reflexivity].
      split; [|lia]. intros Hbad. exfalso. exact (analyse_waves_not_short _ _ _ Hbad).
  - simpl. rewrite H. simpl. split; [split; [lia | reflexivity] | lia].
Qed.

(** ** The consolidation window *)

Lemma nat_Q_le (a b : nat) : (a <= b)%nat -> nat_Q a <= nat_Q b.
Proof.
  intros H. unfold nat_Q. rewrite <- Zle_Qle. lia.
Qed.

Lemma ratio_in_unit (a b : nat) :
  (a <= b)%nat -> (0 < b)%nat -> 0 <= nat_Q a / nat_Q b <= 1.
Proof.
  intros Hab Hb.
  assert (Hpos : 0 < nat_Q b).
  { unfold nat_Q. replace 0 with (inject_Z 0) by reflexivity. rewrite <- Zlt_Qlt. lia. }
  assert (Ha : 0 <= nat_Q a).
  { unfold nat_Q. replace 0 with (inject_Z 0) by reflexivity. rewrite <- Zle_Qle. lia. }
  pose proof (nat_Q_le a b Hab) as Hle.
  split.
  - apply Qle_shift_div_l; [exact Hpos | lra].
  - apply Qle_shift_div_r; [exact Hpos | lra].
Qed.

(** X9. [check_consolidation] gives no result when the fetch fails, when
    fewer than 20 bars come back or when no support level is passed.  In
    every other case it gives a result whose support is the largest support
    passed, whose resistance is the third high, whose price is the last
    close, and whose in-range ratio is the share of closes in the band, a
    number between 0 and 1; a consolidating result has at least 70 percent
    of its closes in the band. *)
Theorem consolidation_result (pv : Provider) (code : string) (wave3_high : Q)
    (supports : list Q) (end_date : Z) :
  match get_price pv code end_date 60 with
  | Raised => check_consolidation pv code wave3_high supports end_date = None
  | NoData => check_consolidation pv code wave3_high supports end_date = None
  | Frame price_data =>
      if (length price_data <? 20)%nat
      then check_consolidation pv code wave3_high supports end_date = None
      else
        match supports with
        | [] => check_consolidation pv code wave3_high supports end_date = None
        | _ =>
            exists c,
              check_consolidation pv code wave3_high supports end_date = Some c
              /\ cons_support_level c = py_max supports
              /\ Forall (fun s => s <= cons_support_level c) supports
              /\ resistance_level c = wave3_high
              /\ current_price c = List.last (map close price_data) 0
              /\ in_range_ratio c
                 = nat_Q (length (closes_in_band price_data wave3_high (py_max supports)))
                   / nat_Q (length price_data)
              /\ 0 <= in_range_ratio c <= 1
              /\ (is_consolidating c = true ->
                  (7 * length price_data
                   <= 10 * length (closes_in_band price_data wave3_high (py_max supports)))%nat)
        end
  end.
Proof.
  unfold check_consolidation, consolidation_of.
  destruct (get_price pv code end_date 60) as [| |price_data]; try reflexivity.
  destruct (length price_data <? 20)%nat eqn:E; [reflexivity|].
  apply Nat.ltb_ge in E.
  destruct supports as [|s rest]; [reflexivity|].
  set (ss := s :: rest).
  eexists. split; [reflexivity|].
  cbn [cons_support_level resistance_level current_price in_range_ratio
       is_consolidating volume_ratio].
  fold (closes_in_band price_data wave3_high (py_max ss)).
  rewrite length_map.
  set (n := length (closes_in_band price_data wave3_high (py_max ss))).
  assert (Hcount : (n <= length price_data)%nat).
  { unfold n, closes_in_band. etransitivity; [apply filter_length_le|].
    rewrite length_map. lia. }
  pose proof (ratio_in_unit _ _ Hcount ltac:(lia)) as Hunit.
  split; [reflexivity|]. split; [exact (py_max_upper ss)|].
  split; [reflexivity|]. split; [reflexivity|]. split; [reflexivity|].
  split; [exact Hunit|].
  intros Hc. apply andb_true_iff in Hc. destruct Hc as [Hr _].
  apply Qleb_true in Hr.
  assert (Hpos : 0 < nat_Q (length price_data)).
  { unfold nat_Q. replace 0 with (inject_Z 0) by reflexivity. rewrite <- Zlt_Qlt. lia. }
  assert (Hback : nat_Q n / nat_Q (length price_data) * nat_Q (length price_data)
                  == nat_Q n) by (field; lra).
  assert (Hmul : 0.7 * nat_Q (length price_data) <= nat_Q n).
  { rewrite <- Hback. apply Qmult_le_compat_r; [exact Hr | lra]. }
  unfold nat_Q in Hmul.
  assert (Hz : (7 * Z.of_nat (length price_data) <= 10 * Z.of_nat n)%Z).
  { rewrite Zle_Qle, !inject_Z_mult.
    change (inject_Z 7) with 7. change (inject_Z 10) with 10. lra. }
  lia.
Qed.

(** ** The bottom reported by identify_A_kill *)

Lemma py_min_lower (l : list Q) : Forall (fun x => py_min l <= x) l.
Proof.
  destruct l as [|x l]; [constructor|].
  apply py_min_ge; [discriminate | apply Qle_refl].
Qed.

Lemma fold_min_in (l : list Q) (x : Q) :
  In (fold_left (fun m y => if Qltb y m then y else m) l x) (x :: l).
Proof.
  revert x. induction l as [|y l IH]; intros x; simpl; [left; reflexivity|].
  destruct (Qltb y x).
  - destruct (IH y) as [H|H]; [right; left; exact H | right; right; exact H].
  - destruct (IH x) as [H|H]; [left; exact H | right; right; exact H].
Qed.

Lemma py_min_in (l : list Q) : l <> [] -> In (py_min l) l.
Proof.
  destruct l as [|x l]; [congruence|]. intros _. apply fold_min_in.
Qed.

Lemma item_close (price_data : list Bar) (j : nat) :
  item (map close price_data) j = close (iloc price_data j).
Proof. unfold item, iloc. apply (map_nth close price_data bar0 j). Qed.

(** X10. When [identify_A_kill] reports a bottom, at least 60 bars were
    fetched, the reported [A_bottom] is the lowest close among them, the
    reported date is that of the first bar closing there, the highest high
    lies more than 30 percent above it, and the quality score is 60. *)
Theorem a_kill_bottom_is_first_lowest_close (pv : Provider) (code : string)
    (end_date d : Z)
    (Hdate : A_bottom_date (identify_A_kill pv code end_date) = Some d) :
  exists price_data i m,
    get_price pv code end_date 200 = Frame price_data
    /\ (60 <= length price_data)%nat
    /\ (i < length price_data)%nat
    /\ d = date (iloc price_data i)
    /\ A_bottom (identify_A_kill pv code end_date) = Some m
    /\ close (iloc price_data i) == m
    /\ Forall (fun b => m <= close b) price_data
    /\ (forall j, (j < i)%nat -> m < close (iloc price_data j))
    /\ 30 < pct_change m (py_max (map high price_data))
    /\ a_quality_score (identify_A_kill pv code end_date) = Some 60%Z.
Proof.
  unfold identify_A_kill in *.
  destruct (get_price pv code end_date 200) as [| |price_data]; try discriminate.
  destruct (length price_data <? 60)%nat eqn:E; [discriminate|].
  apply Nat.ltb_ge in E.
  destruct (Qltb 30 _) eqn:E30; [|discriminate].
  apply Qltb_true in E30. simpl in Hdate. inversion Hdate; subst d; clear Hdate.
  set (closes := map close price_data) in *.
  assert (Hlen : length closes = length price_data) by apply length_map.
  pose proof (lowest_so_far closes 0 (length closes)) as Hlow.
  simpl in Hlow. destruct Hlow as (_ & Hi & Hsnd & Hall & Hfirst).
  assert (Harg : argmin closes
                 = fst (fold_left
                          (fun (best : nat * Q) i =>
                             if Qltb (item closes i) (snd best)
                             then (i, item closes i) else best)
                          (seq 0 (length closes)) (0%nat, item closes 0))).
  { unfold argmin, range. rewrite Nat.sub_0_r. reflexivity. }
  rewrite <- Harg in Hi, Hsnd, Hfirst.
  set (i := argmin closes) in *.
  set (best := fold_left _ (seq 0 (length closes)) _) in *.
  assert (Hi' : (i < length price_data)%nat) by lia.
  assert (Hm_low : Forall (fun x => py_min closes <= x) closes) by apply py_min_lower.
  assert (Hm_in : In (py_min closes) closes).
  { apply py_min_in. intros Hnil. rewrite Hnil in Hlen. simpl in Hlen. lia. }
  assert (Heq : item closes i == py_min closes).
  { apply Qle_antisym.
    - apply In_nth with (d := 0) in Hm_in. destruct Hm_in as (j & Hj & Ej).
      fold (item closes j) in Ej. rewrite <- Ej, <- Hsnd. apply Hall. lia.
    - rewrite Forall_forall in Hm_low. apply Hm_low. apply list_elem_of_In.
      unfold item. apply nth_In. lia. }
  exists price_data, i, (py_min closes).
  split; [reflexivity|]. split; [exact E|]. split; [exact Hi'|].
  split; [reflexivity|]. split; [reflexivity|].
  split; [rewrite <- item_close; exact Heq|].
  split.
  { apply Forall_forall. intros b Hb. rewrite Forall_forall in Hm_low.
    apply Hm_low. unfold closes. apply list_elem_of_fmap. exists b. auto. }
  split.
  { intros j Hj. rewrite <- item_close. fold closes.
    rewrite <- Heq, <- Hsnd. apply Hfirst. lia. }
  split; [exact E30 | reflexivity].
Qed.

Lemma a_kill_bottom_is_first_lowest_close_witness :
  exists price_data i m,
    get_price (history breakout_data) "600000.XSHG" 1044 200 = Frame price_data
    /\ (60 <= length price_data)%nat
    /\ (i < length price_data)%nat
    /\ 1000%Z = date (iloc price_data i)
    /\ A_bottom (identify_A_kill (history breakout_data) "600000.XSHG" 1044) = Some m
    /\ close (iloc price_data i) == m
    /\ Forall (fun b => m <= close b) price_data
    /\ (forall j, (j < i)%nat -> m < close (iloc price_data j))
    /\ 30 < pct_change m (py_max (map high price_data))
    /\ a_quality_score (identify_A_kill (history breakout_data) "600000.XSHG" 1044)
       = Some 60%Z.
Proof.
  assert (H : A_bottom_date (identify_A_kill (history breakout_data) "600000.XSHG" 1044)
              = Some 1000%Z) by (vm_compute; reflexivity).
  exact (a_kill_bottom_is_first_lowest_close _ _ _ _ H).
Defined.

(** ** The shareholder factor and the score *)

(** X11. [get_shareholder_change] answers only from two or more holder
    records whose second (the previous period) is positive; the answer is
    the fall of the holder count in percent of the previous count, so it is
    positive exactly when the count fell, zero when it is unchanged, and at
    most 100 for a non-negative latest count.  In every other case, a
    failing query included, the answer is [None]. *)
Theorem shareholder_change_sign (pv : Provider) (code : string) (current_date : Z) :
  match holder_num pv code current_date with
  | Frame (latest :: previous :: _) =>
      if Qltb 0 previous
      then exists c,
             get_shareholder_change pv code current_date = Some c
             /\ c * previous == (previous - latest) * 100
             /\ (0 < c <-> latest < previous)
             /\ (c == 0 <-> latest == previous)
             /\ (0 <= latest -> c <= 100)
      else get_shareholder_change pv code current_date = None
  | _ => get_shareholder_change pv code current_date = None
  end.
Proof.
  unfold get_shareholder_change.
  destruct (holder_num pv code current_date) as [| |[|latest [|previous rest]]];
    try reflexivity.
  unfold item. simpl.
  destruct (Qltb 0 previous) eqn:E; [|reflexivity].
  apply Qltb_true in E.
  eexists. split; [reflexivity|].
  set (c := (previous - latest) / previous * 100).
  assert (Hc : c * previous == (previous - latest) * 100) by (unfold c; field; lra).
  split; [exact Hc|]. repeat split.
  - intros H. nra.
  - intros H. nra.
  - intros H. nra.
  - intros H. nra.
  - intros H. nra.
Qed.

Lemma clamp_range (x : Q) : -50 <= clamp x (-50) 50 <= 50.
Proof.
  unfold clamp. destruct (Qltb x (-50)) eqn:E1; [lra|].
  destruct (Qltb 50 x) eqn:E2; [lra|].
  apply Qltb_false in E1. apply Qltb_false in E2. lra.
Qed.

Lemma clamp_monotone (x y : Q) : x <= y -> clamp x (-50) 50 <= clamp y (-50) 50.
Proof.
  intros H. unfold clamp.
  destruct (Qltb x (-50)) eqn:E1; destruct (Qltb y (-50)) eqn:E2;
    destruct (Qltb 50 x) eqn:E3; destruct (Qltb 50 y) eqn:E4;
    try apply Qltb_true in E1; try apply Qltb_false in E1;
    try apply Qltb_true in E2; try apply Qltb_false in E2;
    try apply Qltb_true in E3; try apply Qltb_false in E3;
    try apply Qltb_true in E4; try apply Qltb_false in E4; lra.
Qed.

Lemma composite_score_clamp (signal : Signal) :
  calculate_composite_score signal
  == strength_score (signal_strength signal)
     + auxiliary_bonus (shareholder_change signal).
Proof.
  unfold calculate_composite_score, auxiliary_bonus.
  destruct (shareholder_change signal) as [f|]; [|reflexivity].
  apply Qplus_comp; [reflexivity | apply clamp_builtin].
Qed.

(** X12. The composite score stays within 50 points of the strength score;
    it never rises with the shareholder factor: of two signals of the same
    strength the one with the larger factor scores no higher, a positive
    factor (holders fell) never scores above the strength score, and from a
    factor of 5 on the score is the strength score minus 50. *)
Theorem composite_score_falls_with_factor (s1 s2 : Signal) (f1 f2 : Q)
    (Hsame : signal_strength s1 = signal_strength s2)
    (Hf1 : shareholder_change s1 = Some f1)
    (Hf2 : shareholder_change s2 = Some f2)
    (Hle : f1 <= f2) :
  calculate_composite_score s2 <= calculate_composite_score s1
  /\ strength_score (signal_strength s1) - 50
     <= calculate_composite_score s1
     <= strength_score (signal_strength s1) + 50
  /\ (0 <= f1 -> calculate_composite_score s1 <= strength_score (signal_strength s1))
  /\ (5 <= f1 ->
      calculate_composite_score s1 == strength_score (signal_strength s1) - 50).
Proof.
  rewrite !composite_score_clamp, Hf1, Hf2, Hsame. unfold auxiliary_bonus.
  pose proof (clamp_range (f1 * -10)) as Hr1.
  pose proof (clamp_monotone (f2 * -10) (f1 * -10) ltac:(lra)) as Hm.
  split; [lra|]. split; [lra|]. split.
  - intros H0. pose proof (clamp_monotone (f1 * -10) 0 ltac:(lra)) as H.
    assert (E : clamp 0 (-50) 50 == 0) by reflexivity. lra.
  - intros H5. pose proof (clamp_monotone (f1 * -10) (-50) ltac:(lra)) as H.
    assert (E : clamp (-50) (-50) 50 == -50) by reflexivity. lra.
Qed.

Lemma composite_score_falls_with_factor_witness :
  calculate_composite_score demo_signal <= calculate_composite_score rival_signal.
Proof.
  refine (proj1 (composite_score_falls_with_factor rival_signal demo_signal (-2) 7.5
                   eq_refl eq_refl eq_refl _)).
  vm_compute. discriminate.
Defined.

(** ** What stands behind a signal *)

Lemma classify_tiers (pr : Params) (b e : bool) (h r v : Q) (strength : string) (ratio : Q) :
  classify pr b e h r v = (strength, ratio) -> 0 < ratio ->
  (strength = "strong"%string /\ ratio = position_ratio pr
   /\ b = true /\ e = true /\ 1.5 < v)
  \/ (strength = "medium"%string /\ ratio = position_ratio pr * 0.6
      /\ b = true /\ 1.2 < v)
  \/ (strength = "weak"%string /\ ratio = position_ratio pr * 0.3
      /\ r < h /\ 1.0 < v).
Proof.
  unfold classify. intros H Hpos.
  destruct (b && e && Qltb 1.5 v) eqn:E1.
  { inversion H; subst. apply andb_true_iff in E1. destruct E1 as [E1 Ev].
    apply andb_true_iff in E1. destruct E1 as [Eb Ee]. apply Qltb_true in Ev.
    left. auto. }
  destruct (b && Qltb 1.2 v) eqn:E2.
  { inversion H; subst. apply andb_true_iff in E2. destruct E2 as [Eb Ev].
    apply Qltb_true in Ev. right. left. auto. }
  destruct (Qltb r h && Qltb 1.0 v) eqn:E3.
  { inversion H; subst. apply andb_true_iff in E3. destruct E3 as [Eh Ev].
    apply Qltb_true in Eh. apply Qltb_true in Ev. right. right. auto. }
  inversion H; subst. lra.
Qed.

(** X13. Behind every signal stand a reported A-kill bottom, a three-wave
    pattern confirmed from that bottom's date, a consolidating window under
    its third high, and today's bar.  The signal enters at today's close,
    takes profit at the close times [1 + immediate_take_profit], stops at
    the largest reported support times [1 - immediate_stop_loss], and its
    volume ratio exceeds 1.  Strength and size go together: strong (close
    above the third high, volume ratio above 1.5) at the full position
    ratio, medium (close above, ratio above 1.2) at 0.6 of it, weak (high
    above the third high) at 0.3 of it. *)
Theorem signal_is_backed_by_pattern (pv : Provider) (pr : Params) (code name : string)
    (change turnover : Q) (now : DateTime) (signal : Signal)
    (Hsignal : generate_trade_signal pv pr code name change turnover now = Some signal) :
  exists d p c today rest,
    A_bottom_date (identify_A_kill pv code (dt_date now)) = Some d
    /\ identify_three_waves pv pr code d (dt_date now) = Confirmed p
    /\ check_consolidation pv code (wave3_high p) (support_levels p) (dt_date now) = Some c
    /\ is_consolidating c = true
    /\ get_price pv code (dt_date now) 1 = Frame (today :: rest)
    /\ stock_code signal = code
    /\ entry_price signal = close today
    /\ sig_take_profit signal = close today * (1 + immediate_take_profit pr)
    /\ sig_stop_loss signal = py_max (support_levels p) * (1 - immediate_stop_loss pr)
    /\ shareholder_change signal = get_shareholder_change pv code (dt_date now)
    /\ sig_buy_time signal = now
    /\ 0 < sig_position_ratio signal
    /\ 1 < sig_volume_ratio signal
    /\ ((signal_strength signal = "strong"%string
         /\ sig_position_ratio signal = position_ratio pr
         /\ wave3_high p < close today /\ 1.5 < sig_volume_ratio signal)
        \/ (signal_strength signal = "medium"%string
            /\ sig_position_ratio signal = position_ratio pr * 0.6
            /\ wave3_high p < close today /\ 1.2 < sig_volume_ratio signal)
        \/ (signal_strength signal = "weak"%string
            /\ sig_position_ratio signal = position_ratio pr * 0.3
            /\ wave3_high p < high today)).
Proof.
  unfold generate_trade_signal, signal_body, mbind, outcome_bind in Hsignal.
  destruct (negb (has_A_kill _)); [discriminate|].
  destruct (A_bottom_date _) as [d|] eqn:Ed; unfold getitem in Hsignal; [|discriminate].
  destruct (identify_three_waves pv pr code d (dt_date now)) as [|p] eqn:Ep;
    [discriminate|].
  destruct (check_consolidation pv code (wave3_high p) (support_levels p) (dt_date now))
    as [c|] eqn:Ec; [|discriminate].
  destruct (is_consolidating c) eqn:Eic; cbn [negb] in Hsignal; [|discriminate].
  destruct (get_price pv code (dt_date now) 1) as [| |[|today rest]] eqn:Et;
    try discriminate.
  assert (Hsupport : cons_support_level c = py_max (support_levels p)).
  { pose proof (consolidation_result pv code (wave3_high p) (support_levels p)
                  (dt_date now)) as Hc.
    destruct (get_price pv code (dt_date now) 60) as [| |w]; try congruence.
    destruct (length w <? 20)%nat; [congruence|].
    destruct (support_levels p); [congruence|].
    destruct Hc as (c' & E' & Hs & _). congruence. }
  destruct (get_price pv code (dt_date now) 5) as [| |rows]; try discriminate.
  destruct (5 <=? length rows)%nat;
    match type of Hsignal with
    | context [classify ?a ?b ?e ?h ?r ?v] =>
        pose proof (classify_tiers a b e h r v) as Htiers;
        destruct (classify a b e h r v) as [strength ratio]
    end;
    (destruct (Qleb ratio 0) eqn:Er; [discriminate|]);
    apply Qleb_false in Er; specialize (Htiers strength ratio eq_refl Er);
    inversion Hsignal; subst signal; clear Hsignal; simpl;
    exists d, p, c, today, rest;
    (split; [reflexivity|]); (split; [exact Ep|]); (split; [exact Ec|]);
    (split; [exact Eic|]); (split; [reflexivity|]); (split; [reflexivity|]);
    (split; [reflexivity|]); (split; [reflexivity|]);
    (split; [rewrite Hsupport; reflexivity|]);
    (split; [reflexivity|]); (split; [reflexivity|]); (split; [exact Er|]);
    destruct Htiers
      as [(Hs & Hr & Hb & _ & Hv) | [(Hs & Hr & Hb & Hv) | (Hs & Hr & Hh & Hv)]];
    try apply Qltb_true in Hb;
    (split; [lra|]); auto 10.
Qed.

Lemma signal_is_backed_by_pattern_witness :
  exists signal,
    generate_trade_signal demo_market default_params "600000.XSHG" "demo" 5 8
      (mkDateTime 1044 14 56) = Some signal
    /\ 1 < sig_volume_ratio signal
    /\ 0 < sig_position_ratio signal.
Proof.
  eexists. split; [vm_compute; reflexivity|].
  match goal with
  | |- 1 < sig_volume_ratio ?s /\ _ =>
      assert (H : generate_trade_signal demo_market default_params "600000.XSHG" "demo"
                    5 8 (mkDateTime 1044 14 56) = Some s) by (vm_compute; reflexivity);
      destruct (signal_is_backed_by_pattern _ _ _ _ _ _ _ _ H)
        as (d & p & c & today & rest & _ & _ & _ & _ & _ & _ & _ & _ & _ & _ & _
            & Hr & Hv & _)
  end.
  split; [exact Hv | exact Hr].
Defined.

(** ** The exit checks, entry by entry *)

Lemma decided_cases (v : string -> Position -> option SellReason) (ctx : Context)
    (k : string) (p : Position) :
  (v k p = None /\ decided v ctx k p = p)
  \/ (exists why, v k p = Some why /\ close_raises (order_target ctx k) = true
                  /\ decided v ctx k p = p)
  \/ (exists why, v k p = Some why /\ close_raises (order_target ctx k) = false
                  /\ decided v ctx k p = flag_entry why (current_dt ctx) p).
Proof.
  unfold decided. destruct (v k p) as [why|]; [|left; auto].
  destruct (close_raises (order_target ctx k)); right; [left | right]; eauto.
Qed.

(** X14. In the 9 o'clock hour before 9:30 and in the 14 o'clock hour from
    14:55 on, [check_immediate_stops] changes nothing.  At any other time
    it decides every entry on its own.  An entry with a verdict (a stop, or
    else a take-profit) gets one [order_target] call; when the call returns
    the entry is flagged with the reason and the current time, when it
    raises the entry is left as it was.  Every other entry is left as it
    was.  The calls are made in the order in which the entries were added,
    which stays the order of the entries; no entry appears or disappears,
    nothing is cancelled, and the account changes for the instruments asked
    to close only. *)
Theorem immediate_stops_decide_each_entry (pr : Params) (ctx : Context) (g : Strategy) :
  if quiet_window (current_dt ctx)
  then check_immediate_stops pr ctx g = (ctx, g)
  else
    (forall k,
        positions (snd (check_immediate_stops pr ctx g)) !! k
        = decided (immediate_verdict pr ctx) ctx k <$> positions g !! k)
    /\ (forall k p why,
          positions g !! k = Some p -> immediate_verdict pr ctx k p = Some why ->
          positions (snd (check_immediate_stops pr ctx g)) !! k
          = Some (if close_raises (order_target ctx k) then p
                  else flag_entry why (current_dt ctx) p))
    /\ close_requests (snd (check_immediate_stops pr ctx g))
       = close_requests g ++ closed_codes (immediate_verdict pr ctx) (positions g)
    /\ cancel_requests (snd (check_immediate_stops pr ctx g)) = cancel_requests g
    /\ (items (positions (snd (check_immediate_stops pr ctx g)))).*1
       = (items (positions g)).*1
    /\ (forall k,
          portfolio (fst (check_immediate_stops pr ctx g)) !! k
          = account_after (immediate_verdict pr ctx) ctx (positions g) k).
Proof.
  destruct (quiet_window (current_dt ctx)) eqn:Hq.
  - apply check_immediate_stops_quiet. exact Hq.
  - destruct (check_immediate_stops_result pr ctx g Hq)
      as (Hpos & Hreq & Hcan & _ & Hport & Hord).
    split; [exact Hpos|]. split.
    + intros k p why Hp Hv. rewrite Hpos, Hp. simpl. unfold decided. rewrite Hv.
      destruct (close_raises (order_target ctx k)); reflexivity.
    + split; [exact Hreq|]. split; [exact Hcan|]. split; [exact Hord | exact Hport].
Qed.

(** A morning call at 10:00 with the price 16 percent under the buying
    price: on a platform that fills at once the entry is flagged and the
    shares are gone; on one whose [order_target] raises the call was made and
    the entry is as it was. *)
Example immediate_stop_filled_and_refused :
  let filled_call :=
    check_immediate_stops default_params (filling_context 1045 10 0 84 100) demo_strategy in
  let refused_call :=
    check_immediate_stops default_params (failing_context 1045 10 0 84 100) demo_strategy in
  selling <$> positions (snd filled_call) !! "600000.XSHG"%string = Some true
  /\ portfolio (fst filled_call) !! "600000.XSHG"%string = None
  /\ positions (snd refused_call) !! "600000.XSHG"%string = Some demo_position
  /\ close_requests (snd refused_call) = ["600000.XSHG"%string].
Proof. repeat split; vm_compute; reflexivity. Qed.

Lemma sold_out_account (ctx ctx' : Context) (k : string) (p : Position) :
  portfolio ctx' !! k = portfolio ctx !! k -> sold_out ctx' k p = sold_out ctx k p.
Proof. intros H. unfold sold_out. rewrite H. reflexivity. Qed.

(** X15. [check_tail_position] decides every entry on its own and then
    cleans up, reading the account as its own orders have left it.  An
    entry that was flagged before the call is removed when its shares are
    gone and kept as it is otherwise.  An open entry with a verdict (tail
    take-profit first, else the time stop) gets one [order_target] call:
    when the call raises the entry stays open; when it returns the entry is
    flagged, and if the order is filled within the call the entry is
    removed by this very call.  Every other entry is left as it was. *)
Theorem tail_check_decides_then_cleans (pr : Params) (ctx : Context) (g : Strategy) :
  (forall k p,
      positions g !! k = Some p -> selling p = true ->
      positions (snd (check_tail_position pr ctx g)) !! k
      = if sold_out ctx k p then None else Some p)
  /\ (forall k p why,
        positions g !! k = Some p -> tail_verdict pr ctx k p = Some why ->
        positions (snd (check_tail_position pr ctx g)) !! k
        = if close_raises (order_target ctx k) then Some p
          else if (default 0%Z (held_after (order_target ctx k)) <=? 0)%Z then None
          else Some (flag_entry why (current_dt ctx) p))
  /\ (forall k p,
        positions g !! k = Some p -> selling p = false ->
        tail_verdict pr ctx k p = None ->
        positions (snd (check_tail_position pr ctx g)) !! k = Some p)
  /\ (forall k,
        positions g !! k = None ->
        positions (snd (check_tail_position pr ctx g)) !! k = None)
  /\ close_requests (snd (check_tail_position pr ctx g))
     = close_requests g ++ closed_codes (tail_verdict pr ctx) (positions g)
  /\ cancel_requests (snd (check_tail_position pr ctx g)) = cancel_requests g
  /\ (forall k,
        portfolio (fst (check_tail_position pr ctx g)) !! k
        = account_after (tail_verdict pr ctx) ctx (positions g) k).
Proof.
  destruct (check_tail_position_result pr ctx g) as (Hpos & Hreq & Hcan & _ & Hport).
  split; [|split; [|split; [|split; [|split; [exact Hreq | split; [exact Hcan | exact Hport]]]]]].
  - intros k p Hp Hs. rewrite Hpos, Hp. cbv zeta.
    assert (Hv : tail_verdict pr ctx k p = None).
    { destruct (tail_verdict pr ctx k p) as [why|] eqn:E; [|reflexivity].
      apply tail_verdict_held in E. destruct E as [E _]. congruence. }
    unfold decided. rewrite Hv.
    rewrite (sold_out_account ctx); [reflexivity|].
    rewrite Hport. unfold account_after. rewrite Hp, Hv. reflexivity.
  - intros k p why Hp Hv. rewrite Hpos, Hp. cbv zeta.
    destruct (tail_verdict_held _ _ _ _ _ Hv) as [Hs _].
    unfold decided. rewrite Hv.
    destruct (close_raises (order_target ctx k)).
    + unfold sold_out. rewrite Hs. reflexivity.
    + unfold sold_out. simpl. rewrite Hport. unfold account_after. rewrite Hp, Hv.
      reflexivity.
  - intros k p Hp Hs Hv. rewrite Hpos, Hp. cbv zeta. unfold decided. rewrite Hv.
    unfold sold_out. rewrite Hs. reflexivity.
  - intros k Hp. rewrite Hpos, Hp. reflexivity.
Qed.

Lemma tail_check_decides_then_cleans_witness :
  positions (snd (check_tail_position default_params (filling_context 1075 14 55 102 100)
                    demo_strategy)) !! "600000.XSHG"%string
  = None
  /\ exists why,
       positions (snd (check_tail_position default_params (demo_context 1075 14 55 102 100)
                         demo_strategy)) !! "600000.XSHG"%string
       = Some (flag_entry why (mkDateTime 1075 14 55) demo_position).
Proof.
  assert (Hp : positions demo_strategy !! "600000.XSHG"%string = Some demo_position)
    by (vm_compute; reflexivity).
  split.
  - assert (Hv : exists why,
               tail_verdict default_params (filling_context 1075 14 55 102 100)
                 "600000.XSHG" demo_position = Some why)
      by (eexists; vm_compute; reflexivity).
    destruct Hv as [why Hv].
    exact (proj1 (proj2 (tail_check_decides_then_cleans default_params
                           (filling_context 1075 14 55 102 100) demo_strategy))
             "600000.XSHG"%string demo_position why Hp Hv).
  - assert (Hv : exists why,
               tail_verdict default_params (demo_context 1075 14 55 102 100)
                 "600000.XSHG" demo_position = Some why)
      by (eexists; vm_compute; reflexivity).
    destruct Hv as [why Hv]. exists why.
    exact (proj1 (proj2 (tail_check_decides_then_cleans default_params
                           (demo_context 1075 14 55 102 100) demo_strategy))
             "600000.XSHG"%string demo_position why Hp Hv).
Defined.

(** ** What the cleanups leave behind *)

(** X16. [morning_cleanup] removes every entry flagged [selling] and no
    other, so no entry is flagged afterwards and the open entries are
    untouched; it sends no close request, and it cancels exactly the listed
    orders whose status is open or pending. *)
Theorem morning_cleanup_result (ctx : Context) (g : Strategy) :
  (forall k,
      positions (morning_cleanup ctx g) !! k
      = match positions g !! k with
        | Some p => if selling p then None else Some p
        | None => None
        end)
  /\ (forall k p, positions (morning_cleanup ctx g) !! k = Some p -> selling p = false)
  /\ close_requests (morning_cleanup ctx g) = close_requests g
  /\ (exists cancelled,
        cancel_requests (morning_cleanup ctx g) = cancel_requests g ++ cancelled
        /\ forall o,
             In o cancelled
             <-> (exists order_list, In order_list (open_orders ctx) /\ In o order_list)
                 /\ (status o = "open"%string \/ status o = "pending"%string)).
Proof.
  split; [apply morning_cleanup_lookup|]. split.
  - intros k p. rewrite morning_cleanup_lookup.
    destruct (positions g !! k) as [q|]; [|discriminate].
    destruct (selling q) eqn:E; [discriminate|]. intros H. inversion H; subst. exact E.
  - split; [reflexivity|]. exists (to_cancel (open_orders ctx)).
    split; [reflexivity | apply to_cancel_elem].
Qed.

Lemma strategy_eq (g1 g2 : Strategy) :
  positions g1 = positions g2 ->
  close_requests g1 = close_requests g2 ->
  cancel_requests g1 = cancel_requests g2 ->
  g1 = g2.
Proof. destruct g1, g2. simpl. congruence. Qed.

(** X17. [cleanup_sold_positions] removes exactly the flagged entries whose
    held amount is zero, negative or unknown to the portfolio, keeps every
    other entry as it is and sends and cancels nothing; no entry left
    afterwards is a sold-out one, and a second call right after it changes
    nothing more. *)
Theorem sold_cleanup_result (ctx : Context) (g : Strategy) :
  (forall k,
      positions (cleanup_sold_positions ctx g) !! k
      = match positions g !! k with
        | Some p => if sold_out ctx k p then None else Some p
        | None => None
        end)
  /\ close_requests (cleanup_sold_positions ctx g) = close_requests g
  /\ cancel_requests (cleanup_sold_positions ctx g) = cancel_requests g
  /\ (forall k p,
        positions (cleanup_sold_positions ctx g) !! k = Some p ->
        sold_out ctx k p = false)
  /\ cleanup_sold_positions ctx (cleanup_sold_positions ctx g)
     = cleanup_sold_positions ctx g.
Proof.
  split; [apply cleanup_sold_positions_lookup|]. split; [reflexivity|].
  split; [reflexivity|]. split.
  { intros k p. rewrite cleanup_sold_positions_lookup.
    destruct (positions g !! k) as [q|]; [|discriminate].
    destruct (sold_out ctx k q) eqn:Es; [discriminate|].
    intros H. inversion H; subst. exact Es. }
  assert (E : stocks_to_remove ctx (positions (cleanup_sold_positions ctx g)) = []).
  { apply elem_of_nil_inv. intros k Hk. apply stocks_to_remove_elem in Hk.
    destruct Hk as (p & Hp & Hs). rewrite cleanup_sold_positions_lookup in Hp.
    destruct (positions g !! k) as [q|]; [|discriminate].
    destruct (sold_out ctx k q) eqn:Es; [discriminate|]. congruence. }
  apply strategy_eq; [|reflexivity | reflexivity].
  unfold cleanup_sold_positions at 1. cbn [positions]. rewrite E. reflexivity.
Qed.

(** ** What exit-side calls can and cannot do to an entry *)

Lemma same_or_flagged_trans (p q r : Position) :
  same_or_flagged p q -> same_or_flagged q r -> same_or_flagged p r.
Proof.
  intros [-> | (Hp & why & now & ->)] H; [exact H|].
  destruct H as [-> | (Hq & _)]; [right; eauto | simpl in Hq; discriminate].
Qed.

Lemma decided_same_or_flagged (v : string -> Position -> option SellReason)
    (ctx : Context) (k : string) (p : Position) :
  (forall why, v k p = Some why -> selling p = false) ->
  same_or_flagged p (decided v ctx k p).
Proof.
  intros Hv. unfold decided. destruct (v k p) as [why|] eqn:E; [|left; reflexivity].
  destruct (close_raises (order_target ctx k)); [left; reflexivity|].
  right. split; [apply (Hv why); reflexivity | eauto].
Qed.

(** An entry found after a call came from the entry that was there. *)
Lemma result_lookup (v : string -> Position -> option SellReason) (ctx : Context)
    (g g' : Strategy) (k : string) (q : Position) :
  (forall p why, v k p = Some why -> selling p = false) ->
  positions g' !! k = None \/ positions g' !! k = decided v ctx k <$> positions g !! k ->
  positions g' !! k = Some q ->
  exists p, positions g !! k = Some p /\ same_or_flagged p q.
Proof.
  intros Hv [H|H] Hq; [congruence|]. rewrite H in Hq.
  destruct (positions g !! k) as [p|]; [|discriminate]. simpl in Hq.
  inversion Hq; subst q. exists p. split; [reflexivity|].
  apply decided_same_or_flagged. apply Hv.
Qed.

Lemma tick_lookup (pr : Params) (g : Strategy) (t : Tick) (k : string) (q : Position) :
  positions (tick pr g t) !! k = Some q ->
  exists p, positions g !! k = Some p /\ same_or_flagged p q.
Proof.
  assert (Hi : forall ctx p why, immediate_verdict pr ctx k p = Some why -> selling p = false)
    by (intros ctx p why H; apply immediate_verdict_held in H; tauto).
  assert (Ht : forall ctx p why, tail_verdict pr ctx k p = Some why -> selling p = false)
    by (intros ctx p why H; apply tail_verdict_held in H; tauto).
  destruct t as [ctx|ctx|ctx|ctx|ctx]; cbn [tick].
  - destruct (quiet_window (current_dt ctx)) eqn:Hw.
    + rewrite check_immediate_stops_quiet by exact Hw.
      intros Hq. exists q. split; [exact Hq | left; reflexivity].
    + destruct (check_immediate_stops_result pr ctx g Hw) as (Hpos & _).
      apply (result_lookup (immediate_verdict pr ctx) ctx); [apply Hi|].
      right. apply Hpos.
  - destruct (check_tail_position_result pr ctx g) as (Hpos & _).
    apply (result_lookup (tail_verdict pr ctx) ctx); [apply Ht|].
    rewrite Hpos. destruct (positions g !! k) as [p|]; [|left; reflexivity].
    cbv zeta. destruct (sold_out _ k _); [left | right]; reflexivity.
  - destruct (quiet_window (current_dt ctx)) eqn:Hw.
    + rewrite handle_data_quiet by exact Hw.
      intros Hq. exists q. split; [exact Hq | left; reflexivity].
    + destruct (handle_data_result pr ctx g Hw) as (Hpos & _).
      apply (result_lookup (immediate_verdict pr ctx) ctx); [apply Hi|].
      rewrite Hpos. destruct (positions g !! k) as [p|]; [|left; reflexivity].
      cbv zeta. destruct (sold_out _ k _); [left | right]; reflexivity.
  - rewrite cleanup_sold_positions_lookup.
    destruct (positions g !! k) as [p|]; [|discriminate].
    destruct (sold_out ctx k p); [discriminate|].
    intros Hq. inversion Hq; subst q. exists p. split; [reflexivity | left; reflexivity].
  - rewrite morning_cleanup_lookup.
    destruct (positions g !! k) as [p|]; [|discriminate].
    destruct (selling p); [discriminate|].
    intros Hq. inversion Hq; subst q. exists p. split; [reflexivity | left; reflexivity].
Qed.

(** X18. Exit-side calls never create an entry and never touch what was
    recorded at the purchase: an entry found under a code after any sequence
    of such calls is the entry that was there before, either unchanged or
    flagged once.  An entry that was already flagged comes out unchanged:
    its sell reason and sell time are never overwritten. *)
Theorem exit_calls_only_flag (pr : Params) (ticks : list Tick) (g : Strategy)
    (k : string) (q : Position)
    (Hafter : positions (run pr ticks g) !! k = Some q) :
  exists p,
    positions g !! k = Some p
    /\ same_or_flagged p q
    /\ buy_price q = buy_price p /\ buy_time q = buy_time p
    /\ quantity q = quantity p
    /\ stop_loss q = stop_loss p /\ take_profit q = take_profit p
    /\ (selling p = true -> q = p).
Proof.
  assert (H : exists p, positions g !! k = Some p /\ same_or_flagged p q).
  { revert g Hafter. unfold run.
    induction ticks as [|t ticks IH]; intros g Hafter; simpl in Hafter.
    - exists q. split; [exact Hafter | left; reflexivity].
    - apply IH in Hafter. destruct Hafter as (p' & Hp' & Hpq).
      apply tick_lookup in Hp'. destruct Hp' as (p & Hp & Hpp').
      exists p. split; [exact Hp | eapply same_or_flagged_trans; eauto]. }
  destruct H as (p & Hp & Hpq). exists p. split; [exact Hp|]. split; [exact Hpq|].
  destruct Hpq as [-> | (Hs & why & now & ->)]; simpl.
  - repeat split; reflexivity.
  - repeat split; try reflexivity. intros Hc. congruence.
Qed.

Lemma exit_calls_only_flag_witness :
  exists q,
    positions (run default_params demo_ticks demo_strategy) !! "600000.XSHG"%string = Some q
    /\ buy_price q = buy_price demo_position
    /\ same_or_flagged demo_position q.
Proof.
  eexists. split; [vm_compute; reflexivity|].
  match goal with
  | |- buy_price ?q = _ /\ _ =>
      assert (H : positions (run default_params demo_ticks demo_strategy)
                    !! "600000.XSHG"%string = Some q) by (vm_compute; reflexivity);
      destruct (exit_calls_only_flag _ _ _ _ _ H) as (p & Hp & Hpq & Hb & _)
  end.
  assert (Ep : p = demo_position).
  { assert (Hl : positions demo_strategy !! "600000.XSHG"%string = Some demo_position)
      by (vm_compute; reflexivity).
    congruence. }
  subst p. split; [exact Hb | exact Hpq].
Defined.

Lemma live_profit_unheld (ctx : Context) (k : string) (p : Position) :
  (forall a, portfolio ctx !! k = Some a -> (a <= 0)%Z) ->
  live_profit ctx k p = None.
Proof.
  intros H. unfold live_profit. destruct (selling p); [reflexivity|].
  destruct (portfolio ctx !! k) as [a|]; [|reflexivity].
  specialize (H a eq_refl). apply Z.leb_le in H. rewrite H. reflexivity.
Qed.

Lemma tick_keeps_unheld (pr : Params) (g : Strategy) (t : Tick) (k : string)
    (p : Position) :
  positions g !! k = Some p -> selling p = false ->
  (forall a, portfolio (tick_context t) !! k = Some a -> (a <= 0)%Z) ->
  positions (tick pr g t) !! k = Some p.
Proof.
  intros Hp Hs Ha.
  assert (Hi : forall ctx, tick_context t = ctx ->
                 decided (immediate_verdict pr ctx) ctx k p = p).
  { intros ctx <-. unfold decided, immediate_verdict.
    rewrite live_profit_unheld by exact Ha. reflexivity. }
  assert (Ht : forall ctx, tick_context t = ctx ->
                 decided (tail_verdict pr ctx) ctx k p = p).
  { intros ctx <-. unfold decided, tail_verdict.
    rewrite live_profit_unheld by exact Ha. reflexivity. }
  assert (Hso : forall ctx, sold_out ctx k p = false)
    by (intros ctx; unfold sold_out; rewrite Hs; reflexivity).
  destruct t as [ctx|ctx|ctx|ctx|ctx]; cbn [tick tick_context] in *.
  - destruct (quiet_window (current_dt ctx)) eqn:Hw.
    + rewrite check_immediate_stops_quiet by exact Hw. exact Hp.
    + destruct (check_immediate_stops_result pr ctx g Hw) as (Hpos & _).
      rewrite Hpos, Hp. simpl. rewrite Hi by reflexivity. reflexivity.
  - destruct (check_tail_position_result pr ctx g) as (Hpos & _).
    rewrite Hpos, Hp. cbv zeta. rewrite Ht by reflexivity. rewrite Hso. reflexivity.
  - destruct (quiet_window (current_dt ctx)) eqn:Hw.
    + rewrite handle_data_quiet by exact Hw. exact Hp.
    + destruct (handle_data_result pr ctx g Hw) as (Hpos & _).
      rewrite Hpos, Hp. cbv zeta. rewrite Hi by reflexivity. rewrite Hso. reflexivity.
  - rewrite cleanup_sold_positions_lookup, Hp, Hso. reflexivity.
  - rewrite morning_cleanup_lookup, Hp, Hs. reflexivity.
Qed.

(** X19. An open entry whose shares are not in the account (no holding, or
    a holding of zero) is out of reach of every exit-side call: no check
    looks at its price or age and no cleanup removes it, so it stays in
    [g.positions] unchanged through any sequence of such calls. *)
Theorem unheld_open_entry_stays (pr : Params) (ticks : list Tick) (g : Strategy)
    (k : string) (p : Position)
    (Hentry : positions g !! k = Some p)
    (Hopen : selling p = false)
    (Hunheld : Forall (fun t => forall a, portfolio (tick_context t) !! k = Some a ->
                                          (a <= 0)%Z) ticks) :
  positions (run pr ticks g) !! k = Some p.
Proof.
  revert g Hentry. unfold run.
  induction Hunheld as [|t ticks Ht _ IH]; intros g Hentry; simpl; [exact Hentry|].
  apply IH. apply tick_keeps_unheld; assumption.
Qed.

Lemma unheld_open_entry_stays_witness :
  positions (run default_params stale_ticks demo_strategy) !! "600000.XSHG"%string
  = Some demo_position.
Proof.
  apply (unheld_open_entry_stays default_params stale_ticks demo_strategy
           "600000.XSHG" demo_position).
  - vm_compute. reflexivity.
  - reflexivity.
  - repeat constructor; intros a Ha; vm_compute in Ha; inversion Ha; lia.
Defined.

(** ** The ranking of signals *)

Lemma insert_by_score_perm (s : Signal) (l : list Signal) :
  insert_by_score s l ≡ₚ s :: l.
Proof.
  induction l as [|t l IH]; simpl; [reflexivity|].
  destruct (Qltb _ _); [|reflexivity].
  rewrite IH. apply Permutation_swap.
Qed.

Lemma insert_by_score_sorted (s : Signal) (l : list Signal) :
  StronglySorted (fun a b => calculate_composite_score b <= calculate_composite_score a) l ->
  StronglySorted (fun a b => calculate_composite_score b <= calculate_composite_score a)
                 (insert_by_score s l).
Proof.
  induction 1 as [|t l Hs IH Ht]; simpl.
  - constructor; constructor.
  - destruct (Qltb _ _) eqn:E.
    + apply Qltb_true in E. constructor; [exact IH|].
      rewrite insert_by_score_perm. constructor; [lra | exact Ht].
    + apply Qltb_false in E. constructor; [constructor; assumption|].
      constructor; [exact E|].
      eapply Forall_impl; [exact Ht|]. simpl. intros x Hx. lra.
Qed.

Lemma insert_by_score_filter (c : Q) (s : Signal) (l : list Signal) :
  List.filter (fun x => Qeq_bool (calculate_composite_score x) c) (insert_by_score s l)
  = List.filter (fun x => Qeq_bool (calculate_composite_score x) c) (s :: l).
Proof.
  induction l as [|t l IH]; [reflexivity|].
  cbn [insert_by_score]. destruct (Qltb _ _) eqn:E; [|reflexivity].
  apply Qltb_true in E. cbn [List.filter] in *. rewrite IH.
  destruct (Qeq_bool (calculate_composite_score s) c) eqn:Es;
    destruct (Qeq_bool (calculate_composite_score t) c) eqn:Et; try reflexivity.
  apply Qeq_bool_iff in Es. apply Qeq_bool_iff in Et. lra.
Qed.

Lemma ranking_sorted_perm (l : list Signal) :
  sort_by_score l ≡ₚ l
  /\ StronglySorted
       (fun a b => calculate_composite_score b <= calculate_composite_score a)
       (sort_by_score l).
Proof.
  unfold sort_by_score. induction l as [|s l (Hp & Hs)]; simpl.
  - split; constructor.
  - split; [rewrite insert_by_score_perm, Hp; reflexivity|].
    apply insert_by_score_sorted; exact Hs.
Qed.

(** X20. The ranking used for buying is a stable sort by descending
    composite score: it holds the same signals, no signal is followed by one
    that scores higher, and signals with the same score keep the order in
    which they were generated. *)
Theorem ranking_is_stable_and_descending (l : list Signal) :
  sort_by_score l ≡ₚ l
  /\ StronglySorted
       (fun a b => calculate_composite_score b <= calculate_composite_score a)
       (sort_by_score l)
  /\ forall c,
       List.filter (fun x => Qeq_bool (calculate_composite_score x) c) (sort_by_score l)
       = List.filter (fun x => Qeq_bool (calculate_composite_score x) c) l.
Proof.
  unfold sort_by_score. induction l as [|s l (Hp & Hs & Hf)]; simpl.
  - repeat split; constructor.
  - split; [rewrite insert_by_score_perm, Hp; reflexivity|].
    split; [apply insert_by_score_sorted; exact Hs|].
    intros c. rewrite insert_by_score_filter. simpl. rewrite Hf. reflexivity.
Qed.

(** ** The buying loop *)

Lemma already_held_false (ctx : Context) (g : Strategy) (k : string) :
  already_held ctx g k = false
  <-> positions g !! k = None
      /\ (forall a, portfolio ctx !! k = Some a -> (a <= 0)%Z).
Proof.
  unfold already_held. destruct (positions g !! k) as [p|].
  - split; [discriminate | intros [H _]; discriminate].
  - destruct (portfolio ctx !! k) as [a|].
    + rewrite Z.ltb_ge. split.
      * intros H. split; [reflexivity|]. intros a' Ha. inversion Ha; subst. exact H.
      * intros [_ H]. apply H. reflexivity.
    + split; [|reflexivity]. intros _. split; [reflexivity | discriminate].
Qed.

Lemma bought_from_refl (ctx : Context) (broker : Broker) (v : Q) (max_buy : Z)
    (signals : list Signal) (st : Buying) :
  (buy_count st <= max_buy)%Z -> bought_from ctx broker v max_buy signals st st.
Proof.
  intros H. unfold bought_from. split; [lia|]. split; [lia|].
  split; [auto|]. split; [auto|]. split; [reflexivity|]. split; [reflexivity|].
  exists []. rewrite app_nil_r. split; [reflexivity|]. split; [constructor | simpl; lia].
Qed.

(** Passing over a signal, with or without a refused order. *)
Lemma bought_from_skip (ctx : Context) (broker : Broker) (v : Q) (max_buy : Z)
    (signal : Signal) (rest : list Signal) (st st1 st' : Buying)
    (extra : list (string * Q)) :
  book st1 = book st -> buy_count st1 = buy_count st ->
  buy_requests st1 = buy_requests st ++ extra ->
  Forall (fun r : string * Q => snd r = v) extra -> (length extra <= 1)%nat ->
  bought_from ctx broker v max_buy rest st1 st' ->
  bought_from ctx broker v max_buy (signal :: rest) st st'.
Proof.
  intros Hb Hc Hr Hv Hl (H1 & H2 & H3 & H4 & H5 & H6 & new & H7 & H8 & H9).
  rewrite Hb, Hc in *. unfold bought_from.
  split; [exact H1|]. split; [exact H2|]. split; [exact H3|]. split.
  { intros k q Hq. destruct (H4 k q Hq) as [Hold | (Ha & Ho & (s & Hs & Hk) & Hp)];
      [left; exact Hold|].
    right. split; [exact Ha|]. split; [exact Ho|]. split; [|exact Hp].
    exists s. split; [right; exact Hs | exact Hk]. }
  split; [exact H5|]. split; [exact H6|].
  exists (extra ++ new). rewrite H7, Hr, app_assoc.
  split; [reflexivity|]. split; [apply Forall_app; split; assumption|].
  rewrite length_app. simpl. lia.
Qed.

Lemma buy_loop_spec (ctx : Context) (broker : Broker) (v : Q) (max_buy : Z)
    (signals : list Signal) :
  forall st,
    (buy_count st <= max_buy)%Z ->
    bought_from ctx broker v max_buy signals st (buy_loop ctx broker v max_buy signals st).
Proof.
  induction signals as [|signal rest IH]; intros st Hcount.
  - simpl. apply bought_from_refl. exact Hcount.
  - cbn [buy_loop].
    destruct (max_buy <=? buy_count st)%Z eqn:Emax;
      [apply bought_from_refl; exact Hcount|].
    apply Z.leb_gt in Emax.
    destruct (already_held ctx (book st) (stock_code signal)) eqn:Eheld.
    { apply (bought_from_skip _ _ _ _ _ _ st st _ []); auto.
      rewrite app_nil_r. reflexivity. }
    destruct (last_price ctx !! stock_code signal) as [price|] eqn:Eprice.
    2:{ apply (bought_from_skip _ _ _ _ _ _ st st _ []); auto.
        rewrite app_nil_r. reflexivity. }
    destruct (order_value broker (stock_code signal) v) eqn:Eorder.
    2:{ apply (bought_from_skip _ _ _ _ _ _ st
                 {| book := book st; buy_count := buy_count st;
                    buy_requests := buy_requests st ++ [(stock_code signal, v)] |}
                 _ [(stock_code signal, v)]);
          [reflexivity | reflexivity | reflexivity | repeat constructor | simpl; lia |].
        apply IH. simpl. lia. }
    2:{ apply (bought_from_skip _ _ _ _ _ _ st
                 {| book := book st; buy_count := buy_count st;
                    buy_requests := buy_requests st ++ [(stock_code signal, v)] |}
                 _ [(stock_code signal, v)]);
          [reflexivity | reflexivity | reflexivity | repeat constructor | simpl; lia |].
        apply IH. simpl. lia. }
    set (code := stock_code signal) in *.
    set (st1 := {| book := _; buy_count := _; buy_requests := _ |}).
    destruct (IH st1) as (H1 & H2 & H3 & H4 & H5 & H6 & new & H7 & H8 & H9);
      [simpl; lia|].
    pose proof (proj1 (already_held_false _ _ _) Eheld) as [Hnone Hport].
    unfold bought_from. subst st1.
    cbn [book buy_count buy_requests positions close_requests cancel_requests]
      in H1, H2, H3, H4, H5, H6, H7.
    rewrite dict_size_insert_None in H2 by exact Hnone.
    split; [lia|]. split; [lia|]. split.
    { intros k p Hk. apply H3. rewrite dict_lookup_insert_ne; [exact Hk|].
      intros ->. congruence. }
    split.
    { intros k q Hq. destruct (H4 k q Hq) as [Hmid | (Ha & Ho & (s & Hs & Hk) & Hp)].
      - destruct (decide (code = k)) as [<-|Hne].
        + rewrite dict_lookup_insert_eq in Hmid. inversion Hmid; subst q.
          right. split; [exact Eheld|]. split; [exact Eorder|].
          split; [exists signal; split; [left; reflexivity | reflexivity]|].
          exists price. split; [exact Eprice | reflexivity].
        + rewrite dict_lookup_insert_ne in Hmid by exact Hne. left. exact Hmid.
      - right. apply already_held_false in Ha. simpl in Ha. destruct Ha as [Ha1 Ha2].
        assert (Hne : code <> k) by (intros <-; rewrite dict_lookup_insert_eq in Ha1; discriminate).
        rewrite dict_lookup_insert_ne in Ha1 by exact Hne.
        split; [apply already_held_false; split; assumption|].
        split; [exact Ho|]. split; [|exact Hp].
        exists s. split; [right; exact Hs | exact Hk]. }
    split; [exact H5|]. split; [exact H6|].
    exists ((code, v) :: new). rewrite H7, <- app_assoc. simpl.
    split; [reflexivity|]. split; [constructor; [reflexivity | exact H8] | lia].
Qed.

(** ** trade_logic *)

Lemma generated_signal_code (pv : Provider) (pr : Params) (code name : string)
    (change turnover : Q) (now : DateTime) (signal : Signal) :
  generate_trade_signal pv pr code name change turnover now = Some signal ->
  stock_code signal = code.
Proof.
  unfold generate_trade_signal, signal_body, mbind, outcome_bind.
  destruct (negb (has_A_kill _)); [discriminate|].
  destruct (A_bottom_date _) as [bottom|]; unfold getitem; [|discriminate].
  destruct (identify_three_waves _ _ _ _ _) as [|p]; [discriminate|].
  destruct (check_consolidation _ _ _ _ _) as [c|]; [|discriminate].
  destruct (negb (is_consolidating c)); [discriminate|].
  destruct (get_price pv code (dt_date now) 1) as [| |[|today rest]]; try discriminate.
  destruct (get_price pv code (dt_date now) 5) as [| |rows]; try discriminate.
  destruct (5 <=? length rows)%nat;
    match goal with
    | |- context [classify ?a ?b ?c ?d ?e ?f] =>
        destruct (classify a b c d e f) as [strength ratio]
    end;
    (destruct (Qleb ratio 0); [discriminate|]);
    intros H; inversion H; subst; reflexivity.
Qed.

Lemma screen_one_code (pv : Provider) (fd : Fundamentals) (sc : Screen)
    (current_date prev_date : Z) (code name : string) (c : Candidate) :
  screen_one pv fd sc current_date prev_date (code, name) = Some c ->
  cand_code c = code /\ cand_name c = name
  /\ (exists rows cap caps,
        get_price pv code current_date 2 = Frame rows
        /\ (2 <= length rows)%nat
        /\ circulating_cap fd code prev_date = Frame (cap :: caps)
        /\ cand_price_change c = day_change rows
        /\ cand_turnover_ratio c = day_turnover rows cap)
  /\ min_turnover sc < cand_turnover_ratio c <= max_turnover sc
  /\ min_price_change sc < cand_price_change c
  /\ is_close_limit_up pv code current_date = false.
Proof.
  unfold screen_one.
  destruct (get_price pv code current_date 2) as [| |rows]; try discriminate.
  destruct (length rows <? 2)%nat eqn:Elen; [discriminate|]. apply Nat.ltb_ge in Elen.
  destruct (circulating_cap fd code prev_date) as [| |[|cap caps]]; try discriminate.
  destruct (Qltb (min_turnover sc) _ && _ && _ && _) eqn:E; [|discriminate].
  apply andb_true_iff in E. destruct E as [E Hlim].
  apply andb_true_iff in E. destruct E as [E Hchg].
  apply andb_true_iff in E. destruct E as [Hlo Hhi].
  apply Qltb_true in Hlo, Hchg. apply Qleb_true in Hhi. apply negb_true_iff in Hlim.
  intros H. inversion H; subst; clear H. cbn [cand_code cand_name cand_price_change
                                                cand_turnover_ratio].
  split; [reflexivity|]. split; [reflexivity|]. split.
  - exists rows, cap, caps. repeat split; try reflexivity. exact Elen.
  - auto.
Qed.

Lemma previous_trade_day_spec (fd : Fundamentals) (today : Z) :
  (if (2 <=? length (trade_days fd today))%nat then nth 0 (trade_days fd today) 0%Z
   else today)
  = previous_trade_day fd today.
Proof.
  unfold previous_trade_day. destruct (trade_days fd today) as [|d [|d' rest]]; reflexivity.
Qed.

Lemma collect_signals_elem (pv : Provider) (fd : Fundamentals) (pr : Params) (sc : Screen)
    (ctx : Context) (stock_list : list (string * string)) (s : Signal) :
  In s (collect_signals pv fd pr sc ctx stock_list) ->
  let today := dt_date (current_dt ctx) in
  exists name rows cap caps,
    In (stock_code s, name) stock_list
    /\ get_price pv (stock_code s) today 2 = Frame rows
    /\ (2 <= length rows)%nat
    /\ circulating_cap fd (stock_code s) (previous_trade_day fd today) = Frame (cap :: caps)
    /\ generate_trade_signal pv pr (stock_code s) name (day_change rows)
         (day_turnover rows cap) (current_dt ctx)
       = Some s
    /\ min_turnover sc < day_turnover rows cap <= max_turnover sc
    /\ min_price_change sc < day_change rows
    /\ is_close_limit_up pv (stock_code s) today = false.
Proof.
  intros H. cbv zeta. unfold collect_signals in H. cbv zeta in H.
  rewrite previous_trade_day_spec in H. apply list_elem_of_In in H.
  apply list_elem_of_omap in H. destruct H as (c & Hc & Hs).
  apply list_elem_of_omap in Hc. destruct Hc as ([code name] & Hin & Hscreen).
  apply screen_one_code in Hscreen.
  destruct Hscreen as (Hcode & Hname & (rows & cap & caps & Hrows & Hlen & Hcap & Hchg & Hto)
                       & Ht & Hp & Hl).
  pose proof (generated_signal_code _ _ _ _ _ _ _ _ Hs) as Hsc.
  rewrite Hcode in Hsc. rewrite Hsc. rewrite Hcode, Hname, Hchg, Hto in Hs.
  rewrite Hto in Ht. rewrite Hchg in Hp.
  exists name, rows, cap, caps.
  split; [apply list_elem_of_In; exact Hin|]. auto 10.
Qed.

(** The two ways through [trade_logic]: an early return, or the buying loop
    over at most [2 * max_buy] of today's signals. *)
Lemma trade_logic_cases (pv : Provider) (fd : Fundamentals) (pr : Params) (sc : Screen)
    (broker : Broker) (ctx : Context) (stock_list : list (string * string))
    (g : Strategy) :
  trade_logic pv fd pr sc broker ctx stock_list g = idle_buying g
  \/ (dt_hour (current_dt ctx) = 14%Z /\ dt_minute (current_dt ctx) = 56%Z
      /\ (held_count ctx < max_positions sc)%Z
      /\ 10000 <= available_cash broker
      /\ 10000 <= order_size pr sc broker ctx
      /\ exists signals,
           let max_buy := Z.min 2 (max_positions sc - held_count ctx) in
           trade_logic pv fd pr sc broker ctx stock_list g
           = buy_loop ctx broker (order_size pr sc broker ctx) max_buy signals
               (idle_buying g)
           /\ (length signals <= Z.to_nat (max_buy * 2))%nat
           /\ forall s, In s signals ->
                        In s (collect_signals pv fd pr sc ctx stock_list)).
Proof.
  unfold trade_logic. fold (idle_buying g).
  destruct ((dt_hour (current_dt ctx) =? 14)%Z && (dt_minute (current_dt ctx) =? 56)%Z)
    eqn:Etime; simpl; [|left; reflexivity].
  apply andb_true_iff in Etime. destruct Etime as [Eh Em].
  apply Z.eqb_eq in Eh, Em.
  destruct (max_positions sc <=? held_count ctx)%Z eqn:Eheld; [left; reflexivity|].
  apply Z.leb_gt in Eheld.
  destruct (Qltb (available_cash broker) 10000) eqn:Ecash; [left; reflexivity|].
  apply Qltb_false in Ecash.
  destruct (Qltb (order_size pr sc broker ctx) 10000) eqn:Esize; [left; reflexivity|].
  apply Qltb_false in Esize.
  destruct (collect_signals pv fd pr sc ctx stock_list) as [|s0 more] eqn:Esig;
    [left; reflexivity|].
  right. repeat (split; [assumption|]).
  eexists. split; [reflexivity|]. split.
  - rewrite length_take. lia.
  - intros s Hs. apply list_elem_of_In in Hs. apply elem_of_take in Hs.
    destruct Hs as (i & Hs & _). apply list_elem_of_lookup_2 in Hs.
    apply list_elem_of_In.
    destruct (ranking_sorted_perm (s0 :: more)) as [Hperm _].
    rewrite <- Hperm. exact Hs.
Qed.

Lemma order_size_bounds (pr : Params) (sc : Screen) (broker : Broker) (ctx : Context) :
  order_size pr sc broker ctx <= available_cash broker * position_ratio pr
  /\ order_size pr sc broker ctx
     <= available_cash broker / inject_Z (max_positions sc - held_count ctx).
Proof.
  unfold order_size.
  pose proof (py_min_lower
                [available_cash broker * position_ratio pr;
                 available_cash broker / inject_Z (max_positions sc - held_count ctx)])
    as H.
  inversion H as [|? ? H1 H']; subst. inversion H' as [|? ? H2 _]; subst.
  split; assumption.
Qed.

(** X21. One call of [trade_logic] buys at most 2 instruments and never
    takes the holdings above [max_positions]; [g.positions] grows by exactly
    the number bought; at most 4 orders are sent, every one of them for the
    same amount; and an order is only sent at 14:56, with at least 10000 in
    cash, for an amount of at least 10000 that is no more than the position
    ratio's share of the cash, so that what is bought costs no more than the
    cash available. *)
Theorem trade_logic_buys_within_limits (pv : Provider) (fd : Fundamentals) (pr : Params)
    (sc : Screen) (broker : Broker) (ctx : Context) (stock_list : list (string * string))
    (g : Strategy) :
  let r := trade_logic pv fd pr sc broker ctx stock_list g in
  let v := order_size pr sc broker ctx in
  (0 <= buy_count r <= 2)%Z
  /\ (Z.of_nat (size (positions (book r)))
      = Z.of_nat (size (positions g)) + buy_count r)%Z
  /\ (length (buy_requests r) <= 4)%nat
  /\ Forall (fun request => snd request = v) (buy_requests r)
  /\ (buy_requests r <> [] ->
      dt_hour (current_dt ctx) = 14%Z /\ dt_minute (current_dt ctx) = 56%Z
      /\ (buy_count r + held_count ctx <= max_positions sc)%Z
      /\ 10000 <= available_cash broker
      /\ 10000 <= v <= available_cash broker * position_ratio pr
      /\ inject_Z (buy_count r) * v <= available_cash broker).
Proof.
  intros r v. subst r v.
  destruct (trade_logic_cases pv fd pr sc broker ctx stock_list g)
    as [-> | (Eh & Em & Eheld & Ecash & Esize & signals & E & Hlen & _)].
  - simpl. split; [lia|]. split; [lia|]. split; [lia|]. split; [constructor|].
    intros H. congruence.
  - cbv zeta in E, Hlen. rewrite E.
    set (max_buy := Z.min 2 (max_positions sc - held_count ctx)) in *.
    destruct (buy_loop_spec ctx broker (order_size pr sc broker ctx) max_buy signals
                (idle_buying g)) as (H1 & H2 & _ & _ & _ & _ & new & H7 & H8 & H9);
      [simpl; lia|].
    simpl in H1, H2, H7. rewrite H7.
    set (st' := buy_loop _ _ _ _ _ _) in *.
    destruct (order_size_bounds pr sc broker ctx) as [Hratio Hshare].
    split; [lia|]. split; [lia|]. split; [lia|]. split; [exact H8|].
    intros _. split; [exact Eh|]. split; [exact Em|]. split; [lia|].
    split; [exact Ecash|]. split; [split; assumption|].
    set (d := (max_positions sc - held_count ctx)%Z) in *.
    assert (Hd : 0 < inject_Z d).
    { replace 0 with (inject_Z 0) by reflexivity. rewrite <- Zlt_Qlt. lia. }
    assert (Hc : inject_Z (buy_count st') <= inject_Z d) by (rewrite <- Zle_Qle; lia).
    assert (Hc0 : 0 <= inject_Z (buy_count st')).
    { replace 0 with (inject_Z 0) by reflexivity. rewrite <- Zle_Qle. lia. }
    assert (Hback : available_cash broker / inject_Z d * inject_Z d
                    == available_cash broker) by (field; lra).
    set (v := order_size pr sc broker ctx) in *.
    set (c := inject_Z (buy_count st')) in *.
    set (q := available_cash broker / inject_Z d) in *.
    nra.
Qed.

(** X22. [trade_logic] only adds to [g.positions]: every entry that was
    there stays as it was, and it sends no close and no cancel request.
    Every entry it adds is for an instrument of the stock list whose two
    latest bars and circulating capital of the previous trading day passed
    today's screen (turnover above [min_turnover] and at most
    [max_turnover], rise of the high over the previous close above
    [min_price_change], close not limit-up), that got a signal from these
    two numbers, that was neither in [g.positions] nor held with a positive
    amount, and whose order was accepted; the entry is open, dated now and
    priced at the last price. *)
Theorem trade_logic_only_adds_open_entries (pv : Provider) (fd : Fundamentals)
    (pr : Params) (sc : Screen) (broker : Broker) (ctx : Context)
    (stock_list : list (string * string)) (g : Strategy) :
  let r := trade_logic pv fd pr sc broker ctx stock_list g in
  let today := dt_date (current_dt ctx) in
  (forall k p, positions g !! k = Some p -> positions (book r) !! k = Some p)
  /\ close_requests (book r) = close_requests g
  /\ cancel_requests (book r) = cancel_requests g
  /\ forall k q,
       positions (book r) !! k = Some q ->
       positions g !! k = Some q
       \/ (positions g !! k = None
           /\ (forall a, portfolio ctx !! k = Some a -> (a <= 0)%Z)
           /\ order_value broker k (order_size pr sc broker ctx) = OrderPlaced
           /\ selling q = false
           /\ buy_time q = current_dt ctx
           /\ last_price ctx !! k = Some (buy_price q)
           /\ exists name rows cap caps signal,
                In (k, name) stock_list
                /\ get_price pv k today 2 = Frame rows
                /\ (2 <= length rows)%nat
                /\ circulating_cap fd k (previous_trade_day fd today) = Frame (cap :: caps)
                /\ generate_trade_signal pv pr k name (day_change rows)
                     (day_turnover rows cap) (current_dt ctx)
                   = Some signal
                /\ min_turnover sc < day_turnover rows cap <= max_turnover sc
                /\ min_price_change sc < day_change rows
                /\ is_close_limit_up pv k today = false).
Proof.
  intros r today. subst r.
  destruct (trade_logic_cases pv fd pr sc broker ctx stock_list g)
    as [-> | (_ & _ & Eheld & _ & _ & signals & E & _ & Hfrom)].
  - simpl. repeat split; auto.
  - cbv zeta in E. rewrite E.
    set (max_buy := Z.min 2 (max_positions sc - held_count ctx)) in *.
    destruct (buy_loop_spec ctx broker (order_size pr sc broker ctx) max_buy signals
                (idle_buying g)) as (_ & _ & H3 & H4 & H5 & H6 & _);
      [simpl; lia|].
    simpl in H3, H4, H5, H6.
    split; [exact H3|]. split; [exact H5|]. split; [exact H6|].
    intros k q Hq.
    destruct (H4 k q Hq) as [Hold | (Ha & Ho & (s & Hs & Hk) & price & Hp & ->)];
      [left; exact Hold|].
    right. apply already_held_false in Ha. destruct Ha as [Hnone Hport].
    split; [exact Hnone|]. split; [exact Hport|]. split; [exact Ho|].
    split; [reflexivity|]. split; [reflexivity|]. split; [exact Hp|].
    destruct (collect_signals_elem _ _ _ _ _ _ _ (Hfrom s Hs))
      as (name & rows & cap & caps & Hin & Hrows & Hlen & Hcap & Hgen & Ht & Hc & Hl).
    rewrite Hk in Hin, Hrows, Hcap, Hgen, Hl.
    exists name, rows, cap, caps, s. subst today. auto 10.
Qed.

(** The breakout day: one order of 20000, one new open entry. *)
Example breakout_day_purchase :
  let r := trade_logic demo_market demo_fundamentals default_params default_screen
             demo_broker decision_tick [("600000.XSHG", "demo")]%string idle_strategy in
  buy_count r = 1%Z
  /\ map fst (buy_requests r) = ["600000.XSHG"%string]
  /\ positions (book r) !! "600000.XSHG"%string
     = Some (new_position decision_tick
               (order_size default_params default_screen demo_broker decision_tick) 128).
Proof. repeat split; vm_compute; reflexivity. Qed.

(** ** From purchase to close *)

(** X23. An instrument bought by [trade_logic] starts as an open entry,
    and [trade_logic] sends no close request.  Whatever exit checks and
    cleanups follow, the close requests for the instrument number at most
    one more than the calls in which [order_target] raises for it; so
    without a raising call there is at most one. *)
Theorem bought_position_close_requests (pv : Provider) (fd : Fundamentals)
    (pr : Params) (sc : Screen) (broker : Broker) (ctx : Context)
    (stock_list : list (string * string)) (g : Strategy) (ticks : list Tick)
    (k : string) (q : Position)
    (Hnew : positions g !! k = None)
    (Hbought : positions (book (trade_logic pv fd pr sc broker ctx stock_list g)) !! k
               = Some q) :
  selling q = false
  /\ exists new,
       close_requests (run pr ticks (book (trade_logic pv fd pr sc broker ctx stock_list g)))
       = close_requests g ++ new
       /\ (length (List.filter (String.eqb k) new) <= 1 + refusals k ticks)%nat.
Proof.
  set (r := trade_logic pv fd pr sc broker ctx stock_list g) in *.
  assert (Hopen : selling q = false /\ close_requests (book r) = close_requests g).
  { subst r.
    destruct (trade_logic_cases pv fd pr sc broker ctx stock_list g)
      as [E | (_ & _ & Eheld & _ & _ & signals & E & _ & _)].
    - rewrite E in Hbought. simpl in Hbought. congruence.
    - cbv zeta in E. rewrite E in Hbought |- *.
      set (max_buy := Z.min 2 (max_positions sc - held_count ctx)) in *.
      destruct (buy_loop_spec ctx broker (order_size pr sc broker ctx) max_buy signals
                  (idle_buying g)) as (_ & _ & _ & H4 & H5 & _);
        [simpl; lia|].
      simpl in H4, H5. split; [|exact H5].
      destruct (H4 k q Hbought) as [Hold | (_ & _ & _ & price & _ & ->)];
        [congruence | reflexivity]. }
  destruct Hopen as [Hs Hreq]. split; [exact Hs|].
  destruct (run_advances pr ticks (book r)) as (new & E & B).
  exists new. rewrite E, Hreq. split; [reflexivity|].
  destruct (B k) as [_ Hb]. unfold budget in Hb at 2. rewrite Hbought, Hs in Hb. lia.
Qed.

Lemma bought_position_close_requests_witness :
  exists new,
    close_requests
      (run default_params demo_ticks
         (book (trade_logic demo_market demo_fundamentals default_params default_screen
                  demo_broker decision_tick [("600000.XSHG", "demo")]%string
                  idle_strategy)))
    = close_requests idle_strategy ++ new
    /\ (length (List.filter (String.eqb "600000.XSHG") new)
        <= 1 + refusals "600000.XSHG" demo_ticks)%nat.
Proof.
  refine (proj2 (bought_position_close_requests demo_market demo_fundamentals
                   default_params default_screen demo_broker decision_tick
                   [("600000.XSHG", "demo")]%string idle_strategy demo_ticks
                   "600000.XSHG"
                   (new_position decision_tick
                      (order_size default_params default_screen demo_broker decision_tick)
                      128) _ _)).
  - vm_compute. reflexivity.
  - vm_compute. reflexivity.
Defined.

(** ** The range of the quality score *)

Lemma analyse_waves_score_failure (pr : Params) (all_waves : list Wave)
    (supports : list Q) (s : Z) :
  analyse_waves pr all_waves supports = NotConfirmed (ScoreTooLow s) ->
  s = spec_quality_score all_waves supports
  /\ (2 <= length supports)%nat /\ (s < min_wave_score pr)%Z.
Proof.
  unfold analyse_waves.
  destruct (length (up_legs all_waves) <? 3)%nat; [discriminate|].
  destruct (negb _); [discriminate|].
  destruct (length supports <? 2)%nat eqn:E3; [discriminate|].
  apply Nat.ltb_ge in E3. rewrite wave_score_spec.
  destruct (_ <? _)%Z eqn:E4; [|discriminate].
  apply Z.ltb_lt in E4. intros H. inversion H; subst. auto.
Qed.

Lemma spec_quality_score_steps (all_waves : list Wave) (supports : list Q) :
  (2 <= length supports)%nat ->
  exists n : Z, (0 <= n <= 5)%Z
                /\ spec_quality_score all_waves supports = (20 + 10 * n)%Z.
Proof.
  intros Hs. unfold spec_quality_score.
  assert (H : (length (List.filter in_band (take 3 (up_legs all_waves))) <= 3)%nat).
  { etransitivity; [apply filter_length_le|]. rewrite length_take. lia. }
  apply Nat.leb_le in Hs. rewrite Hs.
  destruct (total_duration all_waves <=? 90)%Z.
  - exists (Z.of_nat (length (List.filter in_band (take 3 (up_legs all_waves)))) + 2)%Z.
    split; lia.
  - exists (Z.of_nat (length (List.filter in_band (take 3 (up_legs all_waves)))))%Z.
    split; lia.
Qed.

(** X24. Every quality score the detector reports, whether in a confirmed
    pattern or in a score failure, is one of 20, 30, 40, 50, 60, 70: the 20
    points for two supports are always there when the score is computed.
    So a configured minimum of 20 or less lets every scored pattern through,
    and a minimum above 70 lets none through. *)
Theorem quality_score_takes_six_values (pv : Provider) (pr : Params) (code : string)
    (start_date end_date : Z) :
  match identify_three_waves pv pr code start_date end_date with
  | Confirmed p =>
      (exists n : Z, (0 <= n <= 5)%Z /\ quality_score p = (20 + 10 * n)%Z)
      /\ (min_wave_score pr <= 70)%Z
  | NotConfirmed (ScoreTooLow s) =>
      (exists n : Z, (0 <= n <= 5)%Z /\ s = (20 + 10 * n)%Z)
      /\ (20 < min_wave_score pr)%Z
  | NotConfirmed _ => True
  end.
Proof.
  destruct (identify_three_waves pv pr code start_date end_date) as [reason|p] eqn:E.
  - destruct reason; try exact I.
    unfold identify_three_waves in E.
    destruct (get_price pv code end_date (end_date - start_date + 100)%Z)
      as [| |price_data]; try discriminate.
    destruct (locate_start (map date price_data) start_date 0) as [i|]; [|discriminate].
    destruct (length price_data - i <? 30)%nat; [discriminate|].
    apply analyse_waves_score_failure in E. destruct E as (-> & Hs & Hlt).
    destruct (spec_quality_score_steps
                (acc_waves (segment (drop i price_data)))
                (acc_supports (segment (drop i price_data))) Hs) as (n & Hn & En).
    split; [exists n; split; [exact Hn | exact En] | lia].
  - apply identify_three_waves_confirmed in E.
    destruct E as (price_data & i & _ & _ & _ & H). simpl in H.
    apply analyse_waves_confirmed in H.
    destruct H as (_ & _ & Hs & Hmin & _ & _ & Hq).
    destruct (spec_quality_score_steps
                (acc_waves (segment (drop i price_data)))
                (acc_supports (segment (drop i price_data))) Hs) as (n & Hn & En).
    rewrite Hq, En. split; [exists n; split; [exact Hn | lia] | lia].
Qed.

(** ** When the segmentation stops *)

Lemma segment_loop_grows (data : list Bar) (fuel : nat) (st : SegState) :
  (length (acc_waves st) <= length (acc_waves (segment_loop fuel data st)))%nat.
Proof.
  revert st. induction fuel as [|fuel IH]; intros st; simpl; [lia|].
  destruct (segment_guard data st) eqn:G; [|lia].
  destruct (segment_guard_true _ _ G) as [Hc _].
  destruct (segment_step_spec data st) as (s & e & w & Hw & _); [lia|].
  specialize (IH (segment_step data st)). rewrite Hw, length_app in IH. simpl in IH. lia.
Qed.

Lemma segment_first_iteration (data : list Bar) :
  segment data
  = if segment_guard data segment_init
    then segment_loop 7 data (segment_step data segment_init)
    else segment_init.
Proof. reflexivity. Qed.

(** X25. The segmentation produces no leg at all from a series of 10 bars
    or fewer and at least one leg from any longer series; it stops only
    with 8 legs or with 10 bars or fewer left from the cursor on. *)
Theorem segmentation_stops_near_the_end (data : list Bar) :
  ((length data <= 10)%nat <-> acc_waves (segment data) = [])
  /\ (length (acc_waves (segment data)) = 8%nat
      \/ (length data <= current_idx (segment data) + 10)%nat).
Proof.
  split.
  - split.
    + intros Hlen. rewrite segment_first_iteration.
      assert (G : segment_guard data segment_init = false).
      { unfold segment_guard. simpl. apply andb_false_iff. left. apply Nat.ltb_ge. lia. }
      rewrite G. reflexivity.
    + intros Hnil. destruct (le_lt_dec (length data) 10) as [H|H]; [exact H|].
      exfalso. rewrite segment_first_iteration in Hnil.
      assert (G : segment_guard data segment_init = true).
      { unfold segment_guard. simpl. apply andb_true_iff. split; [|reflexivity].
        apply Nat.ltb_lt. lia. }
      rewrite G in Hnil.
      pose proof (segment_loop_grows data 7 (segment_step data segment_init)) as Hg.
      rewrite Hnil in Hg.
      destruct (segment_step_spec data segment_init) as (s & e & w & Hw & _);
        [simpl; lia|].
      rewrite Hw in Hg. simpl in Hg. lia.
  - pose proof (segment_stopped data) as G. unfold segment_guard in G.
    apply andb_false_iff in G. destruct G as [G|G].
    + right. apply Nat.ltb_ge in G. lia.
    + left. apply Nat.ltb_ge in G.
      destruct (segment_loop_bounds data 8 segment_init) as [Hle _];
        [simpl; lia | constructor |].
      fold (segment data) in Hle. lia.
Qed.
